(** * Verification of the burger-making system (src/src/burger.py)

    A shallow embedding of [burger.py] and the theorems that settle the
    claims made about it.

    - A Python [str] is a sequence of Unicode characters.  It is kept
      here as a Rocq [string] holding the UTF-8 code of each character
      in turn; a lone surrogate, which a Python string can hold and
      UTF-8 refuses, stands as the three bytes the UTF-8 scheme would
      give it.  [str.strip], [str.lower] and [str.upper] work on the
      characters, as in Python: the white space is that of
      [str.isspace], and the case mappings outside ASCII are those of
      the interpreter's Unicode database, [UnicodeData].
    - Python's [float] is IEEE-754 binary64.  The arithmetic the module
      uses is an interface, [PyFloat], with two instances: [binary64]
      (what the interpreter computes, from [SpecFloat]) and [exact]
      (the rationals, the arithmetic in which the formulas of the
      specification are written).
    - The module globals, the logger, standard input, the clock and the
      file system are fields of one [state] record, threaded through a
      state-and-exception monad [M].
    - The interpreter bounds the depth of the call stack; the one
      recursive function, [calculate_tax], carries the number of frames
      it may still add. *)

From Stdlib Require Import ZArith NArith QArith Qround Qabs Qcanon List String Ascii Bool Lia.
From Stdlib Require Import Floats.SpecFloat.
From stdpp Require Import gmap strings pretty.

Import ListNotations.
Local Open Scope Z_scope.
Local Open Scope string_scope.

(** ** The Unicode character database

    [str.lower] and [str.upper] take the case mappings of a character,
    and whether it is cased or case-ignorable, from the Unicode
    character database the interpreter is built with.  For the ASCII
    characters the values are written out in [Text].  For the other
    characters they are the four functions below, of which three
    characters are known here: the dotless i and the long s, two
    lower-case letters whose capitals are the ASCII [I] and [S], and
    the Kelvin sign, whose lower case is the ASCII [k].  Whatever is
    proved holds for every database with these values. *)

Class UnicodeData := {
  (* the full lower-case and upper-case mappings *)
  ucd_lower : N -> list N;
  ucd_upper : N -> list N;
  (* the properties Cased and Case_Ignorable *)
  ucd_cased : N -> bool;
  ucd_case_ignorable : N -> bool;
  (* U+0131 LATIN SMALL LETTER DOTLESS I *)
  lower_dotless_i : ucd_lower 0x131 = [0x131%N];
  upper_dotless_i : ucd_upper 0x131 = [0x49%N];
  (* U+017F LATIN SMALL LETTER LONG S *)
  lower_long_s : ucd_lower 0x17F = [0x17F%N];
  upper_long_s : ucd_upper 0x17F = [0x53%N];
  (* U+212A KELVIN SIGN *)
  lower_kelvin : ucd_lower 0x212A = [0x6B%N]
}.

(** A database with these three characters and no other letter: every
    other character is its own lower and upper case.  It serves to run
    the model on texts made of ASCII and of the three characters. *)
#[global] Instance ucd_listed : UnicodeData := {|
  ucd_lower c := if (c =? 0x212A)%N then [0x6B%N] else [c];
  ucd_upper c :=
    if (c =? 0x131)%N then [0x49%N]
    else if (c =? 0x17F)%N then [0x53%N] else [c];
  ucd_cased c := ((c =? 0x131) || (c =? 0x17F) || (c =? 0x212A))%N;
  ucd_case_ignorable _ := false;
  lower_dotless_i := eq_refl;
  upper_dotless_i := eq_refl;
  lower_long_s := eq_refl;
  upper_long_s := eq_refl;
  lower_kelvin := eq_refl
|}.

(** ** Text operations *)

Module Text.

Local Open Scope N_scope.

(** *** Characters and their UTF-8 codes *)

Definition byte (a : ascii) : N := N_of_ascii a.

(** The bytes [10xxxxxx] that continue the code of a character. *)
Definition continuation (b : N) : bool := (0x80 <=? b) && (b <=? 0xBF).

(** A byte that is part of no character's code is kept as a value of
    its own, beyond the last code point. *)
Definition stray (b : N) : N := 0x110000 + b.

(** The characters of a text: codes of one to four bytes, no longer
    than need be. *)
Fixpoint decode (s : string) : list N :=
  match s with
  | EmptyString => []
  | String a0 s1 =>
      let b0 := byte a0 in
      if b0 <? 0x80 then b0 :: decode s1
      else
        match s1 with
        | EmptyString => [stray b0]
        | String a1 s2 =>
            let b1 := byte a1 in
            if (0xC2 <=? b0) && (b0 <=? 0xDF) && continuation b1 then
              ((b0 - 0xC0) * 64 + (b1 - 0x80)) :: decode s2
            else
              match s2 with
              | EmptyString => stray b0 :: decode s1
              | String a2 s3 =>
                  let b2 := byte a2 in
                  let c3 := (b0 - 0xE0) * 4096 + (b1 - 0x80) * 64 + (b2 - 0x80) in
                  if (0xE0 <=? b0) && (b0 <=? 0xEF) && continuation b1
                     && continuation b2 && (0x800 <=? c3) then
                    c3 :: decode s3
                  else
                    match s3 with
                    | EmptyString => stray b0 :: decode s1
                    | String a3 s4 =>
                        let b3 := byte a3 in
                        let c4 := (b0 - 0xF0) * 262144 + (b1 - 0x80) * 4096
                                  + (b2 - 0x80) * 64 + (b3 - 0x80) in
                        if (0xF0 <=? b0) && (b0 <=? 0xF4) && continuation b1
                           && continuation b2 && continuation b3
                           && (0x10000 <=? c4) && (c4 <? 0x110000) then
                          c4 :: decode s4
                        else stray b0 :: decode s1
                    end
              end
        end
  end.

Definition of_bytes (l : list N) : string :=
  string_of_list_ascii (List.map ascii_of_N l).

(** The UTF-8 code of a character. *)
Definition utf8 (c : N) : string :=
  of_bytes
    (if c <? 0x80 then [c]
     else if c <? 0x800 then [0xC0 + c / 64; 0x80 + c mod 64]
     else if c <? 0x10000 then
       [0xE0 + c / 4096; 0x80 + (c / 64) mod 64; 0x80 + c mod 64]
     else if c <? 0x110000 then
       [0xF0 + c / 262144; 0x80 + (c / 4096) mod 64;
        0x80 + (c / 64) mod 64; 0x80 + c mod 64]
     else [c - 0x110000]).

Definition encode (l : list N) : string :=
  String.concat EmptyString (List.map utf8 l).

(** *** [str.lower] and [str.upper] *)

Definition ascii_upper (c : N) : bool := (0x41 <=? c) && (c <=? 0x5A).
Definition ascii_lower (c : N) : bool := (0x61 <=? c) && (c <=? 0x7A).

Section Case.

Context {U : UnicodeData}.

(** The lower case of one character: only [A]..[Z] change in ASCII. *)
Definition to_lower (c : N) : list N :=
  if c <? 0x80 then [if ascii_upper c then c + 32 else c]
  else if c <? 0x110000 then ucd_lower c
  else [c].

(** The upper case of one character: only [a]..[z] change in ASCII. *)
Definition to_upper (c : N) : list N :=
  if c <? 0x80 then [if ascii_lower c then c - 32 else c]
  else if c <? 0x110000 then ucd_upper c
  else [c].

(** In ASCII the letters are cased. *)
Definition cased (c : N) : bool :=
  if c <? 0x80 then ascii_upper c || ascii_lower c
  else if c <? 0x110000 then ucd_cased c
  else false.

(** In ASCII the apostrophe, the full stop, the colon, the circumflex
    and the grave accent are case-ignorable. *)
Definition case_ignorable (c : N) : bool :=
  if c <? 0x80 then
    (c =? 0x27) || (c =? 0x2E) || (c =? 0x3A) || (c =? 0x5E) || (c =? 0x60)
  else if c <? 0x110000 then ucd_case_ignorable c
  else false.

(** A capital sigma is final when a cased character comes before it
    and none after it, case-ignorable characters passed over; [before]
    holds the characters before the sigma, the nearest first. *)
Fixpoint cased_before (before : list N) : bool :=
  match before with
  | [] => false
  | c :: rest => if case_ignorable c then cased_before rest else cased c
  end.

Fixpoint none_cased_after (after : list N) : bool :=
  match after with
  | [] => true
  | c :: rest => if case_ignorable c then none_cased_after rest else negb (cased c)
  end.

Definition final_sigma (before after : list N) : bool :=
  cased_before before && none_cased_after after.

(** The characters in lower case, one by one; the capital sigma,
    U+03A3, becomes the final sigma U+03C2 or the sigma U+03C3. *)
Fixpoint lower_codes (before l : list N) : list N :=
  match l with
  | [] => []
  | c :: rest =>
      ((if c =? 0x3A3 then [if final_sigma before rest then 0x3C2 else 0x3C3]
        else to_lower c)
       ++ lower_codes (c :: before) rest)%list
  end.

(** [s.lower()] *)
Definition lower (s : string) : string := encode (lower_codes [] (decode s)).

(** [s.upper()] *)
Definition upper (s : string) : string :=
  encode (List.concat (List.map to_upper (decode s))).

End Case.

(** *** [str.strip] *)

(** The white space of [str.isspace]: TAB, LF, VT, FF, CR, the four
    separators FS..US, the space, NEL, the no-break space, the Ogham
    space mark, the spaces U+2000..U+200A, the line and the paragraph
    separator, the narrow no-break space, the medium mathematical space
    and the ideographic space. *)
Definition space_codes : list N :=
  [0x9; 0xA; 0xB; 0xC; 0xD; 0x1C; 0x1D; 0x1E; 0x1F; 0x20; 0x85; 0xA0;
   0x1680; 0x2000; 0x2001; 0x2002; 0x2003; 0x2004; 0x2005; 0x2006;
   0x2007; 0x2008; 0x2009; 0x200A; 0x2028; 0x2029; 0x202F; 0x205F; 0x3000].

Definition isspace (c : N) : bool := existsb (N.eqb c) space_codes.

(** The bytes [w] are the code of one character, and it is white
    space. *)
Definition space_code (w : list ascii) : bool :=
  match decode (string_of_list_ascii w) with
  | [c] => isspace c
  | _ => false
  end.

(** A text without the white space it starts with, for a test
    [is_space] of the code of a character; a white-space character is
    coded on one, two or three bytes. *)
Fixpoint lstrip_with (is_space : list ascii -> bool) (l : list ascii)
  : list ascii :=
  match l with
  | [] => []
  | a :: l1 =>
      if is_space [a] then lstrip_with is_space l1
      else
        match l1 with
        | [] => l
        | b :: l2 =>
            if is_space [a; b] then lstrip_with is_space l2
            else
              match l2 with
              | [] => l
              | c :: l3 =>
                  if is_space [a; b; c] then lstrip_with is_space l3 else l
              end
        end
  end.

Definition lstrip_bytes (l : list ascii) : list ascii :=
  lstrip_with space_code l.

(** From the end: the same on the text read backwards. *)
Definition rstrip_bytes (l : list ascii) : list ascii :=
  reverse (lstrip_with (fun w => space_code (reverse w)) (reverse l)).

Definition lstrip (s : string) : string :=
  string_of_list_ascii (lstrip_bytes (list_ascii_of_string s)).

Definition rstrip (s : string) : string :=
  string_of_list_ascii (rstrip_bytes (list_ascii_of_string s)).

(** [s.strip()] *)
Definition strip (s : string) : string :=
  string_of_list_ascii (rstrip_bytes (lstrip_bytes (list_ascii_of_string s))).

(** *** [str.split], [str.join] *)

(** [s.split(sep)] for a non-empty separator: the leftmost occurrences
    of [sep], not overlapping.  [skip] counts the bytes of a separator
    still to be passed over, [cur] is the current piece, reversed. *)
Fixpoint split_go (sep : string) (skip : nat) (cur : string) (s : string)
  : list string :=
  match s with
  | EmptyString => [String.rev cur]
  | String c s' =>
      match skip with
      | S k => split_go sep k cur s'
      | O =>
          if String.prefix sep s
          then String.rev cur :: split_go sep (String.length sep - 1) EmptyString s'
          else split_go sep O (String c cur) s'
      end
  end.

Definition split (sep s : string) : list string :=
  split_go sep O EmptyString s.

(** [sep.join(l)] *)
Definition join (sep : string) (l : list string) : string :=
  String.concat sep l.

(** [not s] for a string *)
Definition is_empty (s : string) : bool :=
  match s with EmptyString => true | _ => false end.

(** [s.isascii()] *)
Fixpoint isascii (s : string) : bool :=
  match s with
  | EmptyString => true
  | String a s' => (byte a <? 0x80) && isascii s'
  end.

(** *** Encoding in UTF-8

    The encoder refuses the surrogates U+D800..U+DFFF. *)

Definition encodable (c : N) : bool := (c <? 0xD800) || ((0xDFFF <? c) && (c <? 0x110000)).

Definition hex_digit (d : N) : ascii :=
  nth (N.to_nat d) (list_ascii_of_string "0123456789abcdef") "0"%char.

Definition hex4 (c : N) : string :=
  string_of_list_ascii
    [hex_digit (c / 4096 mod 16); hex_digit (c / 256 mod 16);
     hex_digit (c / 16 mod 16); hex_digit (c mod 16)].

(** The number of characters a text starts with that pass a test. *)
Fixpoint run_length (p : N -> bool) (l : list N) : nat :=
  match l with
  | c :: rest => if p c then S (run_length p rest) else O
  | [] => O
  end.

(** [str(e)] for the [UnicodeEncodeError] of [s.encode("utf-8")], if
    the text cannot be encoded: the error names the first run of
    characters the encoder refuses. *)
Definition encode_error (s : string) : option string :=
  let l := decode s in
  let start := run_length encodable l in
  let run := run_length (fun c => negb (encodable c)) (drop start l) in
  match run with
  | O => None
  | 1%nat =>
      Some ("'utf-8' codec can't encode character '\u" ++ hex4 (List.nth start l 0)
            ++ "' in position " ++ pretty start ++ ": surrogates not allowed")%string
  | _ =>
      Some ("'utf-8' codec can't encode characters in position " ++ pretty start
            ++ "-" ++ pretty (start + run - 1)%nat
            ++ ": surrogates not allowed")%string
  end.

(** The first [n] bytes of a text. *)
Definition first_bytes (n : nat) (s : string) : string := String.substring 0 n s.

End Text.

(** ** Exceptions *)

(** The exception classes that occur in the module or that its
    collaborators ([input], [tempfile], [pathlib]) raise. *)
Inductive exc_class :=
| BaseException | Exception | KeyboardInterrupt | SystemExit
| ValueError | AttributeError | TypeError | EOFError
| RuntimeError | RecursionError
| UnicodeError | UnicodeEncodeError
| OSError | FileExistsError | FileNotFoundError | PermissionError.

(** [IOError] is an alias of [OSError] since Python 3.3. *)
Definition IOError : exc_class := OSError.

#[global] Instance exc_class_eq_dec : EqDecision exc_class.
Proof. solve_decision. Defined.

(** The direct base class. *)
Definition base (c : exc_class) : option exc_class :=
  match c with
  | BaseException => None
  | Exception | KeyboardInterrupt | SystemExit => Some BaseException
  | ValueError | AttributeError | TypeError | EOFError | RuntimeError
  | OSError => Some Exception
  | RecursionError => Some RuntimeError
  | UnicodeError => Some ValueError
  | UnicodeEncodeError => Some UnicodeError
  | FileExistsError | FileNotFoundError | PermissionError => Some OSError
  end.

(** [issubclass(c, d)]; the hierarchy is four levels deep. *)
Fixpoint issubclass_fuel (fuel : nat) (c d : exc_class) : bool :=
  if decide (c = d) then true
  else match fuel, base c with
       | S k, Some b => issubclass_fuel k b d
       | _, _ => false
       end.

Definition issubclass (c d : exc_class) : bool := issubclass_fuel 4 c d.

Record exc := Exc { exc_cls : exc_class; exc_msg : string }.

(** [isinstance(e, c)] *)
Definition isinstance (e : exc) (c : exc_class) : bool :=
  issubclass (exc_cls e) c.

(** ** The state of the process and of its environment *)

Inductive level := DEBUG | INFO | WARNING | ERROR.

#[global] Instance level_eq_dec : EqDecision level.
Proof. solve_decision. Defined.

Record log_record := LogRecord { lvl : level; msg : string }.

(** What the next call of [input()] meets on standard input. *)
Inductive input_event :=
| Line (s : string)          (* a line, without its newline *)
| Fails (e : exc).           (* the call raises, e.g. Ctrl-C *)

(** What the next call of the operating system meets: it goes through,
    or it raises.  A write that raises may have put the first [written]
    bytes of its data on the disk before; for the other calls the
    number says nothing. *)
Inductive os_event :=
| Done
| Fault (e : exc) (written : nat).

Record state := State {
  (* module globals *)
  BURGER_COUNT : Z;
  last_burger : option string;
  (* the logger's output, oldest record first *)
  log : list log_record;
  (* the terminal *)
  stdin : list input_event;
  stdout : list string;
  (* datetime.now().isoformat() *)
  now : string;
  (* the file system: directory path to (file name to content) *)
  fs : gmap string (gmap string string);
  (* tempfile: the temporary directory and the random names it draws *)
  tempdir : string;
  tmp_names : list string;
  (* what the calls of the operating system meet, one entry per call:
     the making of a directory, the opening of a file, the writing of
     its data; no entry, no fault *)
  os_faults : list os_event
}.

Definition set_count (n : Z) (st : state) : state :=
  State n (last_burger st) (log st) (stdin st) (stdout st) (now st)
        (fs st) (tempdir st) (tmp_names st) (os_faults st).

Definition set_last (b : option string) (st : state) : state :=
  State (BURGER_COUNT st) b (log st) (stdin st) (stdout st) (now st)
        (fs st) (tempdir st) (tmp_names st) (os_faults st).

Definition set_log (l : list log_record) (st : state) : state :=
  State (BURGER_COUNT st) (last_burger st) l (stdin st) (stdout st) (now st)
        (fs st) (tempdir st) (tmp_names st) (os_faults st).

Definition set_stdin (i : list input_event) (st : state) : state :=
  State (BURGER_COUNT st) (last_burger st) (log st) i (stdout st) (now st)
        (fs st) (tempdir st) (tmp_names st) (os_faults st).

Definition set_stdout (o : list string) (st : state) : state :=
  State (BURGER_COUNT st) (last_burger st) (log st) (stdin st) o (now st)
        (fs st) (tempdir st) (tmp_names st) (os_faults st).

Definition set_fs (f : gmap string (gmap string string)) (st : state) : state :=
  State (BURGER_COUNT st) (last_burger st) (log st) (stdin st) (stdout st) (now st)
        f (tempdir st) (tmp_names st) (os_faults st).

Definition set_tmp_names (l : list string) (st : state) : state :=
  State (BURGER_COUNT st) (last_burger st) (log st) (stdin st) (stdout st) (now st)
        (fs st) (tempdir st) l (os_faults st).

Definition set_os_faults (l : list os_event) (st : state) : state :=
  State (BURGER_COUNT st) (last_burger st) (log st) (stdin st) (stdout st) (now st)
        (fs st) (tempdir st) (tmp_names st) l.

(** ** The monad of state and exceptions

    A statement either returns a value or raises; in both cases what it
    did to the state before stays done. *)

Inductive result (A : Type) :=
| Return (a : A)
| Raise (e : exc).
Arguments Return {A} a.
Arguments Raise {A} e.

Definition M (A : Type) : Type := state -> result A * state.

Definition ret {A} (a : A) : M A := fun st => (Return a, st).

Definition raise {A} (e : exc) : M A := fun st => (Raise e, st).

Definition bind {A B} (m : M A) (k : A -> M B) : M B :=
  fun st =>
    match m st with
    | (Return a, st') => k a st'
    | (Raise e, st') => (Raise e, st')
    end.

Notation "x <- m ;; k" := (bind m (fun x => k))
  (at level 100, m at next level, right associativity).
Notation "m ;;; k" := (bind m (fun _ => k))
  (at level 100, right associativity).

(** A result that needs no state. *)
Definition lift {A} (r : result A) : M A := fun st => (r, st).

Definition get : M state := fun st => (Return st, st).
Definition modify (f : state -> state) : M unit := fun st => (Return tt, f st).

(** [try: body  except C1: h1  except C2: h2 ...]: the first clause one
    of whose classes the exception is an instance of handles it; with no
    such clause it goes on to the caller. *)
Fixpoint find_handler {A} (e : exc)
    (handlers : list (list exc_class * (exc -> M A))) : option (M A) :=
  match handlers with
  | [] => None
  | (classes, h) :: rest =>
      if existsb (isinstance e) classes then Some (h e)
      else find_handler e rest
  end.

Definition try_except {A} (body : M A)
    (handlers : list (list exc_class * (exc -> M A))) : M A :=
  fun st =>
    match body st with
    | (Return a, st') => (Return a, st')
    | (Raise e, st') =>
        match find_handler e handlers with
        | Some h => h st'
        | None => (Raise e, st')
        end
    end.

(** ** The logger *)

Definition logger_log (l : level) (m : string) : M unit :=
  modify (fun st => set_log (log st ++ [LogRecord l m]) st).

Definition logger_info := logger_log INFO.
Definition logger_warning := logger_log WARNING.
Definition logger_error := logger_log ERROR.

(** The number of records of a level in a log. *)
Definition count_level (l : level) (rs : list log_record) : nat :=
  List.length (List.filter (fun r => bool_decide (lvl r = l)) rs).

(** ** The collaborators: [input], the clock *)

(** [input(prompt)]: the prompt goes to the terminal, then a line is
    read; at the end of the input the call raises [EOFError]. *)
Definition input (prompt : string) : M string :=
  fun st =>
    let st := set_stdout (stdout st ++ [prompt]) st in
    match stdin st with
    | [] => (Raise (Exc EOFError "EOF when reading a line"), st)
    | Line s :: rest => (Return s, set_stdin rest st)
    | Fails e :: rest => (Raise e, set_stdin rest st)
    end.

(** [get_order_timestamp()] *)
Definition get_order_timestamp : M string :=
  st <- get ;; ret (now st).

(** ** Float arithmetic

    The operations of Python's [float] that the module uses.
    [float_lit m k] is the decimal literal [m * 10^-k]: [2.0] is
    [float_lit 20 1], [0.3] is [float_lit 3 1]. *)

Class PyFloat (F : Type) := {
  float_lit : Z -> nat -> F;
  float_add : F -> F -> F;
  float_mul : F -> F -> F;
  float_le : F -> F -> bool;
  (* round(x, ndigits) with ndigits >= 0 *)
  float_round : F -> nat -> F
}.

(** The nearest integer, ties to the even one. *)
Definition round_half_even (q : Q) : Z :=
  let f := Qfloor q in
  match Qcompare (q - inject_Z f) (1 # 2) with
  | Lt => f
  | Gt => f + 1
  | Eq => if Z.even f then f else f + 1
  end.

(** *** Python's arithmetic: IEEE-754 binary64, round to nearest even *)

Module Binary64.

Definition prec : Z := 53.
Definition emax : Z := 1024.

(** An integer as a float datum, not yet rounded. *)
Definition of_Z (z : Z) : spec_float :=
  match z with
  | Z0 => S754_zero false
  | Zpos p => S754_finite false p 0
  | Zneg p => S754_finite true p 0
  end.

(** A decimal literal denotes the double nearest to it: the quotient
    of two integers, rounded once by the division. *)
Definition lit (m : Z) (k : nat) : spec_float :=
  SFdiv prec emax (of_Z m) (of_Z (10 ^ Z.of_nat k)).

Definition add : spec_float -> spec_float -> spec_float := SFadd prec emax.
Definition mul : spec_float -> spec_float -> spec_float := SFmul prec emax.
Definition le : spec_float -> spec_float -> bool := SFleb.

(** The real number a finite float stands for. *)
Definition to_Q (x : spec_float) : Q :=
  match x with
  | S754_finite s m e =>
      ((if s then -1 else 1) * inject_Z (Zpos m) * Qpower 2 e)%Q
  | _ => 0%Q
  end.

(** [round(x, ndigits)]: the decimal with [ndigits] places nearest to
    the exact value of [x] (ties to even), then the double nearest to
    that decimal; infinities and NaN round to themselves. *)
Definition round (x : spec_float) (ndigits : nat) : spec_float :=
  match x with
  | S754_finite s _ _ =>
      let scale := 10 ^ Z.of_nat ndigits in
      match round_half_even (to_Q x * inject_Z scale) with
      | Z0 => S754_zero s
      | n => SFdiv prec emax (of_Z n) (of_Z scale)
      end
  | _ => x
  end.

(** [0 <= x] can only hold for these. *)
Definition nonneg (x : spec_float) : bool :=
  match x with
  | S754_zero _ | S754_infinity false | S754_finite false _ _ => true
  | _ => false
  end.

End Binary64.

#[global] Instance binary64 : PyFloat spec_float := {
  float_lit := Binary64.lit;
  float_add := Binary64.add;
  float_mul := Binary64.mul;
  float_le := Binary64.le;
  float_round := Binary64.round
}.

(** *** Exact arithmetic: the rationals in lowest terms *)

Module Exact.

Definition lit (m : Z) (k : nat) : Qc :=
  Q2Qc (inject_Z m / inject_Z (10 ^ Z.of_nat k)).

Definition le (x y : Qc) : bool := Qle_bool x y.

Definition round (x : Qc) (ndigits : nat) : Qc :=
  let scale := inject_Z (10 ^ Z.of_nat ndigits) in
  Q2Qc (inject_Z (round_half_even (x * scale)) / scale).

End Exact.

#[global] Instance exact : PyFloat Qc := {
  float_lit := Exact.lit;
  float_add := Qcplus;
  float_mul := Qcmult;
  float_le := Exact.le;
  float_round := Exact.round
}.

(** ** The price calculator *)

(** The values the elements of an ingredient list have in the module
    and in its tests: text, [None], an integer. *)
Inductive pyobj :=
| PyStr (s : string)
| PyNone
| PyInt (z : Z).

(** [str(o)] *)
Definition py_str (o : pyobj) : string :=
  match o with
  | PyStr s => s
  | PyNone => "None"
  | PyInt z => pretty z
  end.

(** [o.lower()]: only text has the method. *)
Definition py_lower {U : UnicodeData} (o : pyobj) : M string :=
  match o with
  | PyStr s => ret (Text.lower s)
  | PyNone =>
      raise (Exc AttributeError "'NoneType' object has no attribute 'lower'")
  | PyInt _ =>
      raise (Exc AttributeError "'int' object has no attribute 'lower'")
  end.

(** ** The call stack

    A call needs a frame, and the interpreter raises [RecursionError]
    when the stack would grow beyond [sys.getrecursionlimit()] frames,
    1000 unless a program sets the limit, which this one does not.  The
    module has one recursive function, [calculate_tax]; when the module
    runs as a script, its first call finds five frames on the stack:
    that of the module, those of [main], [assemble_burger] and
    [calculate_burger_price], and its own.  A caller deeper in the stack
    leaves it less room; the default count asks for two more frames. *)

Definition recursion_limit : nat := 1000.
Definition frames_in_use : nat := 5.

(** The frames [calculate_tax] may add below its first one. *)
Definition tax_room : nat := recursion_limit - frames_in_use.

Section PriceCalculator.

Context {U : UnicodeData} {F : Type} `{PyFloat F}.

Definition INGREDIENT_PRICES : gmap string F :=
  list_to_map [
    ("bun", float_lit 20 1);
    ("beef", float_lit 50 1);
    ("chicken", float_lit 40 1);
    ("cheese", float_lit 10 1);
    ("tomato", float_lit 5 1);
    ("lettuce", float_lit 5 1);
    ("sauce", float_lit 3 1)
  ].

Definition TAX_RATE : F := float_lit 1 1.
Definition TAX_ITERATIONS : Z := 2.

(** [INGREDIENT_PRICES.get(key, 0.0)] *)
Definition price_of (key : string) : F :=
  default (float_lit 0 1) (INGREDIENT_PRICES !! key).

(** The inner function [calculate_tax], run in a frame below which the
    interpreter allows [room] more; the recursive call needs one of
    them.  The [1] of [1 + TAX_RATE] is an [int], converted to [1.0] by
    the addition. *)
Fixpoint calculate_tax (room : nat) (price : F) (iterations : Z) : result F :=
  if decide (iterations <= 0) then Return price
  else
    match room with
    | O => Raise (Exc RecursionError "maximum recursion depth exceeded")
    | S room' =>
        calculate_tax room'
          (float_mul price (float_add (float_lit 1 0) TAX_RATE))
          (iterations - 1)
    end.

(** The [for] loop of the inner function [sum_ingredients], from the
    running [total]. *)
Fixpoint sum_loop (ingredients : list pyobj) (total : F) : M F :=
  match ingredients with
  | [] => ret total
  | ingredient :: rest =>
      total' <-
        try_except
          (key <- py_lower ingredient ;;
           let price := price_of key in
           ret (float_add total price))
          [([AttributeError; TypeError],
            fun e =>
              logger_warning ("Invalid ingredient format: " ++ py_str ingredient
                              ++ ", error: " ++ exc_msg e) ;;;
              ret total)] ;;
      sum_loop rest total'
  end.

Definition sum_ingredients (ingredients : list pyobj) : M F :=
  sum_loop ingredients (float_lit 0 1).

(** [not ingredients_list]: true of [None] and of the empty list. *)
Definition falsy (ingredients_list : option (list pyobj)) : bool :=
  match ingredients_list with
  | None | Some [] => true
  | Some (_ :: _) => false
  end.

Definition calculate_burger_price (ingredients_list : option (list pyobj))
  : M F :=
  if falsy ingredients_list then
    raise (Exc ValueError "Ingredients list cannot be empty")
  else
    let ingredients_copy := default [] ingredients_list in
    base_price <- sum_ingredients ingredients_copy ;;
    lift (calculate_tax tax_room base_price TAX_ITERATIONS).

End PriceCalculator.

(** ** The component collectors *)

Section Collectors.

Context {U : UnicodeData}.

Definition get_bun : M string :=
  raw <- input "What kind of bun would you like? " ;;
  let bun_type := Text.strip raw in
  if Text.is_empty bun_type then
    logger_warning "Empty bun type provided, using default" ;;;
    ret "sesame"
  else ret bun_type.

Definition get_bun_v2 : M string := get_bun.

Definition valid_meats : gset string :=
  {[ "beef"; "chicken"; "turkey"; "fish"; "veggie" ]}.

Definition get_meat : M string :=
  raw <- input "Enter the meat type: " ;;
  let meat_type := Text.strip raw in
  if Text.is_empty meat_type then
    logger_warning "Empty meat type provided, using default" ;;;
    ret "beef"
  else if bool_decide (Text.lower meat_type ∈ valid_meats) then
    ret (Text.lower meat_type)
  else
    logger_info ("Unknown meat type: " ++ meat_type
                 ++ ", treating as specialty meat") ;;;
    ret meat_type.

Definition get_sauce : M string :=
  let base_sauce := "ketchup and mustard" in
  let sauce_list := List.map Text.strip (Text.split " and " base_sauce) in
  ret (Text.join " and " sauce_list).

Definition get_cheese : M string :=
  raw <- input "What kind of cheese? " ;;
  let cheese_type := Text.strip raw in
  if Text.is_empty cheese_type then
    logger_warning "Empty cheese type provided, using default" ;;;
    ret "cheddar"
  else ret cheese_type.

End Collectors.

(** ** The order assembler *)

(** The dictionary [burger_data]. *)
Record burger_data (F : Type) := BurgerData {
  bun : string;
  meat : string;
  sauce : string;
  cheese : string;
  id : Z;
  price : F;
  timestamp : string
}.
Arguments BurgerData {F}.
Arguments bun {F}.
Arguments meat {F}.
Arguments sauce {F}.
Arguments cheese {F}.
Arguments id {F}.
Arguments price {F}.
Arguments timestamp {F}.

Section Assembler.

Context {U : UnicodeData} {F : Type} `{PyFloat F}.

Definition price_ingredients : list pyobj :=
  [PyStr "bun"; PyStr "meat"; PyStr "cheese"].

(** The [try] block of [assemble_burger]; [c_bun] .. [c_cheese] are
    the entries of the dictionary [components].  Besides the
    description it returns, the block hands out the local
    [burger_data], which the function builds and drops. *)
Definition assemble_try : M (burger_data F * string) :=
  modify (fun st => set_count (BURGER_COUNT st + 1) st) ;;;
  c_bun <- get_bun ;;
  c_meat <- get_meat ;;
  c_sauce <- get_sauce ;;
  c_cheese <- get_cheese ;;
  price <- calculate_burger_price (Some price_ingredients) ;;
  st <- get ;;
  timestamp <- get_order_timestamp ;;
  let burger_data :=
    BurgerData c_bun c_meat c_sauce c_cheese
               (BURGER_COUNT st) (float_round price 2) timestamp in
  let burger_description :=
    bun burger_data ++ " bun + " ++
    meat burger_data ++ " + " ++
    sauce burger_data ++ " + " ++
    cheese burger_data ++ " cheese" in
  modify (set_last (Some burger_description)) ;;;
  st <- get ;;
  logger_info ("Burger #" ++ pretty (BURGER_COUNT st)
               ++ " assembled successfully") ;;;
  ret (burger_data, burger_description).

Definition assemble_burger : M (option string) :=
  try_except
    (r <- assemble_try ;; ret (Some (snd r)))
    [([Exception],
      fun e =>
        logger_error ("Failed to assemble burger: " ++ exc_msg e) ;;;
        ret None)].

End Assembler.

(** ** The persister *)

(** A fault of the operating system, if one is due at this call. *)
Definition next_fault : M unit :=
  fun st =>
    match os_faults st with
    | [] => (Return tt, st)
    | Done :: rest => (Return tt, set_os_faults rest st)
    | Fault e _ :: rest => (Raise e, set_os_faults rest st)
    end.

(** The first candidate name whose path does not exist yet, and the
    candidates left after it. *)
Fixpoint fresh_path (dir prefix : string) (names : list string)
    (files : gmap string (gmap string string))
  : option (string * list string) :=
  match names with
  | [] => None
  | n :: rest =>
      let path := dir ++ "/" ++ prefix ++ n in
      match files !! path with
      | None => Some (path, rest)
      | Some _ => fresh_path dir prefix rest files
      end
  end.

(** [tempfile.mkdtemp(prefix=...)]: a new, empty directory under the
    temporary directory; a candidate name that exists is passed over. *)
Definition mkdtemp (prefix : string) : M string :=
  next_fault ;;;
  st <- get ;;
  match fresh_path (tempdir st) prefix (tmp_names st) (fs st) with
  | Some (path, rest) =>
      modify (fun st => set_tmp_names rest (set_fs (<[path := ∅]> (fs st)) st)) ;;;
      ret path
  | None =>
      modify (set_tmp_names []) ;;;
      raise (Exc FileExistsError
                 "[Errno 17] No usable temporary directory name found")
  end.

(** [(dir / name).write_text(data, encoding="utf-8")]: the file is
    opened for writing, which makes it, or empties it; then the text is
    encoded, as a whole; then the bytes go to the disk, at the latest
    when the file is closed.  The content of a file is its bytes: of a
    text that UTF-8 can encode, the text as it is kept here. *)
Definition write_text (path : string * string) (data : string) : M unit :=
  next_fault ;;;
  st <- get ;;
  match fs st !! fst path with
  | None =>
      raise (Exc FileNotFoundError
                 ("[Errno 2] No such file or directory: '" ++ fst path ++ "/"
                  ++ snd path ++ "'"))
  | Some files =>
      let file_holds content :=
        modify (fun st =>
                  set_fs (<[fst path := <[snd path := content]> files]> (fs st)) st) in
      file_holds "" ;;;
      match Text.encode_error data with
      | Some reason => raise (Exc UnicodeEncodeError reason)
      | None =>
          st <- get ;;
          match os_faults st with
          | Fault e written :: rest =>
              modify (set_os_faults rest) ;;;
              file_holds (Text.first_bytes written data) ;;;
              raise e
          | Done :: rest =>
              modify (set_os_faults rest) ;;;
              file_holds data
          | [] => file_holds data
          end
      end
  end.

(** [not burger]: true of [None] and of the empty string. *)
Definition no_text (burger : option string) : bool :=
  match burger with
  | None => true
  | Some s => Text.is_empty s
  end.

Definition save_burger (burger : option string) : M bool :=
  if no_text burger then
    logger_error "Cannot save empty burger description" ;;;
    ret false
  else
    try_except
      (temp_dir <- mkdtemp "burger_orders_" ;;
       let burger_file := (temp_dir, "burger.txt") in
       write_text burger_file (default "" burger) ;;;
       let count_file := (temp_dir, "burger_count.txt") in
       st <- get ;;
       write_text count_file (pretty (BURGER_COUNT st)) ;;;
       logger_info ("Burger saved to " ++ temp_dir) ;;;
       ret true)
      [([OSError; IOError],
        fun e =>
          logger_error ("Failed to save burger: " ++ exc_msg e) ;;;
          ret false)].

(** ** The orchestrator *)

Section Orchestrator.

Context {U : UnicodeData} {F : Type} `{PyFloat F}.

Definition main : M unit :=
  logger_info "Starting burger creation process" ;;;
  try_except
    (burger <- assemble_burger (F := F) ;;
     if negb (no_text burger) then
       success <- save_burger burger ;;
       if success then logger_info "Burger creation completed successfully"
       else logger_error "Failed to save burger"
     else logger_error "Failed to create burger")
    [([KeyboardInterrupt],
      fun _ => logger_info "Burger creation cancelled by user");
     ([Exception],
      fun e =>
        logger_error ("Unexpected error during burger creation: "
                      ++ exc_msg e) ;;;
        raise e)].

End Orchestrator.

(** ** Vocabulary of the properties *)

(** The number of errors logged so far. *)
Definition errors (st : state) : nat := count_level ERROR (log st).

(** A process that has just started, at a silent terminal. *)
Definition fresh_state : state :=
  State 0 None [] [] [] "2024-01-01T12:00:00" ∅ "/tmp" ["k3x9q2ab"] [].

(** The other case of an ASCII letter; other bytes stay. *)
Definition swapcase_ascii (c : ascii) : ascii :=
  let n := N_of_ascii c in
  if ((65 <=? n) && (n <=? 90))%N then ascii_of_N (n + 32)
  else if ((97 <=? n) && (n <=? 122))%N then ascii_of_N (n - 32)
  else c.

(** The same for a character. *)
Definition swapcase_code (c : N) : N :=
  if Text.ascii_upper c then (c + 32)%N
  else if Text.ascii_lower c then (c - 32)%N
  else c.

(** Two characters that are the same, or the two cases of one ASCII
    letter. *)
Definition same_letter (x y : N) : Prop := y = x \/ y = swapcase_code x.

(** [A]..[Z] in lower case; the other bytes stay. *)
Definition lower_ascii (a : ascii) : ascii :=
  let n := N_of_ascii a in
  if ((65 <=? n) && (n <=? 90))%N then ascii_of_N (n + 32) else a.

(** A text with its ASCII capitals in lower case, byte by byte. *)
Fixpoint lower_letters (s : string) : string :=
  match s with
  | EmptyString => EmptyString
  | String a s' => String (lower_ascii a) (lower_letters s')
  end.

(** [recased s t]: [t] is [s] with the case of some of the ASCII
    letters changed. *)
Fixpoint recased (s t : string) : bool :=
  match s, t with
  | EmptyString, EmptyString => true
  | String c s', String d t' =>
      (bool_decide (d = c) || bool_decide (d = swapcase_ascii c)) && recased s' t'
  | _, _ => false
  end.

Section PriceVocabulary.

Context {U : UnicodeData} {F : Type} `{PyFloat F}.

(** The Price Table price of a name once put in lower case; a name
    that is not a key counts for zero. *)
Definition table_price (name : string) : F :=
  match INGREDIENT_PRICES !! Text.lower name with
  | Some p => p
  | None => float_lit 0 1
  end.

(** The sum of the table prices of a list of names, from [0.0], in
    the order of the list. *)
Definition base_sum (names : list string) : F :=
  fold_left float_add (List.map table_price names) (float_lit 0 1).

(** One pass of the tax. *)
Definition tax_pass (p : F) : F :=
  float_mul p (float_add (float_lit 1 0) (float_lit 1 1)).

End PriceVocabulary.

(** The warning an element that is no text leaves in the log. *)
Definition skipped (o : pyobj) : list log_record :=
  match o with
  | PyStr _ => []
  | PyNone =>
      [LogRecord WARNING
         "Invalid ingredient format: None, error: 'NoneType' object has no attribute 'lower'"]
  | PyInt z =>
      [LogRecord WARNING
         ("Invalid ingredient format: " ++ pretty z
          ++ ", error: 'int' object has no attribute 'lower'")]
  end.

(** The operations of the module, for runs of several of them. *)
Inductive operation :=
| OpCalculatePrice (l : option (list pyobj))
| OpGetBun | OpGetMeat | OpGetSauce | OpGetCheese
| OpAssemble
| OpSave (b : option string)
| OpMain.

Section Runs.

Context {U : UnicodeData} {F : Type} `{PyFloat F}.

(** The state an operation leaves, whether it returns or raises. *)
Definition run_op (o : operation) (st : state) : state :=
  match o with
  | OpCalculatePrice l => snd (calculate_burger_price (F := F) l st)
  | OpGetBun => snd (get_bun st)
  | OpGetMeat => snd (get_meat st)
  | OpGetSauce => snd (get_sauce st)
  | OpGetCheese => snd (get_cheese st)
  | OpAssemble => snd (assemble_burger (F := F) st)
  | OpSave b => snd (save_burger b st)
  | OpMain => snd (main (F := F) st)
  end.

Definition run_ops (os : list operation) (st : state) : state :=
  fold_left (fun s o => run_op o s) os st.

End Runs.

(** What a step that is no assembly and no save leaves as it was: the
    two globals, the file system and the number of errors logged. *)
Definition keeps (st st' : state) : Prop :=
  BURGER_COUNT st' = BURGER_COUNT st /\
  last_burger st' = last_burger st /\
  fs st' = fs st /\
  errors st' = errors st.

(** The two module globals are as they were. *)
Definition same_globals (st st' : state) : Prop :=
  BURGER_COUNT st' = BURGER_COUNT st /\ last_burger st' = last_burger st.

(** A statement all of whose runs relate the state before to the state
    after by [R], whether they return or raise. *)
Definition respects {A} (R : state -> state -> Prop) (m : M A) : Prop :=
  forall st, R st (snd (m st)).

(** ** Vocabulary of the further properties *)

(** The prompts of the collectors, in the order [assemble_burger]
    issues them. *)
Definition prompts : list string :=
  ["What kind of bun would you like? "; "Enter the meat type: ";
   "What kind of cheese? "].

(** A line of input is blank when stripping leaves nothing. *)
Definition blank (line : string) : bool := Text.is_empty (Text.strip line).

(** The text elements of an ingredient list, in order. *)
Fixpoint texts (l : list pyobj) : list string :=
  match l with
  | [] => []
  | PyStr s :: rest => s :: texts rest
  | _ :: rest => texts rest
  end.


(** The environment of the persister is as it was: the file system,
    the temporary directory, the names and the faults in store. *)
Definition same_disk (st st' : state) : Prop :=
  fs st' = fs st /\ tempdir st' = tempdir st /\
  tmp_names st' = tmp_names st /\ os_faults st' = os_faults st.

(** The two files of a saved order. *)
Definition order_files (description : string) (count : Z) : gmap string string :=
  {[ "burger.txt" := description; "burger_count.txt" := pretty count ]}.

(** A statement run from a state that satisfies [P] ends, returning or
    raising, in a result and a state that satisfy [Q]. *)
Definition hoare {A} (P : state -> Prop) (m : M A)
    (Q : result A -> state -> Prop) : Prop :=
  forall st, P st -> Q (fst (m st)) (snd (m st)).



(** What a collector does at the terminal: it writes its prompt, and
    when it returns it has read one line. *)
Definition io_step {A} (prompt : string) (st : state) (r : result A) (s : state)
  : Prop :=
  stdout s = (stdout st ++ [prompt])%list /\
  match r with
  | Return _ => exists a, stdin st = Line a :: stdin s
  | Raise _ => True
  end.

(** What the collectors make of a line of input. *)
Definition bun_of (line : string) : string :=
  if blank line then "sesame" else Text.strip line.

Definition meat_of {U : UnicodeData} (line : string) : string :=
  if blank line then "beef"
  else if bool_decide (Text.lower (Text.strip line) ∈ valid_meats)
       then Text.lower (Text.strip line)
       else Text.strip line.

Definition cheese_of (line : string) : string :=
  if blank line then "cheddar" else Text.strip line.

(** The description of the order made from three lines of input. *)
Definition describe {U : UnicodeData} (bun_line meat_line cheese_line : string)
  : string :=
  bun_of bun_line ++ " bun + " ++ meat_of meat_line ++ " + "
    ++ "ketchup and mustard" ++ " + " ++ cheese_of cheese_line ++ " cheese".

(** The [except] clauses of [main], on an exception [e] raised in the
    state [s]. *)
Definition main_except (e : exc) (s : state) : result unit * state :=
  if isinstance e KeyboardInterrupt then
    (Return tt,
     set_log (log s ++ [LogRecord INFO "Burger creation cancelled by user"]) s)
  else if isinstance e Exception then
    (Raise e,
     set_log (log s ++ [LogRecord ERROR
                          ("Unexpected error during burger creation: "
                           ++ exc_msg e)]) s)
  else (Raise e, s).

(** The assemblies attempted in a run of operations: every call of
    [assemble_burger], directly or through [main]. *)
Definition attempts (os : list operation) : Z :=
  Z.of_nat (List.length (List.filter
                           (fun o => match o with
                                     | OpAssemble | OpMain => true
                                     | _ => false
                                     end) os)).

(** ** The repository's tests, replayed on the model

    The cases of tests/test_burger.py that do not replace the functions
    under test by mocks, run in binary64 from [fresh_state]. *)

Section Tests.

Context {U : UnicodeData}.

(** TestCalculateBurgerPrice.test_valid_ingredients *)
Example test_valid_ingredients :
  exists p,
    fst (calculate_burger_price (F := spec_float)
           (Some [PyStr "bun"; PyStr "beef"; PyStr "cheese"]) fresh_state)
      = Return p /\
    (Qabs (Binary64.to_Q p - 8 * (11 / 10) ^ 2) < 1 / 100)%Q.
Proof. eexists. split; vm_compute; reflexivity. Qed.

(** TestCalculateBurgerPrice.test_unknown_ingredients *)
Example test_unknown_ingredients :
  exists p,
    fst (calculate_burger_price (F := spec_float)
           (Some [PyStr "bun"; PyStr "unknown_ingredient"; PyStr "cheese"])
           fresh_state)
      = Return p /\
    (Qabs (Binary64.to_Q p - 3 * (11 / 10) ^ 2) < 1 / 100)%Q.
Proof. eexists. split; vm_compute; reflexivity. Qed.

(** TestCalculateBurgerPrice.test_invalid_ingredient_format_logs_warning *)
Example test_invalid_ingredient_format_logs_warning :
  log (snd (calculate_burger_price (F := spec_float)
              (Some [PyStr "bun"; PyNone; PyInt 123; PyStr "cheese"])
              fresh_state))
    = [LogRecord WARNING
         "Invalid ingredient format: None, error: 'NoneType' object has no attribute 'lower'";
       LogRecord WARNING
         "Invalid ingredient format: 123, error: 'int' object has no attribute 'lower'"].
Proof. vm_compute. reflexivity. Qed.

(** TestGetBun.test_strips_whitespace, test_empty_input_returns_default *)
Example test_get_bun :
  fst (get_bun (set_stdin [Line "  whole wheat  "] fresh_state))
    = Return "whole wheat" /\
  get_bun (set_stdin [Line ""] fresh_state)
    = (Return "sesame",
       set_log [LogRecord WARNING "Empty bun type provided, using default"]
         (set_stdout ["What kind of bun would you like? "] fresh_state)).
Proof. split; vm_compute; reflexivity. Qed.

(** TestGetMeat: test_case_normalization, test_unknown_meat_type,
    test_empty_meat_returns_default, test_strips_whitespace *)
Example test_get_meat :
  fst (get_meat (set_stdin [Line "BEEF"] fresh_state)) = Return "beef" /\
  get_meat (set_stdin [Line "wagyu"] fresh_state)
    = (Return "wagyu",
       set_log [LogRecord INFO "Unknown meat type: wagyu, treating as specialty meat"]
         (set_stdout ["Enter the meat type: "] fresh_state)) /\
  get_meat (set_stdin [Line ""] fresh_state)
    = (Return "beef",
       set_log [LogRecord WARNING "Empty meat type provided, using default"]
         (set_stdout ["Enter the meat type: "] fresh_state)) /\
  fst (get_meat (set_stdin [Line "  turkey  "] fresh_state)) = Return "turkey".
Proof. repeat split; vm_compute; reflexivity. Qed.

(** TestGetSauce.test_returns_expected_sauce *)
Example test_get_sauce :
  get_sauce fresh_state = (Return "ketchup and mustard", fresh_state).
Proof. reflexivity. Qed.

(** TestGetCheese.test_empty_input_returns_default, test_strips_whitespace *)
Example test_get_cheese :
  get_cheese (set_stdin [Line ""] fresh_state)
    = (Return "cheddar",
       set_log [LogRecord WARNING "Empty cheese type provided, using default"]
         (set_stdout ["What kind of cheese? "] fresh_state)) /\
  fst (get_cheese (set_stdin [Line "  swiss  "] fresh_state)) = Return "swiss".
Proof. split; vm_compute; reflexivity. Qed.

(** TestAssembleBurger.test_assembly_failure: [get_bun] raises
    [Exception("Input error")]. *)
Example test_assembly_failure :
  assemble_burger (F := spec_float)
      (set_stdin [Fails (Exc Exception "Input error")] fresh_state)
    = (Return None,
       set_log [LogRecord ERROR "Failed to assemble burger: Input error"]
         (set_stdout ["What kind of bun would you like? "]
            (set_count 1 fresh_state))).
Proof. vm_compute. reflexivity. Qed.

(** TestSaveBurger.test_save_failure: [mkdtemp] raises
    [OSError("Permission denied")]. *)
Example test_save_failure :
  save_burger (Some "test burger")
      (set_os_faults [Fault (Exc OSError "Permission denied") 0] fresh_state)
    = (Return false,
       set_log [LogRecord ERROR "Failed to save burger: Permission denied"]
         fresh_state).
Proof. vm_compute. reflexivity. Qed.

(** TestMain.test_keyboard_interrupt: the interrupt comes out of
    [assemble_burger]; [main] logs the cancellation and returns. *)
Example test_keyboard_interrupt :
  main (F := spec_float)
      (set_stdin [Fails (Exc KeyboardInterrupt "")] fresh_state)
    = (Return tt,
       set_log [LogRecord INFO "Starting burger creation process";
                LogRecord INFO "Burger creation cancelled by user"]
         (set_stdout ["What kind of bun would you like? "]
            (set_count 1 fresh_state))).
Proof. vm_compute. reflexivity. Qed.

(** In binary64 two rounded passes are not always one product by
    [1.1 * 1.1]: for the base sum 7.0 of ["bun", "beef"] the two differ
    in the last place. *)
Example two_passes_of_seven :
  base_sum (F := spec_float) ["bun"; "beef"] = Binary64.lit 70 1 /\
  tax_pass (tax_pass (Binary64.lit 70 1))
    = S754_finite false 4768186105478514 (-49) /\
  Binary64.mul (Binary64.lit 70 1)
               (Binary64.mul (Binary64.lit 11 1) (Binary64.lit 11 1))
    = S754_finite false 4768186105478513 (-49).
Proof. repeat split; vm_compute; reflexivity. Qed.

End Tests.

(** ** Text: changing the case of ASCII letters *)

Lemma recased_byte a d :
  bool_decide (d = a) || bool_decide (d = swapcase_ascii a) = true ->
  ((Text.byte d <? 0x80)%N = (Text.byte a <? 0x80)%N) /\
  ((Text.byte a <? 0x80)%N = false -> d = a) /\
  same_letter (Text.byte a) (Text.byte d).
Proof.
  intros Hd. apply orb_true_iff in Hd as [Hd|Hd]; apply bool_decide_eq_true in Hd;
    subst d.
  - repeat split; auto. left. reflexivity.
  - destruct a as [[] [] [] [] [] [] [] []]; vm_compute;
      (repeat split; try discriminate; try reflexivity; auto).
Qed.

Lemma recased_continuation a d :
  bool_decide (d = a) || bool_decide (d = swapcase_ascii a) = true ->
  Text.continuation (Text.byte d) = Text.continuation (Text.byte a) /\
  (Text.continuation (Text.byte a) = true -> d = a).
Proof.
  intros Hd. destruct (recased_byte a d Hd) as (Hlt & Heq & _).
  unfold Text.continuation.
  destruct (Text.byte a <? 0x80)%N eqn:Ha.
  - apply N.ltb_lt in Ha, Hlt.
    rewrite (proj2 (N.leb_gt _ _)) by lia.
    rewrite (proj2 (N.leb_gt 0x80 (Text.byte a))) by lia.
    split; [reflexivity | discriminate].
  - rewrite (Heq eq_refl). auto.
Qed.

Lemma decode_recased n : forall s t,
  (String.length s <= n)%nat ->
  recased s t = true ->
  Forall2 same_letter (Text.decode s) (Text.decode t).
Proof.
  induction n as [|n IH]; intros s t Hlen Hre.
  { destruct s; [|cbn in Hlen; lia]. destruct t; [constructor|discriminate]. }
  destruct s as [|a0 s1], t as [|d0 t1]; try discriminate; [constructor|].
  cbn [recased] in Hre. apply andb_true_iff in Hre as [H0 Hre1].
  cbn [String.length] in Hlen.
  destruct (recased_byte a0 d0 H0) as (Hlt0 & Heq0 & Hsame0).
  cbn [Text.decode]. cbv zeta. rewrite Hlt0.
  destruct (Text.byte a0 <? 0x80)%N eqn:Ha0.
  { constructor; [exact Hsame0 | apply IH; [lia | exact Hre1]]. }
  rewrite (Heq0 eq_refl) in *. clear H0 Hlt0 Heq0 Hsame0 d0.
  assert (Hstray : Forall2 same_letter
                     (Text.stray (Text.byte a0) :: Text.decode s1)
                     (Text.stray (Text.byte a0) :: Text.decode t1)).
  { constructor; [left; reflexivity | apply IH; [lia | exact Hre1]]. }
  destruct s1 as [|a1 s2], t1 as [|d1 t2]; try discriminate;
    [repeat constructor; left; reflexivity|].
  cbn [recased] in Hre1. apply andb_true_iff in Hre1 as [H1 Hre2].
  destruct (recased_continuation a1 d1 H1) as [Hc1 He1]. rewrite Hc1.
  cbn [String.length] in Hlen.
  destruct (_ && Text.continuation (Text.byte a1)) eqn:Htwo.
  { apply andb_true_iff in Htwo as [_ Hcont]. rewrite (He1 Hcont).
    constructor; [left; reflexivity | apply IH; [lia | exact Hre2]]. }
  clear Htwo.
  destruct s2 as [|a2 s3], t2 as [|d2 t3]; try discriminate; [exact Hstray|].
  cbn [recased] in Hre2. apply andb_true_iff in Hre2 as [H2 Hre3].
  destruct (recased_continuation a2 d2 H2) as [Hc2 He2].
  cbn [String.length] in Hlen.
  destruct (Text.continuation (Text.byte a1)) eqn:Hcont1.
  2:{ rewrite ?andb_false_r, ?andb_false_l. cbv iota.
      destruct s3 as [|a3 s4], t3 as [|d3 t4]; try discriminate; exact Hstray. }
  rewrite (He1 eq_refl) in *. rewrite Hc2.
  destruct (Text.continuation (Text.byte a2)) eqn:Hcont2.
  2:{ rewrite ?andb_false_r, ?andb_false_l. cbv iota.
      destruct s3 as [|a3 s4], t3 as [|d3 t4]; try discriminate; exact Hstray. }
  rewrite (He2 eq_refl) in *.
  match goal with |- context [if ?b then _ else _] => destruct b end.
  { constructor; [left; reflexivity | apply IH; [lia | exact Hre3]]. }
  destruct s3 as [|a3 s4], t3 as [|d3 t4]; try discriminate; [exact Hstray|].
  cbn [recased] in Hre3. apply andb_true_iff in Hre3 as [H3 Hre4].
  destruct (recased_continuation a3 d3 H3) as [Hc3 He3]. rewrite Hc3.
  cbn [String.length] in Hlen.
  destruct (Text.continuation (Text.byte a3)) eqn:Hcont3.
  2:{ rewrite ?andb_false_r, ?andb_false_l. exact Hstray. }
  rewrite (He3 eq_refl) in *.
  match goal with |- context [if ?b then _ else _] => destruct b end.
  - constructor; [left; reflexivity | apply IH; [lia | exact Hre4]].
  - exact Hstray.
Qed.

Lemma ascii_letter_byte x :
  Text.ascii_upper x || Text.ascii_lower x = true -> exists a, x = Text.byte a.
Proof.
  intros Hx. exists (ascii_of_N x). unfold Text.byte.
  rewrite N_ascii_embedding; [reflexivity|].
  unfold Text.ascii_upper, Text.ascii_lower in Hx.
  apply orb_true_iff in Hx as [Hx|Hx]; apply andb_true_iff in Hx as [_ Hx];
    apply N.leb_le in Hx; lia.
Qed.

Section CaseFacts.

Context {U : UnicodeData}.

Lemma same_letter_facts x y :
  same_letter x y ->
  Text.to_lower y = Text.to_lower x /\
  Text.cased y = Text.cased x /\
  Text.case_ignorable y = Text.case_ignorable x /\
  (y =? 0x3A3)%N = (x =? 0x3A3)%N.
Proof.
  intros [->| ->]; [auto|]. unfold swapcase_code.
  destruct (Text.ascii_upper x || Text.ascii_lower x) eqn:Hx.
  - destruct (ascii_letter_byte x Hx) as [a ->].
    destruct a as [[] [] [] [] [] [] [] []]; vm_compute; auto.
  - apply orb_false_iff in Hx as [-> ->]. auto.
Qed.

Lemma cased_before_same before before' :
  Forall2 same_letter before before' ->
  Text.cased_before before' = Text.cased_before before.
Proof.
  induction 1 as [|x y before before' Hxy _ IH]; [reflexivity|].
  destruct (same_letter_facts x y Hxy) as (_ & Hc & Hi & _).
  cbn [Text.cased_before]. rewrite Hc, Hi, IH. reflexivity.
Qed.

Lemma none_cased_after_same after after' :
  Forall2 same_letter after after' ->
  Text.none_cased_after after' = Text.none_cased_after after.
Proof.
  induction 1 as [|x y after after' Hxy _ IH]; [reflexivity|].
  destruct (same_letter_facts x y Hxy) as (_ & Hc & Hi & _).
  cbn [Text.none_cased_after]. rewrite Hc, Hi, IH. reflexivity.
Qed.

Lemma lower_codes_same l l' :
  Forall2 same_letter l l' ->
  forall before before',
    Forall2 same_letter before before' ->
    Text.lower_codes before' l' = Text.lower_codes before l.
Proof.
  induction 1 as [|x y l l' Hxy Hl IH]; intros before before' Hb; [reflexivity|].
  destruct (same_letter_facts x y Hxy) as (Hlow & _ & _ & Hsigma).
  cbn [Text.lower_codes]. rewrite Hsigma, Hlow.
  rewrite (IH (x :: before) (y :: before')) by (constructor; assumption).
  unfold Text.final_sigma.
  rewrite (cased_before_same _ _ Hb), (none_cased_after_same _ _ Hl).
  reflexivity.
Qed.

(** [lower] does not see the case of the ASCII letters. *)
Lemma lower_recased s t : recased s t = true -> Text.lower t = Text.lower s.
Proof.
  intros Hre. unfold Text.lower. f_equal.
  apply lower_codes_same; [|constructor].
  apply (decode_recased (String.length s)); [lia | exact Hre].
Qed.

End CaseFacts.

(** ** Text: stripping *)

Section Strip.

Context (P : list ascii -> bool).

Lemma lstrip_with_length n : forall l,
  (List.length l <= n)%nat ->
  (List.length (Text.lstrip_with P l) <= List.length l)%nat.
Proof.
  induction n as [|n IH]; intros l Hn.
  { destruct l; [cbn; lia | cbn in Hn; lia]. }
  destruct l as [|a l1]; [cbn; lia|].
  cbn [Text.lstrip_with List.length] in *.
  destruct (P [a]); [specialize (IH l1); lia|].
  destruct l1 as [|b l2]; [cbn; lia|]. cbn [List.length] in *.
  destruct (P [a; b]); [specialize (IH l2); lia|].
  destruct l2 as [|c l3]; [cbn; lia|]. cbn [List.length] in *.
  destruct (P [a; b; c]); [specialize (IH l3); lia | cbn [List.length]; lia].
Qed.

Lemma lstrip_with_shorter l :
  (List.length (Text.lstrip_with P l) <= List.length l)%nat.
Proof. apply (lstrip_with_length (List.length l)). lia. Qed.

Lemma lstrip_with_suffix n : forall l,
  (List.length l <= n)%nat -> Text.lstrip_with P l `suffix_of` l.
Proof.
  induction n as [|n IH]; intros l Hn.
  { destruct l; [reflexivity | cbn in Hn; lia]. }
  destruct l as [|a l1]; [reflexivity|].
  cbn [Text.lstrip_with List.length] in *.
  destruct (P [a]); [apply suffix_cons_r, IH; lia|].
  destruct l1 as [|b l2]; [reflexivity|]. cbn [List.length] in *.
  destruct (P [a; b]); [do 2 apply suffix_cons_r; apply IH; lia|].
  destruct l2 as [|c l3]; [reflexivity|]. cbn [List.length] in *.
  destruct (P [a; b; c]); [|reflexivity].
  do 3 apply suffix_cons_r. apply IH. lia.
Qed.

Lemma lstrip_with_idem n : forall l,
  (List.length l <= n)%nat ->
  Text.lstrip_with P (Text.lstrip_with P l) = Text.lstrip_with P l.
Proof.
  induction n as [|n IH]; intros l Hn.
  { destruct l; [reflexivity | cbn in Hn; lia]. }
  destruct l as [|a l1]; [reflexivity|].
  cbn [List.length] in Hn.
  cbn [Text.lstrip_with].
  destruct (P [a]) eqn:Ha; [apply IH; lia|].
  destruct l1 as [|b l2]; [cbn [Text.lstrip_with]; rewrite Ha; reflexivity|].
  cbn [List.length] in Hn.
  destruct (P [a; b]) eqn:Hab; [apply IH; lia|].
  destruct l2 as [|c l3]; [cbn [Text.lstrip_with]; rewrite Ha, Hab; reflexivity|].
  cbn [List.length] in Hn.
  destruct (P [a; b; c]) eqn:Habc; [apply IH; lia|].
  cbn [Text.lstrip_with]. rewrite Ha, Hab, Habc. reflexivity.
Qed.

(** A text that starts with no white space has no prefix that does. *)
Lemma lstrip_with_prefix u v :
  Text.lstrip_with P (u ++ v)%list = (u ++ v)%list -> Text.lstrip_with P u = u.
Proof.
  assert (Hshort : forall k rest : list ascii,
            k <> [] -> Text.lstrip_with P rest = (k ++ rest)%list -> False).
  { intros k rest Hk Heq. pose proof (lstrip_with_shorter rest) as Hlen.
    rewrite Heq, List.length_app in Hlen. destruct k; [congruence|cbn in Hlen; lia]. }
  destruct u as [|a u1]; [reflexivity|].
  cbn [Text.lstrip_with app].
  destruct (P [a]).
  { intros Heq. destruct (Hshort [a] (u1 ++ v)%list); [discriminate | exact Heq]. }
  destruct u1 as [|b u2]; [reflexivity|]. cbn [app].
  destruct (P [a; b]).
  { intros Heq. destruct (Hshort [a; b] (u2 ++ v)%list); [discriminate | exact Heq]. }
  destruct u2 as [|c u3]; [reflexivity|]. cbn [app].
  destruct (P [a; b; c]); [|reflexivity].
  intros Heq. destruct (Hshort [a; b; c] (u3 ++ v)%list); [discriminate | exact Heq].
Qed.

End Strip.

Lemma rstrip_bytes_prefix l : Text.rstrip_bytes l `prefix_of` l.
Proof.
  unfold Text.rstrip_bytes. apply prefix_suffix_reverse.
  rewrite reverse_involutive.
  apply (lstrip_with_suffix _ (List.length (reverse l))). lia.
Qed.

Lemma rstrip_bytes_idem l :
  Text.rstrip_bytes (Text.rstrip_bytes l) = Text.rstrip_bytes l.
Proof.
  unfold Text.rstrip_bytes. rewrite reverse_involutive.
  rewrite (lstrip_with_idem _ (List.length (reverse l))) by lia. reflexivity.
Qed.

Lemma strip_bytes_idem l :
  Text.rstrip_bytes
    (Text.lstrip_bytes (Text.rstrip_bytes (Text.lstrip_bytes l)))
  = Text.rstrip_bytes (Text.lstrip_bytes l).
Proof.
  assert (Hclean : Text.lstrip_bytes (Text.rstrip_bytes (Text.lstrip_bytes l))
                   = Text.rstrip_bytes (Text.lstrip_bytes l)).
  { destruct (rstrip_bytes_prefix (Text.lstrip_bytes l)) as [v Hv].
    apply (lstrip_with_prefix _ _ v). rewrite <- Hv.
    apply (lstrip_with_idem _ (List.length l)). lia. }
  rewrite Hclean. apply rstrip_bytes_idem.
Qed.

(** Stripping twice is stripping once. *)
Lemma strip_idem s : Text.strip (Text.strip s) = Text.strip s.
Proof.
  unfold Text.strip. rewrite list_ascii_of_string_of_list_ascii.
  rewrite strip_bytes_idem. reflexivity.
Qed.

(** ** Text: [lower] on ASCII *)

Lemma concat_cons (x : string) (l : list string) :
  String.concat EmptyString (x :: l) = x ++ String.concat EmptyString l.
Proof.
  destruct l as [|y l]; [|reflexivity].
  cbn [String.concat]. induction x as [|a x IH]; [reflexivity|].
  change (String a x = String a (x ++ "")). f_equal. exact IH.
Qed.

Lemma lower_ascii_byte a :
  (Text.byte a <? 0x80)%N = true ->
  ascii_of_N (if Text.ascii_upper (Text.byte a) then Text.byte a + 32 else Text.byte a)
    = lower_ascii a /\
  (Text.byte a =? 0x3A3)%N = false.
Proof. destruct a as [[] [] [] [] [] [] [] []]; vm_compute; auto; discriminate. Qed.

Lemma lower_isascii {U : UnicodeData} s :
  Text.isascii s = true -> Text.lower s = lower_letters s.
Proof.
  unfold Text.lower. generalize (@nil N) as before.
  induction s as [|a s IH]; intros before Hs; [reflexivity|].
  cbn [Text.isascii] in Hs. apply andb_true_iff in Hs as [Ha Hs].
  cbn [Text.decode]. cbv zeta. rewrite Ha.
  cbn [Text.lower_codes]. destruct (lower_ascii_byte a Ha) as [Hlow Hsigma].
  rewrite Hsigma. unfold Text.to_lower. rewrite Ha. cbn [app].
  unfold Text.encode in *. cbn [List.map]. rewrite concat_cons, (IH _ Hs).
  cbn [lower_letters]. rewrite <- Hlow. unfold Text.utf8.
  assert (Hsmall : ((if Text.ascii_upper (Text.byte a) then Text.byte a + 32
                     else Text.byte a) <? 0x80)%N = true).
  { clear -Ha. destruct a as [[] [] [] [] [] [] [] []]; vm_compute in Ha |- *;
      congruence. }
  rewrite Hsmall. reflexivity.
Qed.

(** ** The monad *)

Lemma bind_inv {A B} (m : M A) (k : A -> M B) st r st' :
  bind m k st = (r, st') ->
  (exists a s1, m st = (Return a, s1) /\ k a s1 = (r, st')) \/
  (exists e, m st = (Raise e, st') /\ r = Raise e).
Proof.
  unfold bind. destruct (m st) as [[a|e] s1]; intros Hk.
  - left. eauto.
  - right. inversion Hk; subst. eauto.
Qed.

Lemma bind_return {A B} (m : M A) (k : A -> M B) st a s1 :
  m st = (Return a, s1) -> bind m k st = k a s1.
Proof. unfold bind. intros ->. reflexivity. Qed.

Lemma bind_raise {A B} (m : M A) (k : A -> M B) st e s1 :
  m st = (Raise e, s1) -> bind m k st = (Raise e, s1).
Proof. unfold bind. intros ->. reflexivity. Qed.

(** ** The price calculator *)

Section PriceFacts.

Context {U : UnicodeData} {F : Type} `{PyFloat F}.

Lemma calculate_tax_done room (price : F) iterations :
  iterations <= 0 -> calculate_tax room price iterations = Return price.
Proof.
  intros Hle. destruct room; cbn [calculate_tax];
    destruct (decide (iterations <= 0)); (reflexivity || lia).
Qed.

Lemma calculate_tax_step room (price : F) iterations :
  0 < iterations ->
  calculate_tax (S room) price iterations =
    calculate_tax room (float_mul price (float_add (float_lit 1 0) TAX_RATE))
                  (iterations - 1).
Proof.
  intros Hlt. cbn [calculate_tax].
  destruct (decide (iterations <= 0)); [lia | reflexivity].
Qed.

Lemma calculate_tax_full (price : F) iterations :
  0 < iterations ->
  calculate_tax O price iterations
    = Raise (Exc RecursionError "maximum recursion depth exceeded").
Proof.
  intros Hlt. cbn [calculate_tax].
  destruct (decide (iterations <= 0)); [lia | reflexivity].
Qed.

(** With room for them, [n] calls one below the other make [n] tax
    passes. *)
Lemma calculate_tax_passes (n : nat) : forall room (price : F),
  (n <= room)%nat ->
  calculate_tax room price (Z.of_nat n) = Return (Nat.iter n tax_pass price).
Proof.
  induction n as [|n IH]; intros room price Hroom.
  - apply calculate_tax_done. lia.
  - destruct room as [|room]; [lia|].
    rewrite calculate_tax_step by lia.
    replace (Z.of_nat (S n) - 1) with (Z.of_nat n) by lia.
    rewrite IH by lia. rewrite Nat.iter_succ_r. reflexivity.
Qed.

(** Without it, the call that finds no room raises. *)
Lemma calculate_tax_overflow (room : nat) : forall (n : nat) (price : F),
  (room < n)%nat ->
  calculate_tax room price (Z.of_nat n)
    = Raise (Exc RecursionError "maximum recursion depth exceeded").
Proof.
  induction room as [|room IH]; intros n price Hroom.
  - apply calculate_tax_full. lia.
  - rewrite calculate_tax_step by lia.
    replace (Z.of_nat n - 1) with (Z.of_nat (n - 1)) by lia.
    apply IH. lia.
Qed.

(** The call [calculate_burger_price] makes. *)
Lemma calculate_tax_default (price : F) :
  calculate_tax tax_room price TAX_ITERATIONS = Return (tax_pass (tax_pass price)).
Proof. apply (calculate_tax_passes 2). vm_compute. lia. Qed.

(** On a list of names the loop adds the table prices, logs nothing
    and leaves the state alone. *)
Lemma sum_loop_names (names : list string) : forall (total : F) st,
  sum_loop (PyStr <$> names) total st =
    (Return (fold_left float_add (List.map table_price names) total), st).
Proof.
  induction names as [|name names IH]; intros total st; [reflexivity|].
  cbn [fmap list_fmap sum_loop List.map fold_left].
  unfold bind at 1. unfold try_except, py_lower, bind, ret.
  apply IH.
Qed.

(** On any list the loop returns; all it does to the state is to log
    a warning for each element that is no text. *)
Lemma sum_loop_returns (l : list pyobj) : forall (total : F) st,
  exists v,
    sum_loop l total st =
      (Return v, set_log (log st ++ concat (List.map skipped l)) st).
Proof.
  induction l as [|o l IH]; intros total st.
  - exists total. cbn. rewrite app_nil_r. destruct st; reflexivity.
  - cbn [sum_loop List.map concat]. unfold bind at 1.
    destruct o as [s| |z].
    + destruct (IH (float_add total (price_of (Text.lower s))) st) as [v Hv].
      exists v. exact Hv.
    + match type of IH with context [set_log (log _ ++ ?ws) _] =>
        destruct (IH total (set_log (log st ++ skipped PyNone) st)) as [v Hv] end.
      exists v. rewrite app_assoc.
      etransitivity; [exact Hv|]. destruct st; reflexivity.
    + destruct (IH total (set_log (log st ++ skipped (PyInt z)) st)) as [v Hv].
      exists v. rewrite app_assoc.
      etransitivity; [exact Hv|]. destruct st; reflexivity.
Qed.

End PriceFacts.

(** ** Signs in binary64 *)

Module Binary64Facts.
Import Binary64.

Lemma shr_1_nonneg mrs : 0 <= shr_m mrs -> 0 <= shr_m (shr_1 mrs).
Proof.
  destruct mrs as [m r s]. destruct m as [|[p|p|]|p]; simpl; lia.
Qed.

Lemma iter_shr_1_nonneg p : forall mrs,
  0 <= shr_m mrs -> 0 <= shr_m (SpecFloat.iter_pos shr_1 p mrs).
Proof.
  induction p as [p IH|p IH|]; intros mrs Hm; simpl;
    auto using shr_1_nonneg.
Qed.

Lemma shr_fexp_nonneg m e l :
  0 <= m -> 0 <= shr_m (fst (shr_fexp prec emax m e l)).
Proof.
  intros Hm. unfold shr_fexp, shr.
  assert (Hrec : 0 <= shr_m (shr_record_of_loc m l))
    by (destruct l as [|[]]; exact Hm).
  destruct (_ - e); simpl; auto using iter_shr_1_nonneg.
Qed.

Lemma round_nearest_even_nonneg m l : 0 <= m -> 0 <= round_nearest_even m l.
Proof.
  intros Hm. destruct l as [|[]]; simpl; try destruct (Z.even m); lia.
Qed.

Lemma binary_round_aux_nonneg m e l :
  0 <= m -> nonneg (binary_round_aux prec emax false m e l) = true.
Proof.
  intros Hm. unfold binary_round_aux.
  pose proof (shr_fexp_nonneg m e l Hm) as H1.
  destruct (shr_fexp prec emax m e l) as [mrs' e']. simpl in H1.
  pose proof (shr_fexp_nonneg _ e' loc_Exact
                (round_nearest_even_nonneg _ (loc_of_shr_record mrs') H1)) as H2.
  destruct (shr_fexp prec emax _ e' loc_Exact) as [mrs'' e'']. simpl in H2.
  destruct (shr_m mrs'') as [|p|p]; [reflexivity| |lia].
  destruct (Z.leb e'' (emax - prec)); reflexivity.
Qed.

Lemma add_nonneg x y :
  nonneg x = true -> nonneg y = true -> nonneg (add x y) = true.
Proof.
  destruct x as [sx|[]| |[] mx ex], y as [sy|[]| |[] my ey];
    try discriminate; intros _ _; try reflexivity.
  - destruct sx, sy; reflexivity.
  - unfold add, SFadd, binary_normalize, cond_Zopp.
    destruct (shl_align mx ex _) as [ax ?], (shl_align my ey _) as [ay ?].
    cbn [fst]. change (Z.pos ax + Z.pos ay) with (Z.pos (ax + ay)).
    unfold binary_round.
    match goal with |- context [shl_align ?a ?b ?c] =>
      destruct (shl_align a b c) as [mz ez] end.
    apply binary_round_aux_nonneg. lia.
Qed.

(** A product with a finite positive factor. *)
Lemma mul_nonneg x m e :
  nonneg x = true -> nonneg (mul x (S754_finite false m e)) = true.
Proof.
  destruct x as [sx|[]| |[] mx ex]; try discriminate; intros _; try reflexivity.
  apply binary_round_aux_nonneg. lia.
Qed.

Lemma nonneg_le x : nonneg x = true -> le (S754_zero false) x = true.
Proof. destruct x as [sx|[]| |[] mx ex]; try discriminate; reflexivity. Qed.

Lemma table_price_nonneg {U : UnicodeData} name :
  nonneg (table_price name) = true.
Proof.
  unfold table_price.
  destruct (INGREDIENT_PRICES !! Text.lower name) as [p|] eqn:Hp; [|reflexivity].
  apply elem_of_list_to_map_2 in Hp.
  repeat (apply elem_of_cons in Hp as [Hp|Hp];
          [inversion Hp; subst; vm_compute; reflexivity|]).
  inversion Hp.
Qed.

Lemma sum_nonneg {U : UnicodeData} (names : list string) : forall total,
  nonneg total = true ->
  nonneg (fold_left float_add (List.map table_price names) total) = true.
Proof.
  induction names as [|name names IH]; intros total Ht; [exact Ht|].
  apply IH. apply add_nonneg; [exact Ht | apply table_price_nonneg].
Qed.

Lemma tax_pass_nonneg p : nonneg p = true -> nonneg (tax_pass p) = true.
Proof.
  intros Hp. unfold tax_pass.
  replace (float_add (float_lit 1 0) (float_lit 1 1))
    with (S754_finite false 4953959590107546 (-52))
    by (vm_compute; reflexivity).
  apply mul_nonneg, Hp.
Qed.

End Binary64Facts.

(** ** Exact arithmetic *)

Module ExactFacts.

Lemma exact_table_price_nonneg {U : UnicodeData} name :
  (0 <= table_price (F := Qc) name)%Qc.
Proof.
  unfold table_price.
  destruct (INGREDIENT_PRICES !! Text.lower name) as [p|] eqn:Hp;
    [|vm_compute; discriminate].
  apply elem_of_list_to_map_2 in Hp.
  repeat (apply elem_of_cons in Hp as [Hp|Hp];
          [inversion Hp; subst; vm_compute; discriminate|]).
  inversion Hp.
Qed.

Lemma exact_sum_nonneg {U : UnicodeData} (names : list string) :
  forall total : Qc,
  (0 <= total)%Qc ->
  (0 <= fold_left float_add (List.map table_price names) total)%Qc.
Proof.
  induction names as [|name names IH]; intros total Ht; [exact Ht|].
  apply IH. cbn [float_add exact].
  rewrite <- (Qcplus_0_l 0).
  apply Qcplus_le_compat; [exact Ht | apply exact_table_price_nonneg].
Qed.

Lemma exact_tax_pass_factor (p : Qc) :
  tax_pass p = (p * (Exact.lit 1 0 + Exact.lit 1 1))%Qc.
Proof. reflexivity. Qed.

Lemma exact_factor_nonneg : (0 <= Exact.lit 1 0 + Exact.lit 1 1)%Qc.
Proof. vm_compute. discriminate. Qed.

Lemma exact_tax_pass_nonneg (p : Qc) : (0 <= p)%Qc -> (0 <= tax_pass p)%Qc.
Proof.
  intros Hp. rewrite exact_tax_pass_factor.
  rewrite <- (Qcmult_0_l (Exact.lit 1 0 + Exact.lit 1 1)).
  apply Qcmult_le_compat_r; [exact Hp | apply exact_factor_nonneg].
Qed.

Lemma exact_two_passes (p : Qc) :
  tax_pass (tax_pass p) = (p * (Exact.lit 1 0 + Exact.lit 1 1) ^ 2)%Qc.
Proof. rewrite !exact_tax_pass_factor. simpl Qcpower. ring. Qed.

End ExactFacts.

(** ** The price calculator: the claims *)

(** C9, as amended -- [calculate_tax] recurses on the count less one,
    which lowers the measure [Z.to_nat iterations], and a count that is
    zero or negative returns the price unchanged, whatever the room on
    the stack.  Each recursive call needs a frame: with room for as
    many frames as the count, the call returns the price taken through
    that many tax passes; with less room it raises [RecursionError].
    The call the module makes, with the default count, returns. *)
Theorem calculate_tax_total :
  forall F (HF : PyFloat F) (room : nat) (price : F) (iterations : Z),
    (iterations <= 0 -> calculate_tax room price iterations = Return price) /\
    (0 < iterations ->
       calculate_tax (S room) price iterations
         = calculate_tax room
             (float_mul price (float_add (float_lit 1 0) TAX_RATE))
             (iterations - 1) /\
       (Z.to_nat (iterations - 1) < Z.to_nat iterations)%nat /\
       calculate_tax O price iterations
         = Raise (Exc RecursionError "maximum recursion depth exceeded")) /\
    ((Z.to_nat iterations <= room)%nat ->
       calculate_tax room price iterations
         = Return (Nat.iter (Z.to_nat iterations) tax_pass price)) /\
    ((room < Z.to_nat iterations)%nat ->
       calculate_tax room price iterations
         = Raise (Exc RecursionError "maximum recursion depth exceeded")) /\
    calculate_tax tax_room price TAX_ITERATIONS
      = Return (tax_pass (tax_pass price)).
Proof.
  intros F HF room price iterations. split_and!.
  - apply calculate_tax_done.
  - intros Hpos. split_and!.
    + apply calculate_tax_step, Hpos.
    + lia.
    + apply calculate_tax_full, Hpos.
  - intros Hroom. destruct (Z_le_gt_dec iterations 0) as [Hle|Hgt].
    + rewrite calculate_tax_done by exact Hle.
      replace (Z.to_nat iterations) with O by lia. reflexivity.
    + rewrite <- (Z2Nat.id iterations) at 1 by lia.
      apply calculate_tax_passes, Hroom.
  - intros Hroom. rewrite <- (Z2Nat.id iterations) by lia.
    apply calculate_tax_overflow, Hroom.
  - apply calculate_tax_default.
Qed.

(** A negative count, the default count and a count of 1500, in
    binary64, in the room the module leaves. *)
Lemma calculate_tax_total_witness :
  calculate_tax (F := spec_float) tax_room (Binary64.lit 80 1) (-3)
    = Return (Binary64.lit 80 1) /\
  calculate_tax (F := spec_float) tax_room (Binary64.lit 80 1) 2
    = Return (tax_pass (tax_pass (Binary64.lit 80 1))) /\
  calculate_tax (F := spec_float) tax_room (Binary64.lit 80 1) 1500
    = Raise (Exc RecursionError "maximum recursion depth exceeded").
Proof.
  split_and!.
  - destruct (calculate_tax_total spec_float binary64 tax_room
                (Binary64.lit 80 1) (-3)) as (Hdone & _).
    apply Hdone. lia.
  - destruct (calculate_tax_total spec_float binary64 tax_room
                (Binary64.lit 80 1) 2) as (_ & _ & Hroom & _).
    apply Hroom. vm_compute. lia.
  - destruct (calculate_tax_total spec_float binary64 tax_room
                (Binary64.lit 80 1) 1500) as (_ & _ & _ & Hover & _).
    apply Hover. vm_compute. lia.
Defined.

(** C9, as stated, fails: [calculate_tax] does not return for every
    count.  With the interpreter's limit of 1000 frames a count of 1000
    raises [RecursionError], from a stack as shallow as a script's and
    from an empty one alike. *)
Lemma calculate_tax_recursion_error :
  calculate_tax (F := spec_float) tax_room (Binary64.lit 80 1) 1000
    = Raise (Exc RecursionError "maximum recursion depth exceeded") /\
  calculate_tax (F := spec_float) (recursion_limit - 1) (Binary64.lit 80 1) 1000
    = Raise (Exc RecursionError "maximum recursion depth exceeded").
Proof.
  split.
  - apply (calculate_tax_overflow tax_room 1000). vm_compute. lia.
  - apply (calculate_tax_overflow (recursion_limit - 1) 1000). vm_compute. lia.
Qed.

Lemma calculate_burger_price_names {U : UnicodeData} {F} `{PyFloat F}
    (names : list string) st :
  names <> [] ->
  calculate_burger_price (Some (PyStr <$> names)) st
    = (Return (tax_pass (tax_pass (base_sum names))), st).
Proof.
  intros Hne. unfold calculate_burger_price.
  assert (Hf : falsy (Some (PyStr <$> names)) = false)
    by (destruct names; [congruence | reflexivity]).
  rewrite Hf. unfold sum_ingredients, bind, default, from_option, Datatypes.id.
  rewrite sum_loop_names. unfold lift, base_sum.
  rewrite calculate_tax_default. reflexivity.
Qed.

(** The Kelvin sign in the place of the K of CHICKEN. *)
Lemma lower_kelvin_chicken {U : UnicodeData} :
  Text.lower ("CHIC" ++ Text.utf8 0x212A ++ "EN") = "chicken".
Proof.
  unfold Text.lower.
  change (Text.decode ("CHIC" ++ Text.utf8 0x212A ++ "EN"))
    with [0x43; 0x48; 0x49; 0x43; 0x212A; 0x45; 0x4E]%N.
  cbn [Text.lower_codes]. unfold Text.to_lower.
  cbn [N.eqb Pos.eqb N.ltb N.compare Pos.compare Pos.compare_cont].
  rewrite lower_kelvin. reflexivity.
Qed.

(** C1 -- On a non-empty list of names [calculate_burger_price] returns
    the sum of the table prices taken through two tax passes, each a
    product by [1 + 0.1].  The table price of a name is the entry of
    the table under the name in lower case, and zero when there is
    none; for a name in ASCII the lower case is that of its letters
    [A]..[Z], and the Kelvin sign counts as a k.  In exact arithmetic
    the result is the sum times [(1 + 0.1)^2], it is never negative,
    and a sum of 8.0 gives 9.68.  In binary64, where each product is
    rounded, it compares [>= 0] as well, and a sum of 8.0 gives the
    float [8.0 * (1.1 * 1.1)], the double next above 9.68, which
    [round(_, 2)] takes to 9.68. *)
Theorem calculate_burger_price_formula :
  forall U : UnicodeData,
  (forall F (HF : PyFloat F) (names : list string) st,
     names <> [] ->
     calculate_burger_price (Some (PyStr <$> names)) st
       = (Return (tax_pass (tax_pass (base_sum names))), st)) /\
  (forall F (HF : PyFloat F) (name : string),
     table_price name
       = default (float_lit 0 1) (INGREDIENT_PRICES !! Text.lower name) /\
     (Text.isascii name = true -> Text.lower name = lower_letters name)) /\
  (forall F (HF : PyFloat F),
     base_sum ["BUN"; "Beef"; "cHEESE"] = base_sum (F := F) ["bun"; "beef"; "cheese"] /\
     table_price (F := F) "Beef" = float_lit 50 1 /\
     table_price (F := F) ("CHIC" ++ Text.utf8 0x212A ++ "EN") = float_lit 40 1 /\
     table_price (F := F) "wagyu" = float_lit 0 1) /\
  (forall names : list string,
     tax_pass (tax_pass (base_sum names))
       = (base_sum names * (Exact.lit 1 0 + Exact.lit 1 1) ^ 2)%Qc /\
     (0 <= tax_pass (tax_pass (base_sum names)))%Qc) /\
  tax_pass (tax_pass (Exact.lit 80 1)) = Exact.lit 968 2 /\
  (forall names : list string,
     float_le (float_lit 0 1)
              (tax_pass (tax_pass (base_sum (F := spec_float) names))) = true) /\
  base_sum (F := spec_float) ["bun"; "beef"; "cheese"] = Binary64.lit 80 1 /\
  tax_pass (tax_pass (Binary64.lit 80 1))
    = Binary64.mul (Binary64.lit 80 1)
                   (Binary64.mul (Binary64.lit 11 1) (Binary64.lit 11 1)) /\
  float_round (tax_pass (tax_pass (Binary64.lit 80 1))) 2 = Binary64.lit 968 2 /\
  (Qabs (Binary64.to_Q (tax_pass (tax_pass (Binary64.lit 80 1))) - 968 / 100)
     < 1 / 10 ^ 14)%Q.
Proof.
  intros U. split_and!.
  - intros F HF names st. apply calculate_burger_price_names.
  - intros F HF name. split; [|apply lower_isascii].
    unfold table_price, default. destruct (_ !! _); reflexivity.
  - intros F HF. split_and!; try reflexivity.
    unfold table_price. rewrite lower_kelvin_chicken. reflexivity.
  - intros names. split; [apply ExactFacts.exact_two_passes|].
    do 2 apply ExactFacts.exact_tax_pass_nonneg.
    apply ExactFacts.exact_sum_nonneg. vm_compute. discriminate.
  - apply Qc_is_canon. reflexivity.
  - intros names. apply Binary64Facts.nonneg_le.
    do 2 apply Binary64Facts.tax_pass_nonneg.
    apply Binary64Facts.sum_nonneg. reflexivity.
  - vm_compute. reflexivity.
  - vm_compute. reflexivity.
  - vm_compute. reflexivity.
  - vm_compute. reflexivity.
Qed.

(** The list of the tests, with capitals, in binary64. *)
Lemma calculate_burger_price_formula_witness :
  calculate_burger_price (F := spec_float)
      (Some (PyStr <$> ["BUN"; "Beef"; "cHEESE"])) fresh_state
    = (Return (tax_pass (tax_pass (base_sum ["BUN"; "Beef"; "cHEESE"]))),
       fresh_state).
Proof.
  apply (proj1 (calculate_burger_price_formula ucd_listed) spec_float binary64
           ["BUN"; "Beef"; "cHEESE"] fresh_state).
  discriminate.
Defined.

Lemma calculate_burger_price_returns {U : UnicodeData} {F} `{PyFloat F} o l st :
  exists v : F,
    calculate_burger_price (Some (o :: l)) st
      = (Return v, set_log (log st ++ concat (List.map skipped (o :: l))) st).
Proof.
  unfold calculate_burger_price.
  cbn [falsy]. unfold sum_ingredients, bind, default, from_option, Datatypes.id.
  destruct (sum_loop_returns (o :: l) (float_lit 0 1) st) as [v Hv].
  rewrite Hv. unfold lift. rewrite calculate_tax_default. eexists. reflexivity.
Qed.

(** C3, as amended -- [calculate_burger_price] applied to [None] and
    applied to the empty list both raise [ValueError] with the one
    message "Ingredients list cannot be empty", and touch nothing; on
    every other list the call returns a price, so no other input meets
    this error. *)
Theorem calculate_burger_price_empty :
  forall (U : UnicodeData) F (HF : PyFloat F),
    (forall st,
       calculate_burger_price (F := F) None st
         = (Raise (Exc ValueError "Ingredients list cannot be empty"), st)) /\
    (forall st,
       calculate_burger_price (F := F) (Some []) st
         = (Raise (Exc ValueError "Ingredients list cannot be empty"), st)) /\
    (forall o l st, exists v : F,
       calculate_burger_price (Some (o :: l)) st
         = (Return v,
            set_log (log st ++ concat (List.map skipped (o :: l))) st)).
Proof.
  intros U F HF. split; [|split]; try reflexivity.
  intros o l st. apply calculate_burger_price_returns.
Qed.

(** C3, as stated, fails: the message the code raises is not the text
    "ingredient list cannot be empty". *)
Lemma calculate_burger_price_empty_message :
  exists e,
    (forall U : UnicodeData,
       fst (calculate_burger_price (F := spec_float) (Some []) fresh_state)
         = Raise e) /\
    exc_msg e = "Ingredients list cannot be empty" /\
    String.eqb (exc_msg e) "ingredient list cannot be empty" = false.
Proof.
  exists (Exc ValueError "Ingredients list cannot be empty").
  split_and!; [intros U; reflexivity | reflexivity | reflexivity].
Qed.

(** C8, as amended -- Changing the case of ASCII letters in any of the
    names changes neither the price [calculate_burger_price] returns
    nor what it does to the state. *)
Theorem calculate_burger_price_case_insensitive :
  forall (U : UnicodeData) F (HF : PyFloat F) (names names' : list string) st,
    Forall2 (fun s t => recased s t = true) names names' ->
    calculate_burger_price (Some (PyStr <$> names')) st
      = calculate_burger_price (Some (PyStr <$> names)) st.
Proof.
  intros U F HF names names' st Hre.
  assert (Hprices : List.map (table_price (F := F)) names'
                    = List.map table_price names).
  { induction Hre as [|s t names names' Hst _ IH]; [reflexivity|].
    cbn [List.map]. rewrite IH. unfold table_price.
    rewrite (lower_recased s t Hst). reflexivity. }
  destruct Hre as [|s t names names' Hst Hre]; [reflexivity|].
  rewrite !calculate_burger_price_names by discriminate.
  unfold base_sum. rewrite Hprices. reflexivity.
Qed.

(** The upper-case list of the tests against the lower-case one. *)
Lemma calculate_burger_price_case_insensitive_witness :
  calculate_burger_price (F := spec_float)
      (Some (PyStr <$> ["BUN"; "BEEF"; "CHEESE"])) fresh_state
    = calculate_burger_price
        (Some (PyStr <$> ["bun"; "beef"; "cheese"])) fresh_state.
Proof.
  apply (calculate_burger_price_case_insensitive ucd_listed spec_float binary64
           ["bun"; "beef"; "cheese"] ["BUN"; "BEEF"; "CHEESE"] fresh_state).
  repeat constructor.
Defined.

(** The dotless i, U+0131, in the place of the i of chicken. *)
Lemma dotless_chicken {U : UnicodeData} :
  Text.upper ("ch" ++ Text.utf8 0x131 ++ "cken") = "CHICKEN" /\
  Text.lower ("ch" ++ Text.utf8 0x131 ++ "cken") = "ch" ++ Text.utf8 0x131 ++ "cken" /\
  Text.lower "CHICKEN" = "chicken".
Proof.
  split_and!; [| |reflexivity].
  - unfold Text.upper.
    change (Text.decode ("ch" ++ Text.utf8 0x131 ++ "cken"))
      with [0x63; 0x68; 0x131; 0x63; 0x6B; 0x65; 0x6E]%N.
    cbn [List.map]. unfold Text.to_upper.
    cbn [N.ltb N.compare Pos.compare Pos.compare_cont].
    rewrite upper_dotless_i. reflexivity.
  - unfold Text.lower.
    change (Text.decode ("ch" ++ Text.utf8 0x131 ++ "cken"))
      with [0x63; 0x68; 0x131; 0x63; 0x6B; 0x65; 0x6E]%N.
    cbn [Text.lower_codes]. unfold Text.to_lower.
    cbn [N.eqb Pos.eqb N.ltb N.compare Pos.compare Pos.compare_cont].
    rewrite lower_dotless_i. reflexivity.
Qed.

(** C8, as stated, fails: the case of a letter that is not ASCII
    matters.  The name "chicken" written with a dotless i, U+0131, has
    "CHICKEN" as its upper case, and the two are not priced alike: the
    first is no key of the table and costs nothing, the second is
    priced as chicken. *)
Lemma calculate_burger_price_dotless_i :
  (forall U : UnicodeData,
     Text.upper ("ch" ++ Text.utf8 0x131 ++ "cken") = "CHICKEN") /\
  (forall (U : UnicodeData) st,
     calculate_burger_price (F := spec_float)
         (Some [PyStr ("ch" ++ Text.utf8 0x131 ++ "cken")]) st
       = (Return (Binary64.lit 0 1), st) /\
     calculate_burger_price (F := spec_float) (Some [PyStr "CHICKEN"]) st
       = (Return (tax_pass (tax_pass (Binary64.lit 40 1))), st)) /\
  Binary64.le (tax_pass (tax_pass (Binary64.lit 40 1))) (Binary64.lit 0 1) = false /\
  float_round (tax_pass (tax_pass (Binary64.lit 40 1))) 2 = Binary64.lit 484 2.
Proof.
  split_and!.
  - intros U. apply dotless_chicken.
  - intros U st. split.
    + etransitivity;
        [exact (calculate_burger_price_names (F := spec_float)
                  ["ch" ++ Text.utf8 0x131 ++ "cken"] st ltac:(discriminate))|].
      unfold base_sum, table_price. cbn [List.map].
      rewrite (proj1 (proj2 dotless_chicken)). vm_compute. reflexivity.
    + etransitivity;
        [exact (calculate_burger_price_names (F := spec_float)
                  ["CHICKEN"] st ltac:(discriminate))|].
      vm_compute. reflexivity.
  - vm_compute. reflexivity.
  - vm_compute. reflexivity.
Qed.

(** ** What the collectors leave alone *)

Lemma keeps_refl st : keeps st st.
Proof. repeat split. Qed.

Lemma keeps_trans s1 s2 s3 : keeps s1 s2 -> keeps s2 s3 -> keeps s1 s3.
Proof.
  unfold keeps. intros (?&?&?&?) (?&?&?&?). repeat split; congruence.
Qed.

Lemma count_level_app l rs rs' :
  count_level l (rs ++ rs') = (count_level l rs + count_level l rs')%nat.
Proof. unfold count_level. rewrite List.filter_app, List.length_app. reflexivity. Qed.

Lemma errors_logged l m st :
  errors (set_log (log st ++ [LogRecord l m]) st)
    = (errors st + if bool_decide (l = ERROR) then 1 else 0)%nat.
Proof.
  unfold errors. cbn [log set_log]. rewrite count_level_app.
  unfold count_level at 2. cbn. destruct (bool_decide (l = ERROR)); reflexivity.
Qed.

Lemma keeps_logged l m st :
  l <> ERROR -> keeps st (set_log (log st ++ [LogRecord l m]) st).
Proof.
  intros Hl. repeat split. rewrite errors_logged.
  rewrite bool_decide_eq_false_2 by exact Hl. lia.
Qed.

Lemma keeps_input prompt st : keeps st (snd (input prompt st)).
Proof. unfold input. cbn. destruct (stdin st) as [|[s|e] rest]; repeat split. Qed.

(** A collector: a prompt, then at most one record that is no error. *)
Lemma keeps_get_bun {U : UnicodeData} st : keeps st (snd (get_bun st)).
Proof.
  unfold get_bun, bind. pose proof (keeps_input "What kind of bun would you like? " st) as Hin.
  destruct (input _ st) as [[raw|e] s1]; [|exact Hin].
  destruct (Text.is_empty (Text.strip raw)); [|exact Hin].
  eapply keeps_trans; [exact Hin|]. apply keeps_logged. discriminate.
Qed.

Lemma keeps_get_meat {U : UnicodeData} st : keeps st (snd (get_meat st)).
Proof.
  unfold get_meat, bind. pose proof (keeps_input "Enter the meat type: " st) as Hin.
  destruct (input _ st) as [[raw|e] s1]; [|exact Hin].
  destruct (Text.is_empty (Text.strip raw)).
  - eapply keeps_trans; [exact Hin|]. apply keeps_logged. discriminate.
  - destruct (bool_decide _); [exact Hin|].
    eapply keeps_trans; [exact Hin|]. apply keeps_logged. discriminate.
Qed.

Lemma keeps_get_cheese {U : UnicodeData} st : keeps st (snd (get_cheese st)).
Proof.
  unfold get_cheese, bind. pose proof (keeps_input "What kind of cheese? " st) as Hin.
  destruct (input _ st) as [[raw|e] s1]; [|exact Hin].
  destruct (Text.is_empty (Text.strip raw)); [|exact Hin].
  eapply keeps_trans; [exact Hin|]. apply keeps_logged. discriminate.
Qed.

Lemma get_sauce_value st : get_sauce st = (Return "ketchup and mustard", st).
Proof. reflexivity. Qed.

Lemma count_level_warnings (ws : list log_record) :
  Forall (fun r => lvl r = WARNING) ws -> count_level ERROR ws = O.
Proof.
  induction 1 as [|r ws Hr _ IH]; [reflexivity|].
  unfold count_level in *. cbn. rewrite Hr. exact IH.
Qed.

Lemma skipped_warnings (l : list pyobj) :
  Forall (fun r => lvl r = WARNING) (concat (List.map skipped l)).
Proof.
  induction l as [|o l IH]; [constructor|].
  cbn [List.map concat]. apply Forall_app. split; [|exact IH].
  destruct o; repeat constructor.
Qed.

Lemma keeps_calculate_burger_price {U : UnicodeData} {F} `{PyFloat F} l st :
  keeps st (snd (calculate_burger_price (F := F) l st)).
Proof.
  destruct l as [[|o l]|]; try apply keeps_refl.
  destruct (calculate_burger_price_returns o l st) as [v ->]. cbn [snd].
  repeat split. unfold errors. cbn [log set_log].
  rewrite count_level_app, (count_level_warnings _ (skipped_warnings _)). lia.
Qed.

(** ** The order assembler *)

Ltac step_bind Hrun :=
  first [ rewrite (bind_return _ _ _ _ _ Hrun)
        | rewrite (bind_raise _ _ _ _ _ Hrun) ].

Section AssemblerFacts.

Context {U : UnicodeData} {F : Type} `{PyFloat F}.

(** The block, step by step: the counter first, then the three
    prompts in turn; the first that raises ends the block. *)
Lemma assemble_try_steps st :
  match get_bun (set_count (BURGER_COUNT st + 1) st) with
  | (Raise e, s1) => assemble_try (F := F) st = (Raise e, s1)
  | (Return b, s1) =>
      match get_meat s1 with
      | (Raise e, s2) => assemble_try (F := F) st = (Raise e, s2)
      | (Return m, s2) =>
          match get_cheese s2 with
          | (Raise e, s3) => assemble_try (F := F) st = (Raise e, s3)
          | (Return c, s3) =>
              let d := b ++ " bun + " ++ m ++ " + " ++ "ketchup and mustard"
                         ++ " + " ++ c ++ " cheese" in
              assemble_try (F := F) st =
                (Return
                   (BurgerData b m "ketchup and mustard" c (BURGER_COUNT s3)
                      (float_round
                         (tax_pass (tax_pass (base_sum ["bun"; "meat"; "cheese"]))) 2)
                      (now s3),
                    d),
                 set_log
                   (log s3 ++ [LogRecord INFO
                                 ("Burger #" ++ pretty (BURGER_COUNT s3)
                                  ++ " assembled successfully")])
                   (set_last (Some d) s3))
          end
      end
  end.
Proof.
  unfold assemble_try.
  rewrite (bind_return _ _ st tt (set_count (BURGER_COUNT st + 1) st))
    by reflexivity.
  destruct (get_bun _) as [[b|e] s1] eqn:Hb; step_bind Hb; [|reflexivity].
  destruct (get_meat s1) as [[m|e] s2] eqn:Hm; step_bind Hm; [|reflexivity].
  step_bind (get_sauce_value s2).
  destruct (get_cheese s2) as [[c|e] s3] eqn:Hc; step_bind Hc; [|reflexivity].
  step_bind (calculate_burger_price_names (F := F)
               ["bun"; "meat"; "cheese"] s3 ltac:(discriminate)).
  reflexivity.
Qed.

(** The counter after the block, however it ends. *)
Lemma assemble_try_count st :
  BURGER_COUNT (snd (assemble_try (F := F) st)) = BURGER_COUNT st + 1.
Proof.
  pose proof (assemble_try_steps st) as Hsteps.
  pose proof (keeps_get_bun (set_count (BURGER_COUNT st + 1) st)) as (Hb & _).
  destruct (get_bun _) as [[b|e] s1]; cbn [snd BURGER_COUNT set_count] in Hb;
    [|rewrite Hsteps; exact Hb].
  pose proof (keeps_get_meat s1) as (Hm & _).
  destruct (get_meat s1) as [[m|e] s2]; cbn [snd] in Hm;
    [|rewrite Hsteps; cbn [snd]; congruence].
  pose proof (keeps_get_cheese s2) as (Hc & _).
  destruct (get_cheese s2) as [[c|e] s3]; cbn [snd] in Hc;
    rewrite Hsteps; cbn; congruence.
Qed.

(** A block that raises has logged no error and has left
    [last_burger] alone. *)
Lemma assemble_try_raises st e s' :
  assemble_try (F := F) st = (Raise e, s') ->
  last_burger s' = last_burger st /\ errors s' = errors st.
Proof.
  pose proof (assemble_try_steps st) as Hsteps.
  pose proof (keeps_get_bun (set_count (BURGER_COUNT st + 1) st))
    as (_ & Hb1 & _ & Hb2).
  change (errors (set_count (BURGER_COUNT st + 1) st)) with (errors st) in Hb2.
  destruct (get_bun _) as [[b|e1] s1];
    cbn [snd last_burger set_count] in Hb1, Hb2.
  2:{ rewrite Hsteps. intros [= <- <-]. split; assumption. }
  pose proof (keeps_get_meat s1) as (_ & Hm1 & _ & Hm2).
  destruct (get_meat s1) as [[m|e2] s2]; cbn [snd] in Hm1, Hm2.
  2:{ rewrite Hsteps. intros [= <- <-]. split; congruence. }
  pose proof (keeps_get_cheese s2) as (_ & Hc1 & _ & Hc2).
  destruct (get_cheese s2) as [[c|e3] s3]; cbn [snd] in Hc1, Hc2.
  2:{ rewrite Hsteps. intros [= <- <-]. split; congruence. }
  cbv zeta in Hsteps. rewrite Hsteps. discriminate.
Qed.

(** A block that returns: what it returns and what it leaves. *)
Lemma assemble_try_returns st bd d s' :
  assemble_try (F := F) st = (Return (bd, d), s') ->
  exists b m c s1 s2 s3,
    get_bun (set_count (BURGER_COUNT st + 1) st) = (Return b, s1) /\
    get_meat s1 = (Return m, s2) /\
    get_cheese s2 = (Return c, s3) /\
    d = b ++ " bun + " ++ m ++ " + " ++ "ketchup and mustard" ++ " + "
          ++ c ++ " cheese" /\
    bd = BurgerData b m "ketchup and mustard" c (BURGER_COUNT st + 1)
           (float_round
              (tax_pass (tax_pass (base_sum ["bun"; "meat"; "cheese"]))) 2)
           (now s3) /\
    last_burger s' = Some d /\
    errors s' = errors st.
Proof.
  pose proof (assemble_try_steps st) as Hsteps.
  pose proof (keeps_get_bun (set_count (BURGER_COUNT st + 1) st))
    as (Hb0 & _ & _ & Hb2).
  change (errors (set_count (BURGER_COUNT st + 1) st)) with (errors st) in Hb2.
  destruct (get_bun _) as [[b|e1] s1] eqn:Eb;
    cbn [snd BURGER_COUNT set_count] in Hb0, Hb2;
    [|rewrite Hsteps; discriminate].
  pose proof (keeps_get_meat s1) as (Hm0 & _ & _ & Hm2).
  destruct (get_meat s1) as [[m|e2] s2] eqn:Em; cbn [snd] in Hm0, Hm2;
    [|rewrite Hsteps; discriminate].
  pose proof (keeps_get_cheese s2) as (Hc0 & _ & _ & Hc2).
  destruct (get_cheese s2) as [[c|e3] s3] eqn:Ec; cbn [snd] in Hc0, Hc2;
    [|rewrite Hsteps; discriminate].
  cbv zeta in Hsteps. rewrite Hsteps. intros [= <- <- <-].
  exists b, m, c, s1, s2, s3. repeat split; try assumption.
  - f_equal. congruence.
  - unfold errors in *. cbn [log set_log]. rewrite count_level_app.
    change (count_level ERROR [_]) with O. lia.
Qed.

(** [assemble_burger] in terms of its block. *)
Lemma assemble_burger_cases st :
  match assemble_try (F := F) st with
  | (Return (bd, d), s') => assemble_burger (F := F) st = (Return (Some d), s')
  | (Raise e, s') =>
      if isinstance e Exception then
        assemble_burger (F := F) st =
          (Return None,
           set_log (log s' ++ [LogRecord ERROR
                                 ("Failed to assemble burger: " ++ exc_msg e)]) s')
      else assemble_burger (F := F) st = (Raise e, s')
  end.
Proof.
  unfold assemble_burger, try_except, bind.
  destruct (assemble_try st) as [[[bd d]|e] s']; [reflexivity|].
  cbn [find_handler existsb]. rewrite orb_false_r.
  destruct (isinstance e Exception); reflexivity.
Qed.

Lemma assemble_burger_count st :
  BURGER_COUNT (snd (assemble_burger (F := F) st)) = BURGER_COUNT st + 1.
Proof.
  pose proof (assemble_burger_cases st) as Hcases.
  pose proof (assemble_try_count st) as Hcount.
  destruct (assemble_try st) as [[[bd d]|e] s']; cbn [snd] in Hcount.
  - rewrite Hcases. exact Hcount.
  - destruct (isinstance e Exception); rewrite Hcases; exact Hcount.
Qed.

End AssemblerFacts.

(** ** Statements that respect a relation on states *)

Section Respects.

Context (R : state -> state -> Prop) `{!PreOrder R}.

Lemma respects_ret {A} (a : A) : respects R (ret a).
Proof. intros st. reflexivity. Qed.

Lemma respects_raise {A} e : respects R (raise (A := A) e).
Proof. intros st. reflexivity. Qed.

Lemma respects_get : respects R get.
Proof. intros st. reflexivity. Qed.

Lemma respects_bind {A B} (m : M A) (k : A -> M B) :
  respects R m -> (forall a, respects R (k a)) -> respects R (bind m k).
Proof.
  intros Hm Hk st. unfold bind. specialize (Hm st).
  destruct (m st) as [[a|e] s1]; cbn [snd] in Hm; [|exact Hm].
  etransitivity; [exact Hm | apply Hk].
Qed.

Lemma respects_try_except {A} (body : M A) handlers :
  respects R body ->
  Forall (fun ch => forall e, respects R (snd ch e)) handlers ->
  respects R (try_except body handlers).
Proof.
  intros Hbody Hhs st. unfold try_except. specialize (Hbody st).
  destruct (body st) as [[a|e] s1]; cbn [snd] in Hbody; [exact Hbody|].
  assert (Hfound : forall h, find_handler e handlers = Some h -> respects R h).
  { clear -Hhs. induction Hhs as [|[cs h'] hs Hh _ IH]; intros h; cbn.
    - discriminate.
    - destruct (existsb _ cs); [intros [= <-]; apply Hh | apply IH]. }
  destruct (find_handler e handlers) as [h|]; [|exact Hbody].
  etransitivity; [exact Hbody | apply (Hfound h eq_refl)].
Qed.

End Respects.

#[global] Instance same_globals_preorder : PreOrder same_globals.
Proof.
  split.
  - intros st. split; reflexivity.
  - intros s1 s2 s3 [? ?] [? ?]. split; congruence.
Qed.

Lemma same_globals_modify (f : state -> state) :
  (forall st, same_globals st (f st)) -> respects same_globals (modify f).
Proof. intros Hf st. apply Hf. Qed.

Lemma same_globals_log l m : respects same_globals (logger_log l m).
Proof. apply same_globals_modify. intros st. split; reflexivity. Qed.

Lemma same_globals_next_fault : respects same_globals next_fault.
Proof.
  intros st. unfold next_fault.
  destruct (os_faults st) as [|[|e n] rest]; split; reflexivity.
Qed.

Lemma same_globals_mkdtemp prefix : respects same_globals (mkdtemp prefix).
Proof.
  unfold mkdtemp. apply respects_bind; [apply _ | apply same_globals_next_fault |].
  intros _. apply respects_bind; [apply _ | apply respects_get; apply _ |].
  intros st. destruct (fresh_path _ _ _ _) as [[path rest]|].
  - apply respects_bind; [apply _ | | intros _; apply respects_ret; apply _].
    apply same_globals_modify. intros s. split; reflexivity.
  - apply respects_bind; [apply _ | | intros _; apply respects_raise; apply _].
    apply same_globals_modify. intros s. split; reflexivity.
Qed.

Lemma same_globals_write_text path data :
  respects same_globals (write_text path data).
Proof.
  unfold write_text. apply respects_bind; [apply _ | apply same_globals_next_fault |].
  intros _. apply respects_bind; [apply _ | apply respects_get; apply _ |].
  intros st. destruct (fs st !! fst path); [|apply respects_raise; apply _].
  apply respects_bind; [apply _ | |intros _].
  { apply same_globals_modify. intros s. split; reflexivity. }
  destruct (Text.encode_error data); [apply respects_raise; apply _|].
  apply respects_bind; [apply _ | apply respects_get; apply _ |].
  intros s. destruct (os_faults s) as [|[|e n] rest].
  - apply same_globals_modify. intros s'. split; reflexivity.
  - apply respects_bind; [apply _ | |intros _].
    { apply same_globals_modify. intros s'. split; reflexivity. }
    apply same_globals_modify. intros s'. split; reflexivity.
  - apply respects_bind; [apply _ | |intros _].
    { apply same_globals_modify. intros s'. split; reflexivity. }
    apply respects_bind; [apply _ | |intros _; apply respects_raise; apply _].
    apply same_globals_modify. intros s'. split; reflexivity.
Qed.

Lemma same_globals_save_burger burger : respects same_globals (save_burger burger).
Proof.
  unfold save_burger. destruct (no_text burger).
  - apply respects_bind; [apply _ | apply same_globals_log |].
    intros _. apply respects_ret; apply _.
  - apply respects_try_except; [apply _ | |].
    + apply respects_bind; [apply _ | apply same_globals_mkdtemp |]. intros temp_dir.
      apply respects_bind; [apply _ | apply same_globals_write_text |]. intros _.
      apply respects_bind; [apply _ | apply respects_get; apply _ |]. intros st.
      apply respects_bind; [apply _ | apply same_globals_write_text |]. intros _.
      apply respects_bind; [apply _ | apply same_globals_log |]. intros _.
      apply respects_ret; apply _.
    + constructor; [|constructor]. intros e. cbn [snd].
      apply respects_bind; [apply _ | apply same_globals_log |].
      intros _. apply respects_ret; apply _.
Qed.

Lemma keeps_same_globals st st' : keeps st st' -> same_globals st st'.
Proof. intros (? & ? & _). split; assumption. Qed.

Section OrchestratorFacts.

Context {U : UnicodeData} {F : Type} `{PyFloat F}.

Lemma main_count st :
  BURGER_COUNT (snd (main (F := F) st)) = BURGER_COUNT st + 1.
Proof.
  unfold main.
  rewrite (bind_return _ _ st tt
             (set_log (log st ++ [LogRecord INFO "Starting burger creation process"]) st))
    by reflexivity.
  set (s0 := set_log _ st).
  pose proof (assemble_burger_count (F := F) s0) as Hcount.
  change (BURGER_COUNT s0) with (BURGER_COUNT st) in Hcount.
  unfold try_except.
  destruct (assemble_burger s0) as [[burger|e] s1] eqn:Hrun; cbn [snd] in Hcount.
  - step_bind Hrun. destruct (negb (no_text burger)).
    + pose proof (same_globals_save_burger burger s1) as [Hsave _].
      destruct (save_burger burger s1) as [[success|e] s2] eqn:Hsave';
        cbn [snd] in Hsave; step_bind Hsave'.
      * destruct success; cbn; congruence.
      * destruct (find_handler _ _) as [h|] eqn:Hh; [|cbn; congruence].
        cbn in Hh. destruct (_ || false); [injection Hh as <-; cbn; congruence|].
        destruct (_ || false); [injection Hh as <-; cbn; congruence|discriminate].
    + cbn. exact Hcount.
  - step_bind Hrun.
    destruct (find_handler _ _) as [h|] eqn:Hh; [|cbn; congruence].
    cbn in Hh. destruct (_ || false); [injection Hh as <-; cbn; congruence|].
    destruct (_ || false); [injection Hh as <-; cbn; congruence|discriminate].
Qed.

Lemma run_op_count o st :
  BURGER_COUNT st <= BURGER_COUNT (run_op (F := F) o st).
Proof.
  destruct o as [l| | | | | |b|]; cbn [run_op].
  - destruct (keeps_calculate_burger_price (F := F) l st) as [-> _]. lia.
  - destruct (keeps_get_bun st) as [-> _]. lia.
  - destruct (keeps_get_meat st) as [-> _]. lia.
  - cbn. lia.
  - destruct (keeps_get_cheese st) as [-> _]. lia.
  - rewrite assemble_burger_count. lia.
  - destruct (same_globals_save_burger b st) as [-> _]. lia.
  - rewrite main_count. lia.
Qed.

Lemma run_ops_count os : forall st,
  BURGER_COUNT st <= BURGER_COUNT (run_ops (F := F) os st).
Proof.
  induction os as [|o os IH]; intros st; cbn; [lia|].
  etransitivity; [apply (run_op_count o) | apply IH].
Qed.

End OrchestratorFacts.

(** ** The order assembler: the claims *)

(** C2 -- Whenever [assemble_burger]'s block builds its order record,
    the price it puts there is [round(price, 2)] of the price of the
    literal list ["bun", "meat", "cheese"], whatever was typed at the
    prompts.  "meat" is no key of the price table and counts for zero,
    so that price is the sum [2.0 + 0 + 1.0] through the two tax passes:
    in exact arithmetic [(2.0 + 0 + 1.0) * (1 + 0.1)^2 = 3.63]; in
    binary64 the float [3.0 * (1.1 * 1.1)], which [round(_, 2)] takes
    to 3.63. *)
Theorem assemble_burger_price :
  forall U : UnicodeData,
  (forall F (HF : PyFloat F) st bd d st',
     assemble_try (F := F) st = (Return (bd, d), st') ->
     forall s,
       calculate_burger_price (Some [PyStr "bun"; PyStr "meat"; PyStr "cheese"]) s
         = (Return (tax_pass (tax_pass (base_sum ["bun"; "meat"; "cheese"]))), s) /\
       price bd
         = float_round (tax_pass (tax_pass (base_sum ["bun"; "meat"; "cheese"]))) 2) /\
  (forall F (HF : PyFloat F),
     INGREDIENT_PRICES (F := F) !! "meat" = None /\
     base_sum (F := F) ["bun"; "meat"; "cheese"]
       = float_add (float_add (float_add (float_lit 0 1) (float_lit 20 1))
                              (float_lit 0 1))
                   (float_lit 10 1)) /\
  (tax_pass (tax_pass (base_sum (F := Qc) ["bun"; "meat"; "cheese"]))
     = ((Exact.lit 20 1 + 0 + Exact.lit 10 1)
        * (Exact.lit 1 0 + Exact.lit 1 1) ^ 2)%Qc /\
   tax_pass (tax_pass (base_sum (F := Qc) ["bun"; "meat"; "cheese"]))
     = Exact.lit 363 2) /\
  (base_sum (F := spec_float) ["bun"; "meat"; "cheese"] = Binary64.lit 30 1 /\
   tax_pass (tax_pass (base_sum (F := spec_float) ["bun"; "meat"; "cheese"]))
     = Binary64.mul (Binary64.lit 30 1)
                    (Binary64.mul (Binary64.lit 11 1) (Binary64.lit 11 1)) /\
   float_round
     (tax_pass (tax_pass (base_sum (F := spec_float) ["bun"; "meat"; "cheese"]))) 2
     = Binary64.lit 363 2).
Proof.
  intros U. split; [|split; [|split]].
  - intros F HF st bd d st' Hrun s. split.
    + apply (calculate_burger_price_names ["bun"; "meat"; "cheese"]). discriminate.
    + apply assemble_try_returns in Hrun
        as (b & m & c & s1 & s2 & s3 & _ & _ & _ & _ & -> & _).
      reflexivity.
  - intros F HF. split; reflexivity.
  - split; apply Qc_is_canon; reflexivity.
  - repeat split; vm_compute; reflexivity.
Qed.

(** A run where chicken, 4.0 in the table, is typed for the meat. *)
Lemma assemble_burger_price_witness :
  exists bd d st',
    assemble_try (F := spec_float)
      (set_stdin [Line "brioche"; Line "Chicken"; Line "swiss"] fresh_state)
      = (Return (bd, d), st') /\
    meat bd = "chicken" /\
    price bd
      = float_round (tax_pass (tax_pass (base_sum ["bun"; "meat"; "cheese"]))) 2.
Proof.
  eexists _, _, _. split; [vm_compute; reflexivity|]. split; [reflexivity|].
  eapply (proj1 (assemble_burger_price ucd_listed) spec_float binary64
            (set_stdin [Line "brioche"; Line "Chicken"; Line "swiss"] fresh_state)).
  - vm_compute. reflexivity.
  - exact fresh_state.
Defined.

(** C4 -- Every call of [assemble_burger] leaves the counter one higher,
    whether it returns a description, returns [None] or lets an
    exception through: the counter is raised first and never lowered.
    So it is when the very first collection step, the prompt for the
    bun, raises.  Two calls in a row raise it by two, from 0 to 2, and
    no run of operations of the module lowers it. *)
Theorem assemble_burger_counter :
  forall (U : UnicodeData) F (HF : PyFloat F),
    (forall st,
       BURGER_COUNT (snd (assemble_burger (F := F) st)) = BURGER_COUNT st + 1) /\
    (forall st e,
       let st' := snd (assemble_burger (F := F) (set_stdin [Fails e] st)) in
       BURGER_COUNT st' = BURGER_COUNT st + 1 /\
       stdout st' = (stdout st ++ ["What kind of bun would you like? "])%list) /\
    (forall st,
       BURGER_COUNT (run_ops (F := F) [OpAssemble; OpAssemble] st)
         = BURGER_COUNT st + 2) /\
    (forall inputs,
       BURGER_COUNT (run_ops (F := F) [OpAssemble; OpAssemble]
                       (set_stdin inputs fresh_state)) = 2) /\
    (forall os st, BURGER_COUNT st <= BURGER_COUNT (run_ops (F := F) os st)).
Proof.
  intros U F HF. split; [|split; [|split; [|split]]].
  - apply assemble_burger_count.
  - intros st e. split.
    + apply (assemble_burger_count (set_stdin [Fails e] st)).
    + unfold assemble_burger, try_except, bind at 1, assemble_try, bind at 1.
      cbn [modify]. unfold bind at 1, get_bun, bind at 1, input.
      cbn [stdin set_stdin set_stdout set_count find_handler existsb].
      destruct (isinstance e Exception); reflexivity.
  - intros st. cbn [run_ops fold_left run_op].
    rewrite !assemble_burger_count. lia.
  - intros inputs. cbn [run_ops fold_left run_op].
    rewrite !assemble_burger_count. reflexivity.
  - apply run_ops_count.
Qed.

(** C5, as amended -- When a collection step or the price calculation
    raises an exception that is an instance of [Exception],
    [assemble_burger] logs exactly one error, that one, and returns
    [None]; nothing is raised to the caller.  An exception that is not
    an instance of [Exception] ([KeyboardInterrupt], [SystemExit]) is
    not caught: it reaches the caller, and no error is logged. *)
Theorem assemble_burger_contains :
  forall (U : UnicodeData) F (HF : PyFloat F) st e s1,
    assemble_try (F := F) st = (Raise e, s1) ->
    (isinstance e Exception = true ->
       assemble_burger (F := F) st
         = (Return None,
            set_log (log s1 ++ [LogRecord ERROR
                                  ("Failed to assemble burger: " ++ exc_msg e)]) s1) /\
       errors (snd (assemble_burger (F := F) st)) = S (errors st)) /\
    (isinstance e Exception = false ->
       assemble_burger (F := F) st = (Raise e, s1) /\
       errors s1 = errors st).
Proof.
  intros U F HF st e s1 Hrun.
  pose proof (assemble_burger_cases (F := F) st) as Hcases. rewrite Hrun in Hcases.
  apply assemble_try_raises in Hrun as [_ Herr].
  split; intros Hinst; rewrite Hinst in Hcases; rewrite Hcases; split;
    try reflexivity; try exact Herr.
  cbn [snd]. rewrite errors_logged, Herr.
  rewrite bool_decide_eq_true_2 by reflexivity. lia.
Qed.

(** A run where the input ends after the first answer. *)
Lemma assemble_burger_contains_witness :
  exists s1 st',
    assemble_try (F := spec_float) (set_stdin [Line "brioche"] fresh_state)
      = (Raise (Exc EOFError "EOF when reading a line"), s1) /\
    assemble_burger (F := spec_float) (set_stdin [Line "brioche"] fresh_state)
      = (Return None, st') /\
    log st' = [LogRecord ERROR "Failed to assemble burger: EOF when reading a line"] /\
    errors st' = 1%nat.
Proof.
  eexists _, _.
  assert (Hrun : assemble_try (F := spec_float) (set_stdin [Line "brioche"] fresh_state)
                 = (Raise (Exc EOFError "EOF when reading a line"),
                    snd (assemble_try (F := spec_float)
                           (set_stdin [Line "brioche"] fresh_state))))
    by (vm_compute; reflexivity).
  split; [exact Hrun|].
  destruct (proj1 (assemble_burger_contains ucd_listed spec_float binary64 _ _ _ Hrun)
              eq_refl)
    as [Hnone Herrors].
  split; [exact Hnone|]. split; [reflexivity|]. exact Herrors.
Defined.

(** C5, as stated, fails: Ctrl-C at the first prompt raises
    [KeyboardInterrupt] out of [assemble_burger], and no error is
    logged. *)
Lemma assemble_burger_keyboard_interrupt :
  (forall U : UnicodeData,
     fst (assemble_burger (F := spec_float)
            (set_stdin [Fails (Exc KeyboardInterrupt "")] fresh_state))
       = Raise (Exc KeyboardInterrupt "")) /\
  (forall U : UnicodeData,
     errors (snd (assemble_burger (F := spec_float)
                    (set_stdin [Fails (Exc KeyboardInterrupt "")] fresh_state)))
       = O).
Proof. split; intros U; vm_compute; reflexivity. Qed.

(** C6 -- A call of [assemble_burger] that succeeds returns
    "{bun} bun + {meat} + {sauce} + {cheese} cheese" made of the values
    the four collectors returned, in the order bun, meat, sauce, cheese,
    and collectors that return make it succeed with that text.  With
    "sesame", "beef" and "cheddar" typed at the prompts of a fresh
    process the text is
    "sesame bun + beef + ketchup and mustard + cheddar cheese" and the
    counter becomes 1. *)
Theorem assemble_burger_description :
  forall (U : UnicodeData) F (HF : PyFloat F),
    (forall st d st',
       assemble_burger (F := F) st = (Return (Some d), st') ->
       exists b m s c s1 s2 s3,
         get_bun (set_count (BURGER_COUNT st + 1) st) = (Return b, s1) /\
         get_meat s1 = (Return m, s2) /\
         get_sauce s2 = (Return s, s2) /\
         get_cheese s2 = (Return c, s3) /\
         d = b ++ " bun + " ++ m ++ " + " ++ s ++ " + " ++ c ++ " cheese") /\
    (forall st b m s c s1 s2 s3,
       get_bun (set_count (BURGER_COUNT st + 1) st) = (Return b, s1) ->
       get_meat s1 = (Return m, s2) ->
       get_sauce s2 = (Return s, s2) ->
       get_cheese s2 = (Return c, s3) ->
       fst (assemble_burger (F := F) st)
         = Return (Some (b ++ " bun + " ++ m ++ " + " ++ s ++ " + " ++ c
                           ++ " cheese"))) /\
    (forall rest,
       let st := set_stdin (Line "sesame" :: Line "beef" :: Line "cheddar" :: rest)
                           fresh_state in
       fst (assemble_burger (F := F) st)
         = Return (Some "sesame bun + beef + ketchup and mustard + cheddar cheese") /\
       BURGER_COUNT st = 0 /\
       BURGER_COUNT (snd (assemble_burger (F := F) st)) = 1).
Proof.
  intros U F HF.
  assert (Hconverse : forall st b m s c s1 s2 s3,
    get_bun (set_count (BURGER_COUNT st + 1) st) = (Return b, s1) ->
    get_meat s1 = (Return m, s2) ->
    get_sauce s2 = (Return s, s2) ->
    get_cheese s2 = (Return c, s3) ->
    fst (assemble_burger (F := F) st)
      = Return (Some (b ++ " bun + " ++ m ++ " + " ++ s ++ " + " ++ c ++ " cheese"))).
  { intros st b m s c s1 s2 s3 Hb Hm Hs Hc.
    rewrite get_sauce_value in Hs. injection Hs as <-.
    pose proof (assemble_try_steps (F := F) st) as Hsteps.
    rewrite Hb, Hm, Hc in Hsteps. cbv zeta in Hsteps.
    pose proof (assemble_burger_cases (F := F) st) as Hcases.
    rewrite Hsteps in Hcases. rewrite Hcases. reflexivity. }
  split; [|split].
  - intros st d st' Hrun.
    pose proof (assemble_burger_cases (F := F) st) as Hcases.
    destruct (assemble_try st) as [[[bd d']|e] s'] eqn:Htry.
    + rewrite Hcases in Hrun. injection Hrun as <- <-.
      apply assemble_try_returns in Htry
        as (b & m & c & s1 & s2 & s3 & Hb & Hm & Hc & -> & _).
      exists b, m, "ketchup and mustard", c, s1, s2, s3.
      repeat split; auto using get_sauce_value.
    + destruct (isinstance e Exception); rewrite Hcases in Hrun; discriminate.
  - exact Hconverse.
  - intros rest st. split; [|split].
    + apply (Hconverse st "sesame" "beef" "ketchup and mustard" "cheddar"
               _ _ _ eq_refl eq_refl eq_refl eq_refl).
    + reflexivity.
    + apply (assemble_burger_count st).
Qed.

(** A run with blanks, capitals and an empty answer at the prompts. *)
Lemma assemble_burger_description_witness :
  exists b m s c s1 s2 s3,
    get_bun (set_count 1
               (set_stdin [Line " Brioche "; Line "FISH"; Line ""] fresh_state))
      = (Return b, s1) /\
    get_meat s1 = (Return m, s2) /\
    get_sauce s2 = (Return s, s2) /\
    get_cheese s2 = (Return c, s3) /\
    "Brioche bun + fish + ketchup and mustard + cheddar cheese"
      = b ++ " bun + " ++ m ++ " + " ++ s ++ " + " ++ c ++ " cheese".
Proof.
  apply (proj1 (assemble_burger_description ucd_listed spec_float binary64)
           (set_stdin [Line " Brioche "; Line "FISH"; Line ""] fresh_state)
           "Brioche bun + fish + ketchup and mustard + cheddar cheese"
           (snd (assemble_burger (F := spec_float)
                   (set_stdin [Line " Brioche "; Line "FISH"; Line ""] fresh_state)))).
  vm_compute. reflexivity.
Defined.

(** C10 -- A call of [assemble_burger] that fails, returning [None],
    leaves [last_burger] as it was, and so does one that lets an
    exception through; only a call that succeeds writes it, and what it
    writes is the description it returns. *)
Theorem assemble_burger_last_burger :
  forall (U : UnicodeData) F (HF : PyFloat F) st,
    match assemble_burger (F := F) st with
    | (Return None, st') => last_burger st' = last_burger st
    | (Raise _, st') => last_burger st' = last_burger st
    | (Return (Some d), st') => last_burger st' = Some d
    end.
Proof.
  intros U F HF st.
  pose proof (assemble_burger_cases (F := F) st) as Hcases.
  destruct (assemble_try st) as [[[bd d]|e] s'] eqn:Htry.
  - rewrite Hcases.
    apply assemble_try_returns in Htry as (b & m & c & s1 & s2 & s3 & H').
    apply H'.
  - apply assemble_try_raises in Htry as [Hlast _].
    destruct (isinstance e Exception); rewrite Hcases; exact Hlast.
Qed.

(** A failing run of a process that holds an earlier order. *)
Lemma assemble_burger_last_burger_witness :
  last_burger
    (snd (assemble_burger (F := spec_float)
            (set_last (Some "an earlier order")
               (set_stdin [Line "brioche"; Fails (Exc EOFError "closed")]
                          fresh_state))))
    = Some "an earlier order".
Proof.
  exact (assemble_burger_last_burger ucd_listed spec_float binary64
           (set_last (Some "an earlier order")
              (set_stdin [Line "brioche"; Fails (Exc EOFError "closed")]
                         fresh_state))).
Defined.

(** ** The persister *)

Lemma next_fault_inv st r st' :
  next_fault st = (r, st') ->
  fs st' = fs st /\ BURGER_COUNT st' = BURGER_COUNT st /\
  tempdir st' = tempdir st /\ tmp_names st' = tmp_names st.
Proof.
  unfold next_fault.
  destruct (os_faults st) as [|[|e n] rest]; intros [= <- <-]; repeat split.
Qed.

Lemma fresh_path_inv dir prefix names files path rest :
  fresh_path dir prefix names files = Some (path, rest) ->
  (exists n, n ∈ names /\ path = dir ++ "/" ++ prefix ++ n) /\
  files !! path = None.
Proof.
  induction names as [|n names IH]; cbn [fresh_path]; [discriminate|].
  destruct (files !! (dir ++ "/" ++ prefix ++ n)) eqn:Hlook.
  - intros Hrest. destruct (IH Hrest) as [(n' & Hin & ->) Hnone].
    split; [|exact Hnone]. exists n'. split; [|reflexivity].
    apply elem_of_cons. right. exact Hin.
  - intros [= <- <-]. split; [|exact Hlook].
    exists n. split; [apply elem_of_cons; left|]; reflexivity.
Qed.

Lemma mkdtemp_returns prefix st dir st' :
  mkdtemp prefix st = (Return dir, st') ->
  (exists n, n ∈ tmp_names st /\ dir = tempdir st ++ "/" ++ prefix ++ n) /\
  fs st !! dir = None /\
  fs st' = <[dir := ∅]> (fs st) /\
  BURGER_COUNT st' = BURGER_COUNT st.
Proof.
  unfold mkdtemp. intros Hrun.
  apply bind_inv in Hrun as [([] & sa & Hfault & Hrun)|(e & _ & [=])].
  apply next_fault_inv in Hfault as (Hfs & Hcount & Hdir & Hnames).
  unfold bind at 1, get in Hrun.
  rewrite Hdir, Hnames, Hfs in Hrun.
  destruct (fresh_path _ _ _ _) as [[path rest]|] eqn:Hfresh.
  - apply fresh_path_inv in Hfresh as [Hname Hnone].
    cbn in Hrun. injection Hrun as <- <-. cbn.
    repeat split; try assumption. f_equal. exact Hfs.
  - cbn in Hrun. discriminate.
Qed.

(** [write_text], outcome by outcome: the opening of the file may
    fail, the directory may be missing, the text may not be encodable,
    the writing may fail; [put] is the state with a content for the
    file. *)
Lemma write_text_outcome path data st :
  let put content files s :=
    set_fs (<[fst path := <[snd path := content]> files]> (fs st)) s in
  match os_faults st with
  | Fault e _ :: rest => write_text path data st = (Raise e, set_os_faults rest st)
  | faults =>
      let s0 := set_os_faults (tail faults) st in
      match fs st !! fst path with
      | None =>
          exists e, write_text path data st = (Raise e, s0) /\
                    exc_cls e = FileNotFoundError
      | Some files =>
          match Text.encode_error data with
          | Some reason =>
              write_text path data st
                = (Raise (Exc UnicodeEncodeError reason), put "" files s0)
          | None =>
              match tail faults with
              | Fault e written :: rest =>
                  write_text path data st
                    = (Raise e,
                       put (Text.first_bytes written data) files
                           (set_os_faults rest st))
              | faults' =>
                  write_text path data st
                    = (Return tt, put data files (set_os_faults (tail faults') st))
              end
          end
      end
  end.
Proof.
  cbv zeta. unfold write_text, bind, next_fault, get, modify, raise.
  destruct st as [c l lg i o nw f td tn faults].
  destruct faults as [|[|e n] rest];
    cbn [os_faults fs set_os_faults set_fs tail]; [| |reflexivity].
  - destruct (f !! fst path) as [files|]; [|eexists; split; reflexivity].
    destruct (Text.encode_error data);
      cbn [os_faults fs set_os_faults set_fs];
      rewrite ?insert_insert_eq; reflexivity.
  - destruct (f !! fst path) as [files|]; [|eexists; split; reflexivity].
    destruct (Text.encode_error data); [reflexivity|].
    destruct rest as [|[|e n] rest];
      cbn [tail os_faults fs set_os_faults set_fs];
      rewrite ?insert_insert_eq; reflexivity.
Qed.

Lemma write_text_returns path data st u st' :
  write_text path data st = (Return u, st') ->
  exists files,
    fs st !! fst path = Some files /\
    fs st' = <[fst path := <[snd path := data]> files]> (fs st) /\
    BURGER_COUNT st' = BURGER_COUNT st /\
    Text.encode_error data = None.
Proof.
  pose proof (write_text_outcome path data st) as Hout. cbv zeta in Hout.
  destruct (os_faults st) as [|[|e n] rest]; cbn [tail] in Hout;
    [| |rewrite Hout; discriminate].
  all: destruct (fs st !! fst path) as [files|];
    [|destruct Hout as (e' & -> & _); discriminate].
  all: destruct (Text.encode_error data); [rewrite Hout; discriminate|].
  2: destruct rest as [|[|e' n'] rest]; [| |rewrite Hout; discriminate].
  all: rewrite Hout; intros Heq; injection Heq as <- <-; exists files;
    repeat split.
Qed.

(** The [try] block of [save_burger] is all that can return [True]. *)
Lemma save_burger_true d st st' :
  no_text (Some d) = false ->
  save_burger (Some d) st = (Return true, st') ->
  exists dir s1 s2 s3,
    mkdtemp "burger_orders_" st = (Return dir, s1) /\
    write_text (dir, "burger.txt") d s1 = (Return tt, s2) /\
    write_text (dir, "burger_count.txt") (pretty (BURGER_COUNT s2)) s2
      = (Return tt, s3) /\
    st' = set_log (log s3 ++ [LogRecord INFO ("Burger saved to " ++ dir)]) s3.
Proof.
  intros Htext. unfold save_burger. rewrite Htext. unfold try_except.
  match goal with |- context [match ?body st with _ => _ end] =>
    destruct (body st) as [[ok|e] s'] eqn:Hbody end.
  - intros [= -> ->].
    apply bind_inv in Hbody as [(dir & s1 & Hdir & Hbody)|(e & _ & [=])].
    apply bind_inv in Hbody as [([] & s2 & Hw1 & Hbody)|(e & _ & [=])].
    apply bind_inv in Hbody as [(sg & s2' & Hget & Hbody)|(e & _ & [=])].
    injection Hget as <- <-.
    apply bind_inv in Hbody as [([] & s3 & Hw2 & Hbody)|(e & _ & [=])].
    cbn in Hbody. injection Hbody as <-.
    exists dir, s1, s2, s3. repeat split; assumption.
  - cbn [find_handler]. destruct (existsb _ _); [|discriminate].
    cbn. discriminate.
Qed.

(** C7 -- Given an empty description (or [None]), [save_burger]
    returns [False] at once: it logs one error and changes nothing
    else, so no directory is made and no file written.  A save of a
    non-empty description that returns [True] has made exactly one
    directory, one that did not exist before, named
    "burger_orders_..." under the temporary directory, and it holds
    exactly two files: burger.txt with the description as given and
    burger_count.txt with the counter in decimal; the rest of the file
    system is as it was. *)
Theorem save_burger_storage :
  (forall st,
     save_burger (Some "") st
       = (Return false,
          set_log (log st ++ [LogRecord ERROR "Cannot save empty burger description"])
                  st)) /\
  (forall st,
     save_burger None st
       = (Return false,
          set_log (log st ++ [LogRecord ERROR "Cannot save empty burger description"])
                  st)) /\
  (forall d st st',
     no_text (Some d) = false ->
     save_burger (Some d) st = (Return true, st') ->
     exists name,
       let dir := tempdir st ++ "/" ++ "burger_orders_" ++ name in
       fs st !! dir = None /\
       fs st' = <[dir := {[ "burger.txt" := d;
                            "burger_count.txt" := pretty (BURGER_COUNT st) ]}]>
                  (fs st)).
Proof.
  split; [reflexivity|]. split; [reflexivity|].
  intros d st st' Htext Hrun.
  apply save_burger_true in Hrun as (dir & s1 & s2 & s3 & Hdir & Hw1 & Hw2 & ->);
    [|exact Htext].
  apply mkdtemp_returns in Hdir as ((name & _ & ->) & Hnone & Hfs1 & Hc1).
  apply write_text_returns in Hw1 as (files1 & Hl1 & Hfs2 & Hc2 & _).
  apply write_text_returns in Hw2 as (files2 & Hl2 & Hfs3 & Hc3 & _).
  cbn [fst snd] in *.
  exists name. cbv zeta. split; [exact Hnone|].
  cbn [fs set_log]. rewrite Hfs3.
  rewrite Hfs2, lookup_insert_eq in Hl2. injection Hl2 as <-.
  rewrite Hfs1, lookup_insert_eq in Hl1. injection Hl1 as <-.
  rewrite Hfs2, Hfs1, !insert_insert_eq, Hc2, Hc1.
  f_equal.
Qed.

(** A save after one order, into an empty file system. *)
Lemma save_burger_storage_witness :
  exists name st',
    save_burger (Some "sesame bun + beef + ketchup and mustard + cheddar cheese")
                (set_count 1 fresh_state) = (Return true, st') /\
    fs fresh_state !! ("/tmp/burger_orders_" ++ name) = None /\
    fs st' = <[ "/tmp/burger_orders_" ++ name :=
                {[ "burger.txt" :=
                     "sesame bun + beef + ketchup and mustard + cheddar cheese";
                   "burger_count.txt" := "1" ]} ]> ∅.
Proof.
  assert (Hrun :
    save_burger (Some "sesame bun + beef + ketchup and mustard + cheddar cheese")
                (set_count 1 fresh_state)
    = (Return true,
       snd (save_burger
              (Some "sesame bun + beef + ketchup and mustard + cheddar cheese")
              (set_count 1 fresh_state))))
    by (vm_compute; reflexivity).
  destruct (proj2 (proj2 save_burger_storage)
              "sesame bun + beef + ketchup and mustard + cheddar cheese"
              (set_count 1 fresh_state) _ eq_refl Hrun)
    as (name & Hnone & Hfs).
  exists name, (snd (save_burger
              (Some "sesame bun + beef + ketchup and mustard + cheddar cheese")
              (set_count 1 fresh_state))).
  split; [exact Hrun|]. split; [exact Hnone | exact Hfs].
Defined.

(** ** The collectors, one answer at a time *)

Lemma input_line prompt st line rest :
  stdin st = Line line :: rest ->
  input prompt st
    = (Return line, set_stdin rest (set_stdout (stdout st ++ [prompt]) st)).
Proof. unfold input. cbn [stdin set_stdout]. intros ->. reflexivity. Qed.

Lemma input_fails prompt st e rest :
  stdin st = Fails e :: rest ->
  input prompt st
    = (Raise e, set_stdin rest (set_stdout (stdout st ++ [prompt]) st)).
Proof. unfold input. cbn [stdin set_stdout]. intros ->. reflexivity. Qed.

Lemma input_eof prompt st :
  stdin st = [] ->
  input prompt st
    = (Raise (Exc EOFError "EOF when reading a line"),
       set_stdout (stdout st ++ [prompt]) st).
Proof. unfold input. cbn [stdin set_stdout]. intros ->. reflexivity. Qed.

(** A collector returns only when it has read a line. *)
Lemma input_returns prompt st a s1 :
  input prompt st = (Return a, s1) ->
  exists rest, stdin st = Line a :: rest.
Proof.
  unfold input. cbn [stdin set_stdout].
  destruct (stdin st) as [|[line|e] rest]; intros [= <- <-]. eauto.
Qed.

Lemma get_bun_line st line rest :
  stdin st = Line line :: rest ->
  get_bun st
    = (Return (if blank line then "sesame" else Text.strip line),
       let s1 := set_stdin rest
                   (set_stdout (stdout st ++ ["What kind of bun would you like? "]) st) in
       if blank line
       then set_log (log s1 ++ [LogRecord WARNING
                                  "Empty bun type provided, using default"]) s1
       else s1).
Proof.
  intros Hin. unfold get_bun.
  step_bind (input_line "What kind of bun would you like? " st line rest Hin).
  unfold blank. destruct (Text.is_empty (Text.strip line)); reflexivity.
Qed.

Lemma get_cheese_line st line rest :
  stdin st = Line line :: rest ->
  get_cheese st
    = (Return (if blank line then "cheddar" else Text.strip line),
       let s1 := set_stdin rest
                   (set_stdout (stdout st ++ ["What kind of cheese? "]) st) in
       if blank line
       then set_log (log s1 ++ [LogRecord WARNING
                                  "Empty cheese type provided, using default"]) s1
       else s1).
Proof.
  intros Hin. unfold get_cheese.
  step_bind (input_line "What kind of cheese? " st line rest Hin).
  unfold blank. destruct (Text.is_empty (Text.strip line)); reflexivity.
Qed.

Lemma get_meat_line {U : UnicodeData} st line rest :
  stdin st = Line line :: rest ->
  get_meat st
    = (Return (if blank line then "beef"
               else if bool_decide (Text.lower (Text.strip line) ∈ valid_meats)
                    then Text.lower (Text.strip line)
                    else Text.strip line),
       let s1 := set_stdin rest
                   (set_stdout (stdout st ++ ["Enter the meat type: "]) st) in
       if blank line
       then set_log (log s1 ++ [LogRecord WARNING
                                  "Empty meat type provided, using default"]) s1
       else if bool_decide (Text.lower (Text.strip line) ∈ valid_meats)
            then s1
            else set_log (log s1 ++ [LogRecord INFO
                                       ("Unknown meat type: " ++ Text.strip line
                                        ++ ", treating as specialty meat")]) s1).
Proof.
  intros Hin. unfold get_meat.
  step_bind (input_line "Enter the meat type: " st line rest Hin).
  unfold blank. destruct (Text.is_empty (Text.strip line)); [reflexivity|].
  destruct (bool_decide _); reflexivity.
Qed.



(** X1 -- Given a line of input, [get_bun] returns a text that is not
    empty and has no white space around it: the line stripped, or the
    default "sesame", with one warning, when the line is blank.  It
    reads that one line, writes its prompt once, and feeding its answer
    back gives the same answer. *)
Theorem get_bun_answer :
  forall st line rest,
    stdin st = Line line :: rest ->
    exists b st',
      get_bun st = (Return b, st') /\
      Text.is_empty b = false /\
      Text.strip b = b /\
      b = (if blank line then "sesame" else Text.strip line) /\
      stdin st' = rest /\
      stdout st' = (stdout st ++ ["What kind of bun would you like? "])%list /\
      log st' = (log st ++ if blank line
                           then [LogRecord WARNING
                                   "Empty bun type provided, using default"]
                           else [])%list /\
      (forall st2, fst (get_bun (set_stdin [Line b] st2)) = Return b).
Proof.
  intros st line rest Hin. rewrite (get_bun_line st line rest Hin).
  eexists _, _. split; [reflexivity|].
  assert (Hgood : forall b, Text.is_empty b = false -> Text.strip b = b ->
            forall st2, fst (get_bun (set_stdin [Line b] st2)) = Return b).
  { intros b Hb Hs st2. rewrite (get_bun_line (set_stdin [Line b] st2) b [] eq_refl).
    unfold blank. rewrite Hs, Hb. reflexivity. }
  unfold blank in *. destruct (Text.is_empty (Text.strip line)) eqn:Hblank.
  - repeat split; try (apply Hgood; reflexivity).
  - repeat split; auto using strip_idem;
      try (cbn; rewrite app_nil_r; reflexivity);
      try (apply Hgood; auto using strip_idem).
Qed.

(** A two-word bun between a blank, a no-break space, U+00A0, and an
    ideographic space, U+3000. *)
Lemma get_bun_answer_witness :
  exists st',
    get_bun (set_stdin [Line (" " ++ Text.utf8 0xA0 ++ "whole wheat"
                              ++ Text.utf8 0x3000)]
                       fresh_state)
      = (Return "whole wheat", st') /\
    stdin st' = [] /\ log st' = [].
Proof.
  destruct (get_bun_answer
              (set_stdin [Line (" " ++ Text.utf8 0xA0 ++ "whole wheat"
                                ++ Text.utf8 0x3000)]
                         fresh_state)
              (" " ++ Text.utf8 0xA0 ++ "whole wheat" ++ Text.utf8 0x3000) []
              eq_refl)
    as (b & st' & Hrun & _ & _ & Hb & Hin & _ & Hlog & _).
  exists st'. subst b. repeat split; assumption.
Defined.



(** X3 -- Given a line of input, [get_cheese] returns a text that is
    not empty and has no white space around it: the line stripped, or
    the default "cheddar", with one warning, when the line is blank.
    It reads that one line, writes its prompt once, and feeding its
    answer back gives the same answer. *)
Theorem get_cheese_answer :
  forall st line rest,
    stdin st = Line line :: rest ->
    exists c st',
      get_cheese st = (Return c, st') /\
      Text.is_empty c = false /\
      Text.strip c = c /\
      c = (if blank line then "cheddar" else Text.strip line) /\
      stdin st' = rest /\
      stdout st' = (stdout st ++ ["What kind of cheese? "])%list /\
      log st' = (log st ++ if blank line
                           then [LogRecord WARNING
                                   "Empty cheese type provided, using default"]
                           else [])%list /\
      (forall st2, fst (get_cheese (set_stdin [Line c] st2)) = Return c).
Proof.
  intros st line rest Hin. rewrite (get_cheese_line st line rest Hin).
  eexists _, _. split; [reflexivity|].
  assert (Hgood : forall c, Text.is_empty c = false -> Text.strip c = c ->
            forall st2, fst (get_cheese (set_stdin [Line c] st2)) = Return c).
  { intros c Hc Hs st2. rewrite (get_cheese_line (set_stdin [Line c] st2) c [] eq_refl).
    unfold blank. rewrite Hs, Hc. reflexivity. }
  unfold blank in *. destruct (Text.is_empty (Text.strip line)) eqn:Hblank.
  - repeat split; try (apply Hgood; reflexivity).
  - repeat split; auto using strip_idem;
      try (cbn; rewrite app_nil_r; reflexivity);
      try (apply Hgood; auto using strip_idem).
Qed.

(** A line of white space only: a blank, a no-break space, a tab. *)
Lemma get_cheese_answer_witness :
  exists st',
    get_cheese (set_stdin [Line (" " ++ Text.utf8 0xA0 ++ Text.utf8 0x9); Line "x"]
                          fresh_state)
      = (Return "cheddar", st') /\
    stdin st' = [Line "x"] /\
    log st' = [LogRecord WARNING "Empty cheese type provided, using default"].
Proof.
  destruct (get_cheese_answer
              (set_stdin [Line (" " ++ Text.utf8 0xA0 ++ Text.utf8 0x9); Line "x"]
                         fresh_state)
              (" " ++ Text.utf8 0xA0 ++ Text.utf8 0x9) [Line "x"] eq_refl)
    as (c & st' & Hrun & _ & _ & Hc & Hin & _ & Hlog & _).
  exists st'. subst c. repeat split; assumption.
Defined.

(** ** The price calculator on lists with elements that are no text *)

Lemma sum_loop_texts {U : UnicodeData} {F} `{PyFloat F} (l : list pyobj) :
  forall (total : F) st,
  sum_loop l total st
    = (Return (fold_left float_add (List.map table_price (texts l)) total),
       set_log (log st ++ concat (List.map skipped l)) st).
Proof.
  induction l as [|o l IH]; intros total st.
  - cbn. rewrite app_nil_r. destruct st; reflexivity.
  - cbn [sum_loop List.map concat texts]. unfold bind at 1.
    destruct o as [s| |z].
    + exact (IH (float_add total (price_of (Text.lower s))) st).
    + etransitivity;
        [exact (IH total (set_log (log st ++ skipped PyNone) st))|].
      cbn [log set_log]. rewrite <- app_assoc. destruct st; reflexivity.
    + etransitivity;
        [exact (IH total (set_log (log st ++ skipped (PyInt z)) st))|].
      cbn [log set_log]. rewrite <- app_assoc. destruct st; reflexivity.
Qed.

Lemma skipped_length (l : list pyobj) :
  (List.length (concat (List.map skipped l)) + List.length (texts l)
   = List.length l)%nat.
Proof.
  induction l as [|o l IH]; [reflexivity|].
  cbn [List.map concat texts]. rewrite List.length_app.
  destruct o; cbn [skipped List.length] in *; lia.
Qed.

(** X4 -- On a non-empty list [calculate_burger_price] passes over the
    elements that are no text ([None], integers): the price is that of
    the text elements alone, one warning is logged for each element
    passed over, and nothing else of the state changes.  A list with no
    text element at all is not an error: it costs 0.0. *)
Theorem calculate_burger_price_skips :
  forall (U : UnicodeData) F (HF : PyFloat F) (l : list pyobj) st,
    l <> [] ->
    calculate_burger_price (Some l) st
      = (Return (tax_pass (tax_pass (base_sum (texts l)))),
         set_log (log st ++ concat (List.map skipped l)) st) /\
    Forall (fun r => lvl r = WARNING) (concat (List.map skipped l)) /\
    (List.length (concat (List.map skipped l))
     = List.length l - List.length (texts l))%nat /\
    (texts l = [] ->
     tax_pass (tax_pass (base_sum (F := spec_float) (texts l))) = Binary64.lit 0 1).
Proof.
  intros U F HF l st Hne. split_and!.
  - unfold calculate_burger_price.
    assert (Hf : falsy (Some l) = false) by (destruct l; [congruence | reflexivity]).
    rewrite Hf. unfold sum_ingredients, bind, default, from_option, Datatypes.id.
    rewrite sum_loop_texts. unfold lift, base_sum.
    rewrite calculate_tax_default. reflexivity.
  - apply skipped_warnings.
  - pose proof (skipped_length l). lia.
  - intros ->. vm_compute. reflexivity.
Qed.

(** The list of the tests, and a list with no text in it. *)
Lemma calculate_burger_price_skips_witness :
  fst (calculate_burger_price (F := spec_float)
         (Some [PyStr "bun"; PyNone; PyInt 123; PyStr "cheese"]) fresh_state)
    = Return (tax_pass (tax_pass (base_sum ["bun"; "cheese"]))) /\
  fst (calculate_burger_price (F := spec_float)
         (Some [PyNone; PyInt 7]) fresh_state)
    = Return (Binary64.lit 0 1).
Proof.
  split.
  - rewrite (proj1 (calculate_burger_price_skips ucd_listed spec_float binary64
               [PyStr "bun"; PyNone; PyInt 123; PyStr "cheese"] fresh_state
               ltac:(discriminate))).
    reflexivity.
  - destruct (calculate_burger_price_skips ucd_listed spec_float binary64
                [PyNone; PyInt 7] fresh_state ltac:(discriminate))
      as (Hrun & _ & _ & Hzero).
    rewrite Hrun. cbn [fst]. rewrite <- (Hzero eq_refl). reflexivity.
Defined.

(** ** Text: what UTF-8 can encode *)

Lemma run_length_all (p : N -> bool) (l : list N) :
  Forall (fun c => p c = true) l -> Text.run_length p l = List.length l.
Proof.
  induction 1 as [|c l Hc _ IH]; [reflexivity|].
  cbn [Text.run_length List.length]. rewrite Hc, IH. reflexivity.
Qed.

(** A text all of whose characters the encoder takes is encoded. *)
Lemma encode_error_none s :
  Forall (fun c => Text.encodable c = true) (Text.decode s) ->
  Text.encode_error s = None.
Proof.
  intros Hall. unfold Text.encode_error. cbv zeta.
  rewrite (run_length_all _ _ Hall), drop_all. reflexivity.
Qed.

Lemma decode_isascii s :
  Text.isascii s = true ->
  Forall (fun c => (c <? 0x80)%N = true) (Text.decode s).
Proof.
  induction s as [|a s IH]; intros Hs; [constructor|].
  cbn [Text.isascii] in Hs. apply andb_true_iff in Hs as [Ha Hs].
  cbn [Text.decode]. cbv zeta. rewrite Ha. constructor; auto.
Qed.

Lemma encode_error_isascii s : Text.isascii s = true -> Text.encode_error s = None.
Proof.
  intros Hs. apply encode_error_none.
  eapply Forall_impl; [apply decode_isascii, Hs|].
  intros c Hc. apply N.ltb_lt in Hc. unfold Text.encodable.
  apply orb_true_iff. left. apply N.ltb_lt. lia.
Qed.

(** The decimal text of a number is ASCII. *)
Lemma pretty_N_go_isascii x : forall s,
  Text.isascii s = true -> Text.isascii (pretty_N_go x s) = true.
Proof.
  induction (N.lt_wf_0 x) as [x _ IH]; intros s Hs.
  destruct (decide (x = 0)%N) as [->|Hx]; [exact Hs|].
  rewrite pretty_N_go_step by lia.
  apply IH; [apply N.div_lt; lia|].
  cbn [Text.isascii]. rewrite Hs, andb_true_r.
  unfold pretty_N_char. repeat case_match; reflexivity.
Qed.

Lemma pretty_Z_isascii (z : Z) : Text.isascii (pretty z) = true.
Proof.
  assert (Hpos : forall p : positive, Text.isascii (pretty p) = true).
  { intros p. unfold pretty, pretty_positive, pretty, pretty_N.
    destruct (decide _); [reflexivity|]. apply pretty_N_go_isascii. reflexivity. }
  destruct z as [|p|p]; [reflexivity|apply Hpos|].
  change (Text.isascii (String "-" (pretty p)) = true).
  cbn [Text.isascii]. rewrite Hpos. reflexivity.
Qed.

Lemma encode_error_count (z : Z) : Text.encode_error (pretty z) = None.
Proof. apply encode_error_isascii, pretty_Z_isascii. Qed.

(** ** Text: the start of a text *)

Lemma prefix_refl s : String.prefix s s = true.
Proof.
  induction s as [|a s IH]; [reflexivity|]. cbn [String.prefix].
  destruct (ascii_dec a a); [exact IH | congruence].
Qed.

Lemma prefix_first_bytes n : forall s,
  String.prefix (Text.first_bytes n s) s = true.
Proof.
  unfold Text.first_bytes.
  induction n as [|n IH]; intros [|a s]; try reflexivity.
  cbn [String.substring String.prefix].
  destruct (ascii_dec a a); [apply IH | congruence].
Qed.
(** ** Rules for [hoare] *)



Lemma hoare_raise {A} (P : state -> Prop) e (Q : result A -> state -> Prop) :
  (forall s, P s -> Q (Raise e) s) -> hoare P (raise e) Q.
Proof. intros HQ st HP. apply HQ, HP. Qed.




(** ** The persister, whatever the operating system does *)


Section OsSteps.

Context (n : nat) (st0 : state).




End OsSteps.





Lemma next_fault_raises st e st' :
  next_fault st = (Raise e, st') ->
  fs st' = fs st /\ log st' = log st.
Proof.
  unfold next_fault.
  destruct (os_faults st) as [|[|e' w] rest]; intros [= <- <-] || intros [=];
    split; reflexivity.
Qed.

Lemma mkdtemp_raises prefix st e st' :
  mkdtemp prefix st = (Raise e, st') -> fs st' = fs st.
Proof.
  unfold mkdtemp. intros Hrun.
  apply bind_inv in Hrun as [([] & sa & Hfault & Hrun)|(e' & Hfault & _)].
  - apply next_fault_inv in Hfault as (Hfs & _).
    unfold bind at 1, get in Hrun.
    destruct (fresh_path _ _ _ _) as [[path rest]|]; cbn in Hrun;
      [discriminate|]. injection Hrun as <- <-. exact Hfs.
  - apply next_fault_raises in Hfault as [Hfs _]. exact Hfs.
Qed.

(** What [write_text] leaves on the disk, however it ends: nothing
    new, or the file with the data or the start of it; when it
    returns, with the data. *)
Lemma write_text_fs path data st :
  (fs (snd (write_text path data st)) = fs st /\
   exists e, fst (write_text path data st) = Raise e) \/
  exists files content,
    fs st !! fst path = Some files /\
    fs (snd (write_text path data st))
      = <[fst path := <[snd path := content]> files]> (fs st) /\
    String.prefix content data = true /\
    (fst (write_text path data st) = Return tt -> content = data).
Proof.
  pose proof (write_text_outcome path data st) as Hout. cbv zeta in Hout.
  assert (Hempty : String.prefix "" data = true) by (destruct data; reflexivity).
  destruct (os_faults st) as [|[|e w] rest]; cbn [tail] in Hout;
    [| |rewrite Hout; left; split; [reflexivity|eauto]].
  all: destruct (fs st !! fst path) as [files|];
    [|destruct Hout as (e' & -> & _); left; split; [reflexivity|eauto]].
  all: right; exists files.
  all: destruct (Text.encode_error data);
    [rewrite Hout; exists ""; split_and!; auto; discriminate|].
  - rewrite Hout. exists data. split_and!; auto using prefix_refl.
  - destruct rest as [|[|e' w'] rest]; rewrite Hout.
    + exists data. split_and!; auto using prefix_refl.
    + exists data. split_and!; auto using prefix_refl.
    + exists (Text.first_bytes w' data).
      split_and!; auto using prefix_first_bytes. discriminate.
Qed.

(** The [except] clause of [save_burger] writes to the log only. *)
Lemma save_handler_fs (e : exc) (s : state) :
  fs (snd (match find_handler e
                   [([OSError; IOError],
                     fun e => logger_error ("Failed to save burger: " ++ exc_msg e) ;;;
                              ret false)]
           with
           | Some h => h s
           | None => (Raise e, s)
           end)) = fs s.
Proof. cbn [find_handler]. destruct (existsb _ _); reflexivity. Qed.

(** The file system after a save of a non-empty description, however
    the save ends. *)
Lemma save_burger_files d st :
  no_text (Some d) = false ->
  fs (snd (save_burger (Some d) st)) = fs st \/
  exists name files,
    fs st !! (tempdir st ++ "/" ++ "burger_orders_" ++ name) = None /\
    fs (snd (save_burger (Some d) st))
      = <[tempdir st ++ "/" ++ "burger_orders_" ++ name := files]> (fs st) /\
    (files = ∅ \/
     (exists content,
        files = {[ "burger.txt" := content ]} /\
        String.prefix content d = true) \/
     (exists content,
        files = {[ "burger.txt" := d; "burger_count.txt" := content ]} /\
        String.prefix content (pretty (BURGER_COUNT st)) = true)).
Proof.
  intros Htext. unfold save_burger. rewrite Htext. unfold try_except.
  destruct (mkdtemp "burger_orders_" st) as [[dir|e] s1] eqn:Hd; step_bind Hd.
  2:{ left. rewrite save_handler_fs. eapply mkdtemp_raises, Hd. }
  apply mkdtemp_returns in Hd as ((name & _ & ->) & Hnone & Hfs1 & Hc1).
  right. exists name.
  change (default "" (Some d)) with d.
  set (dir := tempdir st ++ "/" ++ "burger_orders_" ++ name) in *.
  pose proof (write_text_fs (dir, "burger.txt") d s1) as Hfs2.
  destruct (write_text (dir, "burger.txt") d s1) as [[[]|e] s2] eqn:Hw1;
    step_bind Hw1; cbn [fst snd] in Hfs2.
  2:{ rewrite save_handler_fs.
      destruct Hfs2 as [[Hsame _]|(files & content & Hl & Hfs2 & Hpre & _)].
      - exists ∅. split; [exact Hnone|]. split; [congruence|auto].
      - rewrite Hfs1, lookup_insert_eq in Hl. injection Hl as <-.
        rewrite Hfs1, insert_insert_eq, insert_empty in Hfs2.
        exists {[ "burger.txt" := content ]}. split; [exact Hnone|].
        split; [exact Hfs2|]. right. left. eauto. }
  destruct Hfs2 as [[_ [e [=]]]|(files & content & Hl & Hfs2 & _ & Hdata)].
  rewrite (Hdata eq_refl) in Hfs2. clear Hdata content.
  rewrite Hfs1, lookup_insert_eq in Hl. injection Hl as <-.
  rewrite Hfs1, insert_insert_eq, insert_empty in Hfs2.
  pose proof (same_globals_write_text (dir, "burger.txt") d s1) as [Hc2 _].
  rewrite Hw1 in Hc2. cbn [snd] in Hc2.
  rewrite (bind_return _ _ s2 s2 s2) by reflexivity.
  pose proof (write_text_fs (dir, "burger_count.txt") (pretty (BURGER_COUNT s2)) s2)
    as Hfs3.
  destruct (write_text (dir, "burger_count.txt") (pretty (BURGER_COUNT s2)) s2)
    as [[[]|e] s3] eqn:Hw2; step_bind Hw2; cbn [fst snd] in Hfs3.
  2:{ rewrite save_handler_fs.
      destruct Hfs3 as [[Hsame _]|(files & content & Hl & Hfs3 & Hpre & _)].
      - exists {[ "burger.txt" := d ]}. split; [exact Hnone|].
        split; [congruence|]. right. left. eauto using prefix_refl.
      - rewrite Hfs2, lookup_insert_eq in Hl. injection Hl as <-.
        rewrite Hfs2, insert_insert_eq in Hfs3.
        exists {[ "burger.txt" := d; "burger_count.txt" := content ]}.
        split; [exact Hnone|]. split.
        + rewrite Hfs3. f_equal.
        + right. right. exists content. split; [reflexivity|].
          rewrite Hc2, Hc1 in Hpre. exact Hpre. }
  destruct Hfs3 as [[_ [e [=]]]|(files & content & Hl & Hfs3 & _ & Hdata)].
  rewrite (Hdata eq_refl) in Hfs3. clear Hdata content.
  rewrite Hfs2, lookup_insert_eq in Hl. injection Hl as <-.
  rewrite Hfs2, insert_insert_eq in Hfs3.
  exists {[ "burger.txt" := d; "burger_count.txt" := pretty (BURGER_COUNT st) ]}.
  split; [exact Hnone|]. split.
  - cbn. rewrite Hfs3, Hc2, Hc1. f_equal.
  - right. right. exists (pretty (BURGER_COUNT st)).
    split; [reflexivity | apply prefix_refl].
Qed.

(** X6 -- However a call of [save_burger] ends, every directory that
    existed before still exists and holds the files it held; the call
    makes at most one new directory, named "burger_orders_..." under
    the temporary directory.  Nothing is rolled back, so that directory
    holds what the save had written when it ended: nothing; or
    burger.txt alone, with the description or only a start of it,
    which is no byte at all when the text could not be encoded; or
    burger.txt with the description and burger_count.txt with the
    count or a start of it. *)
Theorem save_burger_keeps_files :
  forall burger st,
    (forall dir files,
       fs st !! dir = Some files ->
       fs (snd (save_burger burger st)) !! dir = Some files) /\
    (fs (snd (save_burger burger st)) = fs st \/
     exists name files,
       fs st !! (tempdir st ++ "/" ++ "burger_orders_" ++ name) = None /\
       fs (snd (save_burger burger st))
         = <[tempdir st ++ "/" ++ "burger_orders_" ++ name := files]> (fs st) /\
       (files = ∅ \/
        (exists content,
           files = {[ "burger.txt" := content ]} /\
           String.prefix content (default "" burger) = true) \/
        (exists content,
           files = {[ "burger.txt" := default "" burger;
                      "burger_count.txt" := content ]} /\
           String.prefix content (pretty (BURGER_COUNT st)) = true))).
Proof.
  intros burger st.
  assert (Hfiles :
    fs (snd (save_burger burger st)) = fs st \/
    exists name files,
      fs st !! (tempdir st ++ "/" ++ "burger_orders_" ++ name) = None /\
      fs (snd (save_burger burger st))
        = <[tempdir st ++ "/" ++ "burger_orders_" ++ name := files]> (fs st) /\
      (files = ∅ \/
       (exists content,
          files = {[ "burger.txt" := content ]} /\
          String.prefix content (default "" burger) = true) \/
       (exists content,
          files = {[ "burger.txt" := default "" burger;
                     "burger_count.txt" := content ]} /\
          String.prefix content (pretty (BURGER_COUNT st)) = true))).
  { destruct (no_text burger) eqn:Htext.
    - left. unfold save_burger. rewrite Htext. reflexivity.
    - destruct burger as [d|]; [|discriminate].
      exact (save_burger_files d st Htext). }
  split; [|exact Hfiles].
  intros dir files Hdir.
  destruct Hfiles as [->|(name & files' & Hnone & -> & _)]; [exact Hdir|].
  rewrite lookup_insert_ne; [exact Hdir|]. intros <-. congruence.
Qed.

(** On a file system that holds an older order: the data is cut after
    four bytes. *)
Lemma save_burger_keeps_files_witness :
  fs (snd (save_burger (Some "test burger")
             (set_os_faults [Done; Done;
                             Fault (Exc OSError "[Errno 28] No space left on device") 4]
                (set_fs {[ "/tmp/burger_orders_older" := {[ "burger.txt" := "old" ]} ]}
                        fresh_state))))
    !! "/tmp/burger_orders_older"
  = Some {[ "burger.txt" := "old" ]} /\
  fs (snd (save_burger (Some "test burger")
             (set_os_faults [Done; Done;
                             Fault (Exc OSError "[Errno 28] No space left on device") 4]
                (set_fs {[ "/tmp/burger_orders_older" := {[ "burger.txt" := "old" ]} ]}
                        fresh_state))))
    !! "/tmp/burger_orders_k3x9q2ab"
  = Some {[ "burger.txt" := "test" ]}.
Proof.
  split.
  - apply (proj1 (save_burger_keeps_files (Some "test burger")
                    (set_os_faults [Done; Done;
                                    Fault (Exc OSError "[Errno 28] No space left on device") 4]
                       (set_fs {[ "/tmp/burger_orders_older" := {[ "burger.txt" := "old" ]} ]}
                               fresh_state)))).
    reflexivity.
  - vm_compute. reflexivity.
Defined.

(** The states of a save, on a disk where the directory can be made. *)
Lemma mkdtemp_done st faults dir names :
  os_faults st = Done :: faults ->
  fresh_path (tempdir st) "burger_orders_" (tmp_names st) (fs st)
    = Some (dir, names) ->
  mkdtemp "burger_orders_" st
    = (Return dir,
       set_tmp_names names (set_fs (<[dir := ∅]> (fs st)) (set_os_faults faults st))).
Proof.
  intros Hfaults Hfresh. unfold mkdtemp, bind, next_fault, get. rewrite Hfaults.
  cbn [tempdir tmp_names fs set_os_faults]. rewrite Hfresh. reflexivity.
Qed.

(** A write that goes through. *)
Lemma write_text_done path data st files faults :
  fs st !! fst path = Some files ->
  Text.encode_error data = None ->
  os_faults st = Done :: Done :: faults ->
  write_text path data st
    = (Return tt,
       set_fs (<[fst path := <[snd path := data]> files]> (fs st))
              (set_os_faults faults st)).
Proof.
  intros Hl Hdata Hfaults.
  pose proof (write_text_outcome path data st) as Hout. cbv zeta in Hout.
  rewrite Hfaults, Hl, Hdata in Hout. exact Hout.
Qed.

(** A write whose file cannot be opened. *)
Lemma write_text_refused path data st e written faults :
  os_faults st = Fault e written :: faults ->
  write_text path data st = (Raise e, set_os_faults faults st).
Proof.
  intros Hfaults.
  pose proof (write_text_outcome path data st) as Hout. cbv zeta in Hout.
  rewrite Hfaults in Hout. exact Hout.
Qed.

(** A write that is cut short. *)
Lemma write_text_torn path data st files e written faults :
  fs st !! fst path = Some files ->
  Text.encode_error data = None ->
  os_faults st = Done :: Fault e written :: faults ->
  write_text path data st
    = (Raise e,
       set_fs (<[fst path := <[snd path := Text.first_bytes written data]> files]>
                 (fs st))
              (set_os_faults faults st)).
Proof.
  intros Hl Hdata Hfaults.
  pose proof (write_text_outcome path data st) as Hout. cbv zeta in Hout.
  rewrite Hfaults, Hl, Hdata in Hout. exact Hout.
Qed.

(** A write of a text that cannot be encoded, into a file that can be
    opened. *)
Lemma write_text_unencodable path data st files reason :
  fs st !! fst path = Some files ->
  Text.encode_error data = Some reason ->
  match os_faults st with Fault _ _ :: _ => False | _ => True end ->
  write_text path data st
    = (Raise (Exc UnicodeEncodeError reason),
       set_fs (<[fst path := <[snd path := ""]> files]> (fs st))
              (set_os_faults (tail (os_faults st)) st)).
Proof.
  intros Hl Hdata Hfaults.
  pose proof (write_text_outcome path data st) as Hout. cbv zeta in Hout.
  rewrite Hl, Hdata in Hout.
  destruct (os_faults st) as [|[|e w] rest]; [exact Hout|exact Hout|contradiction].
Qed.

(** X7 -- A save that fails half-way rolls nothing back.  With the
    directory made and a description that UTF-8 can encode, an
    [OSError] at the writing of burger.txt, at the opening of
    burger_count.txt or at the writing of it makes [save_burger]
    return [False] with that one error logged, and the new directory
    stays behind: with burger.txt cut short, with burger.txt alone, or
    with burger.txt and a burger_count.txt cut short, which is empty
    when no byte got through. *)
Theorem save_burger_half_way :
  forall d st e written rest name names,
    no_text (Some d) = false ->
    Text.encode_error d = None ->
    isinstance e OSError = true ->
    fresh_path (tempdir st) "burger_orders_" (tmp_names st) (fs st)
      = Some (tempdir st ++ "/" ++ "burger_orders_" ++ name, names) ->
    forall files,
      (os_faults st = Done :: Done :: Fault e written :: rest /\
       files = {[ "burger.txt" := Text.first_bytes written d ]}) \/
      (os_faults st = Done :: Done :: Done :: Fault e written :: rest /\
       files = {[ "burger.txt" := d ]}) \/
      (os_faults st = Done :: Done :: Done :: Done :: Fault e written :: rest /\
       files = {[ "burger.txt" := d;
                  "burger_count.txt" :=
                    Text.first_bytes written (pretty (BURGER_COUNT st)) ]}) ->
      exists st',
        save_burger (Some d) st = (Return false, st') /\
        fs st' = <[tempdir st ++ "/" ++ "burger_orders_" ++ name := files]> (fs st) /\
        log st' = (log st ++ [LogRecord ERROR
                                ("Failed to save burger: " ++ exc_msg e)])%list /\
        os_faults st' = rest.
Proof.
  intros d st e written rest name names Htext Hdata Hinst Hfresh files Hcase.
  set (dir := tempdir st ++ "/" ++ "burger_orders_" ++ name) in *.
  unfold save_burger. rewrite Htext. unfold try_except.
  change (default "" (Some d)) with d.
  destruct Hcase as [[Hfaults ->]|[[Hfaults ->]|[Hfaults ->]]].
  - step_bind (mkdtemp_done st _ dir names Hfaults Hfresh).
    match goal with |- context [bind (write_text ?p d) _ ?s] =>
      rewrite (bind_raise _ _ s _ _
                 (write_text_torn p d s ∅ e written rest
                    (lookup_insert_eq _ _ _) Hdata eq_refl)) end.
    cbn [find_handler existsb]. rewrite Hinst. cbn [orb].
    eexists. split; [reflexivity|].
    cbn [fst snd fs log os_faults set_fs set_log set_os_faults set_tmp_names].
    rewrite insert_insert_eq, insert_empty. auto.
  - step_bind (mkdtemp_done st _ dir names Hfaults Hfresh).
    match goal with |- context [bind (write_text ?p d) _ ?s] =>
      rewrite (bind_return _ _ s _ _
                 (write_text_done p d s ∅ _
                    (lookup_insert_eq _ _ _) Hdata eq_refl)) end.
    match goal with |- context [bind get ?k ?s] =>
      rewrite (bind_return get k s s s eq_refl) end.
    match goal with |- context [bind (write_text ?p (pretty ?c)) _ ?s] =>
      rewrite (bind_raise _ _ s _ _
                 (write_text_refused p (pretty c) s e written rest eq_refl)) end.
    cbn [find_handler existsb]. rewrite Hinst. cbn [orb].
    eexists. split; [reflexivity|].
    cbn [fst snd fs log os_faults set_fs set_log set_os_faults set_tmp_names].
    rewrite insert_insert_eq, insert_empty. auto.
  - step_bind (mkdtemp_done st _ dir names Hfaults Hfresh).
    match goal with |- context [bind (write_text ?p d) _ ?s] =>
      rewrite (bind_return _ _ s _ _
                 (write_text_done p d s ∅ _
                    (lookup_insert_eq _ _ _) Hdata eq_refl)) end.
    match goal with |- context [bind get ?k ?s] =>
      rewrite (bind_return get k s s s eq_refl) end.
    match goal with |- context [bind (write_text ?p (pretty ?c)) _ ?s] =>
      rewrite (bind_raise _ _ s _ _
                 (write_text_torn p (pretty c) s {[ "burger.txt" := d ]} e written rest
                    (lookup_insert_eq _ _ _)
                    (encode_error_count c) eq_refl)) end.
    cbn [find_handler existsb]. rewrite Hinst. cbn [orb].
    eexists. split; [reflexivity|].
    cbn [fst snd fs log os_faults BURGER_COUNT
         set_fs set_log set_os_faults set_tmp_names].
    rewrite !insert_insert_eq. split_and!; auto.
Qed.

(** A full disk at the writing of the count, and at the opening of its
    file. *)
Lemma save_burger_half_way_witness :
  (exists st',
     save_burger (Some "test burger")
       (set_os_faults [Done; Done; Done; Done;
                       Fault (Exc OSError "[Errno 28] No space left on device") 0]
                      fresh_state)
       = (Return false, st') /\
     fs st' = {[ "/tmp/burger_orders_k3x9q2ab" :=
                 {[ "burger.txt" := "test burger"; "burger_count.txt" := "" ]} ]}) /\
  (exists st',
     save_burger (Some "test burger")
       (set_os_faults [Done; Done; Done;
                       Fault (Exc OSError "[Errno 28] No space left on device") 0]
                      fresh_state)
       = (Return false, st') /\
     fs st' = {[ "/tmp/burger_orders_k3x9q2ab" := {[ "burger.txt" := "test burger" ]} ]}).
Proof.
  split.
  - destruct (save_burger_half_way "test burger"
                (set_os_faults [Done; Done; Done; Done;
                                Fault (Exc OSError "[Errno 28] No space left on device") 0]
                               fresh_state)
                (Exc OSError "[Errno 28] No space left on device") 0 [] "k3x9q2ab" []
                eq_refl eq_refl eq_refl eq_refl
                {[ "burger.txt" := "test burger"; "burger_count.txt" := "" ]})
      as (st' & Hrun & Hfs & _).
    { right. right. split; reflexivity. }
    exists st'. split; [exact Hrun | exact Hfs].
  - destruct (save_burger_half_way "test burger"
                (set_os_faults [Done; Done; Done;
                                Fault (Exc OSError "[Errno 28] No space left on device") 0]
                               fresh_state)
                (Exc OSError "[Errno 28] No space left on device") 0 [] "k3x9q2ab" []
                eq_refl eq_refl eq_refl eq_refl
                {[ "burger.txt" := "test burger" ]})
      as (st' & Hrun & Hfs & _).
    { right. left. split; reflexivity. }
    exists st'. split; [exact Hrun | exact Hfs].
Defined.

(** A save that returns [True]: the directory it made. *)
Lemma save_burger_made burger st st' :
  save_burger burger st = (Return true, st') ->
  exists d dir,
    burger = Some d /\
    fs st !! dir = None /\
    fs st' = <[dir := order_files d (BURGER_COUNT st)]> (fs st).
Proof.
  intros Hrun. destruct (no_text burger) eqn:Htext.
  { unfold save_burger in Hrun. rewrite Htext in Hrun. discriminate. }
  destruct burger as [d|]; [|discriminate].
  apply save_burger_true in Hrun as (dir & s1 & s2 & s3 & Hdir & Hw1 & Hw2 & ->);
    [|exact Htext].
  apply mkdtemp_returns in Hdir as (_ & Hnone & Hfs1 & Hc1).
  apply write_text_returns in Hw1 as (files1 & Hl1 & Hfs2 & Hc2 & _).
  apply write_text_returns in Hw2 as (files2 & Hl2 & Hfs3 & Hc3 & _).
  cbn [fst snd] in *.
  exists d, dir. split; [reflexivity|]. split; [exact Hnone|].
  cbn [fs set_log]. rewrite Hfs3.
  rewrite Hfs2, lookup_insert_eq in Hl2. injection Hl2 as <-.
  rewrite Hfs1, lookup_insert_eq in Hl1. injection Hl1 as <-.
  rewrite Hfs2, Hfs1, !insert_insert_eq, Hc2, Hc1.
  f_equal.
Qed.
(** X8 -- Two saves that both return [True] make two different
    directories, and the second leaves the first as it was: after both,
    each directory holds its own description and the counter of its
    own save.  Whatever ran between the two saves, if it left the file
    system alone. *)
Theorem save_burger_twice :
  forall b1 b2 st s1 s1' s2,
    save_burger b1 st = (Return true, s1) ->
    fs s1' = fs s1 ->
    save_burger b2 s1' = (Return true, s2) ->
    exists d1 d2 dir1 dir2,
      b1 = Some d1 /\ b2 = Some d2 /\
      bool_decide (dir1 = dir2) = false /\
      fs st !! dir1 = None /\ fs st !! dir2 = None /\
      fs s2 !! dir1 = Some (order_files d1 (BURGER_COUNT st)) /\
      fs s2 !! dir2 = Some (order_files d2 (BURGER_COUNT s1')).
Proof.
  intros b1 b2 st s1 s1' s2 Hrun1 Hsame Hrun2.
  apply save_burger_made in Hrun1 as (d1 & dir1 & -> & Hnone1 & Hfs1).
  apply save_burger_made in Hrun2 as (d2 & dir2 & -> & Hnone2 & Hfs2).
  rewrite Hsame, Hfs1 in Hnone2. rewrite Hsame, Hfs1 in Hfs2.
  assert (Hne : dir1 <> dir2).
  { intros <-. rewrite lookup_insert_eq in Hnone2. discriminate. }
  rewrite lookup_insert_ne in Hnone2 by exact Hne.
  exists d1, d2, dir1, dir2. split_and!; auto.
  - apply bool_decide_eq_false_2, Hne.
  - rewrite Hfs2, lookup_insert_ne by auto. apply lookup_insert_eq.
  - rewrite Hfs2. apply lookup_insert_eq.
Qed.

(** Two saves where the first random name comes up again; the counter
    has moved between them. *)
Lemma save_burger_twice_witness :
  exists s1 s2 dir1 dir2,
    save_burger (Some "first") (set_tmp_names ["aaaa"; "aaaa"; "bbbb"] fresh_state)
      = (Return true, s1) /\
    save_burger (Some "second") (set_count 1 s1) = (Return true, s2) /\
    bool_decide (dir1 = dir2) = false /\
    fs s2 !! dir1 = Some (order_files "first" 0) /\
    fs s2 !! dir2 = Some (order_files "second" 1).
Proof.
  assert (Hrun1 :
    save_burger (Some "first") (set_tmp_names ["aaaa"; "aaaa"; "bbbb"] fresh_state)
    = (Return true,
       snd (save_burger (Some "first")
              (set_tmp_names ["aaaa"; "aaaa"; "bbbb"] fresh_state))))
    by (vm_compute; reflexivity).
  set (s1 := snd (save_burger (Some "first")
                    (set_tmp_names ["aaaa"; "aaaa"; "bbbb"] fresh_state))) in *.
  assert (Hrun2 :
    save_burger (Some "second") (set_count 1 s1)
    = (Return true, snd (save_burger (Some "second") (set_count 1 s1))))
    by (vm_compute; reflexivity).
  set (s2 := snd (save_burger (Some "second") (set_count 1 s1))) in *.
  destruct (save_burger_twice _ _ _ s1 (set_count 1 s1) s2 Hrun1 eq_refl Hrun2)
    as (d1 & d2 & dir1 & dir2 & [= <-] & [= <-] & Hne & _ & _ & Hl1 & Hl2).
  exists s1, s2, dir1, dir2. split_and!; assumption.
Defined.

(** ** What the collectors and the assembler leave of the disk *)

#[global] Instance same_disk_preorder : PreOrder same_disk.
Proof.
  split.
  - intros st. repeat split.
  - intros s1 s2 s3 (?&?&?&?) (?&?&?&?). repeat split; congruence.
Qed.

Lemma same_disk_modify (f : state -> state) :
  (forall st, same_disk st (f st)) -> respects same_disk (modify f).
Proof. intros Hf st. apply Hf. Qed.

Lemma same_disk_log l m : respects same_disk (logger_log l m).
Proof. apply same_disk_modify. intros st. repeat split. Qed.

Lemma same_disk_input prompt : respects same_disk (input prompt).
Proof.
  intros st. unfold input. cbn [stdin set_stdout].
  destruct (stdin st) as [|[a|e] rest]; repeat split.
Qed.

Lemma same_disk_get_bun : respects same_disk get_bun.
Proof.
  unfold get_bun. apply respects_bind; [apply _ | apply same_disk_input |].
  intros raw. destruct (Text.is_empty _); [|apply respects_ret; apply _].
  apply respects_bind; [apply _ | apply same_disk_log |].
  intros _. apply respects_ret; apply _.
Qed.

Lemma same_disk_get_meat {U : UnicodeData} : respects same_disk get_meat.
Proof.
  unfold get_meat. apply respects_bind; [apply _ | apply same_disk_input |].
  intros raw. destruct (Text.is_empty _).
  - apply respects_bind; [apply _ | apply same_disk_log |].
    intros _. apply respects_ret; apply _.
  - destruct (bool_decide _); [apply respects_ret; apply _|].
    apply respects_bind; [apply _ | apply same_disk_log |].
    intros _. apply respects_ret; apply _.
Qed.

Lemma same_disk_get_cheese : respects same_disk get_cheese.
Proof.
  unfold get_cheese. apply respects_bind; [apply _ | apply same_disk_input |].
  intros raw. destruct (Text.is_empty _); [|apply respects_ret; apply _].
  apply respects_bind; [apply _ | apply same_disk_log |].
  intros _. apply respects_ret; apply _.
Qed.

Lemma same_disk_calculate_burger_price {U : UnicodeData} {F} `{PyFloat F} l :
  respects same_disk (calculate_burger_price (F := F) l).
Proof.
  intros st. destruct l as [[|o l]|]; try (repeat split).
  all: destruct (calculate_burger_price_returns o l st) as [v ->]; reflexivity.
Qed.

Lemma same_disk_assemble_burger {U : UnicodeData} {F} `{PyFloat F} :
  respects same_disk (assemble_burger (F := F)).
Proof.
  unfold assemble_burger. apply respects_try_except; [apply _ | |].
  - apply respects_bind; [apply _ | |intros r; apply respects_ret; apply _].
    unfold assemble_try.
    apply respects_bind; [apply _ | |intros _].
    { apply same_disk_modify. intros st. repeat split. }
    apply respects_bind; [apply _ | apply same_disk_get_bun | intros c_bun].
    apply respects_bind; [apply _ | apply same_disk_get_meat | intros c_meat].
    apply respects_bind; [apply _ | apply respects_ret; apply _ | intros c_sauce].
    apply respects_bind; [apply _ | apply same_disk_get_cheese | intros c_cheese].
    apply respects_bind;
      [apply _ | apply same_disk_calculate_burger_price | intros price].
    apply respects_bind; [apply _ | apply respects_get; apply _ | intros st].
    apply respects_bind; [apply _ | | intros timestamp].
    { apply respects_bind; [apply _ | apply respects_get; apply _ |].
      intros s. apply respects_ret; apply _. }
    apply respects_bind; [apply _ | | intros _].
    { apply same_disk_modify. intros s. repeat split. }
    apply respects_bind; [apply _ | apply respects_get; apply _ | intros st2].
    apply respects_bind; [apply _ | apply same_disk_log | intros _].
    apply respects_ret; apply _.
  - constructor; [|constructor]. intros e. cbn [snd].
    apply respects_bind; [apply _ | apply same_disk_log |].
    intros _. apply respects_ret; apply _.
Qed.

(** ** The collectors at the terminal *)

Lemma io_step_get_bun st :
  io_step "What kind of bun would you like? " st
          (fst (get_bun st)) (snd (get_bun st)).
Proof.
  destruct (stdin st) as [|[a|e] rest] eqn:Hin.
  - unfold get_bun.
    rewrite (bind_raise _ _ _ _ _ (input_eof "What kind of bun would you like? " st Hin)).
    split; [reflexivity | exact I].
  - rewrite (get_bun_line st a rest Hin). cbn [fst snd]. cbv zeta.
    destruct (blank a); (split; [reflexivity | exists a; rewrite Hin; reflexivity]).
  - unfold get_bun.
    rewrite (bind_raise _ _ _ _ _
               (input_fails "What kind of bun would you like? " st e rest Hin)).
    split; [reflexivity | exact I].
Qed.

Lemma io_step_get_meat {U : UnicodeData} st :
  io_step "Enter the meat type: " st (fst (get_meat st)) (snd (get_meat st)).
Proof.
  destruct (stdin st) as [|[a|e] rest] eqn:Hin.
  - unfold get_meat.
    rewrite (bind_raise _ _ _ _ _ (input_eof "Enter the meat type: " st Hin)).
    split; [reflexivity | exact I].
  - rewrite (get_meat_line st a rest Hin). cbn [fst snd]. cbv zeta.
    destruct (blank a); [|destruct (bool_decide _)];
      (split; [reflexivity | exists a; rewrite Hin; reflexivity]).
  - unfold get_meat.
    rewrite (bind_raise _ _ _ _ _
               (input_fails "Enter the meat type: " st e rest Hin)).
    split; [reflexivity | exact I].
Qed.

Lemma io_step_get_cheese st :
  io_step "What kind of cheese? " st (fst (get_cheese st)) (snd (get_cheese st)).
Proof.
  destruct (stdin st) as [|[a|e] rest] eqn:Hin.
  - unfold get_cheese.
    rewrite (bind_raise _ _ _ _ _ (input_eof "What kind of cheese? " st Hin)).
    split; [reflexivity | exact I].
  - rewrite (get_cheese_line st a rest Hin). cbn [fst snd]. cbv zeta.
    destruct (blank a); (split; [reflexivity | exists a; rewrite Hin; reflexivity]).
  - unfold get_cheese.
    rewrite (bind_raise _ _ _ _ _
               (input_fails "What kind of cheese? " st e rest Hin)).
    split; [reflexivity | exact I].
Qed.

(** The [except] clause of [assemble_burger] writes to the log only. *)
Lemma assemble_burger_terminal {U : UnicodeData} {F} `{PyFloat F} st :
  stdout (snd (assemble_burger (F := F) st)) = stdout (snd (assemble_try (F := F) st)) /\
  stdin (snd (assemble_burger (F := F) st)) = stdin (snd (assemble_try (F := F) st)).
Proof.
  pose proof (assemble_burger_cases (F := F) st) as Hcases.
  destruct (assemble_try st) as [[[bd d]|e] s'].
  - rewrite Hcases. split; reflexivity.
  - destruct (isinstance e Exception); rewrite Hcases; split; reflexivity.
Qed.

(** X9 -- [assemble_burger] writes its prompts in the order bun, meat,
    cheese and never asks for the sauce: whatever happens, what it has
    written is the first one, two or three of these prompts, each once.
    When it succeeds it has written all three and has read exactly
    three lines of input. *)
Theorem assemble_burger_prompts :
  forall (U : UnicodeData) F (HF : PyFloat F) st,
    exists k,
      (1 <= k <= 3)%nat /\
      stdout (snd (assemble_burger (F := F) st))
        = (stdout st ++ take k prompts)%list /\
      match fst (assemble_burger (F := F) st) with
      | Return (Some _) =>
          k = 3%nat /\
          exists a b c,
            stdin st = Line a :: Line b :: Line c
                         :: stdin (snd (assemble_burger (F := F) st))
      | _ => True
      end.
Proof.
  intros U F HF st.
  destruct (assemble_burger_terminal (F := F) st) as [-> ->].
  pose proof (assemble_burger_cases (F := F) st) as Hcases.
  pose proof (assemble_try_steps (F := F) st) as Hsteps.
  pose proof (io_step_get_bun (set_count (BURGER_COUNT st + 1) st)) as [Hob Hib].
  cbn [stdout stdin set_count] in Hob, Hib.
  destruct (get_bun _) as [[b|e] s1]; cbn [fst snd] in Hob, Hib.
  2:{ rewrite Hsteps in *. exists 1%nat. split; [lia|]. split; [exact Hob|].
      destruct (isinstance e Exception); rewrite Hcases; exact I. }
  pose proof (io_step_get_meat s1) as [Hom Him].
  destruct (get_meat s1) as [[m|e] s2]; cbn [fst snd] in Hom, Him.
  2:{ rewrite Hsteps in *. exists 2%nat. split; [lia|]. split.
      - cbn [snd]. rewrite Hom, Hob, <- app_assoc. reflexivity.
      - destruct (isinstance e Exception); rewrite Hcases; exact I. }
  pose proof (io_step_get_cheese s2) as [Hoc Hic].
  destruct (get_cheese s2) as [[c|e] s3]; cbn [fst snd] in Hoc, Hic.
  2:{ rewrite Hsteps in *. exists 3%nat. split; [lia|]. split.
      - cbn [snd]. rewrite Hoc, Hom, Hob, <- !app_assoc. reflexivity.
      - destruct (isinstance e Exception); rewrite Hcases; exact I. }
  cbv zeta in Hsteps. rewrite Hsteps in *. exists 3%nat. split; [lia|]. split.
  - cbn [snd stdout set_log set_last]. rewrite Hoc, Hom, Hob, <- !app_assoc.
    reflexivity.
  - rewrite Hcases. cbn [fst snd stdin set_log set_last]. split; [reflexivity|].
    destruct Hib as [a Ha], Him as [a' Ha'], Hic as [a'' Ha''].
    exists a, a', a''. rewrite Ha, Ha', Ha''. reflexivity.
Qed.

(** The input ends after two answers: two lines read, three prompts
    written. *)
Lemma assemble_burger_prompts_witness :
  exists k,
    (1 <= k <= 3)%nat /\
    stdout (snd (assemble_burger (F := spec_float)
                   (set_stdin [Line "brioche"; Line "fish"] fresh_state)))
      = take k prompts /\
    k = 3%nat.
Proof.
  destruct (assemble_burger_prompts ucd_listed spec_float binary64
              (set_stdin [Line "brioche"; Line "fish"] fresh_state))
    as (k & Hk & Hout & _).
  exists k. split; [exact Hk|]. split; [exact Hout|].
  assert (Hlen : List.length
                   (stdout (snd (assemble_burger (F := spec_float)
                                   (set_stdin [Line "brioche"; Line "fish"]
                                              fresh_state)))) = 3%nat)
    by (vm_compute; reflexivity).
  rewrite Hout, List.length_app, length_take in Hlen. cbn in Hlen. lia.
Defined.

(** X10 -- The order record of a successful assembly has as its id the
    counter after the increment, which is also the counter the
    assembly leaves and the number in the record "Burger #n assembled
    successfully" that ends the log; its sauce is "ketchup and
    mustard"; and the description returned, which is also what
    [last_burger] then holds, is made of the record's own fields. *)
Theorem assemble_burger_order :
  forall (U : UnicodeData) F (HF : PyFloat F) st bd d st',
    assemble_try (F := F) st = (Return (bd, d), st') ->
    id bd = BURGER_COUNT st + 1 /\
    BURGER_COUNT st' = id bd /\
    last (log st')
      = Some (LogRecord INFO ("Burger #" ++ pretty (id bd)
                              ++ " assembled successfully")) /\
    sauce bd = "ketchup and mustard" /\
    d = bun bd ++ " bun + " ++ meat bd ++ " + " ++ sauce bd ++ " + "
          ++ cheese bd ++ " cheese" /\
    last_burger st' = Some d.
Proof.
  intros U F HF st bd d st' Hrun.
  pose proof (assemble_try_count (F := F) st) as Hcount. rewrite Hrun in Hcount.
  cbn [snd] in Hcount.
  pose proof (assemble_try_steps (F := F) st) as Hsteps.
  pose proof (assemble_try_returns st bd d st' Hrun)
    as (b & m & c & s1 & s2 & s3 & Hb & Hm & Hc & -> & -> & Hlast & _).
  rewrite Hb, Hm, Hc in Hsteps. cbv zeta in Hsteps. rewrite Hrun in Hsteps.
  injection Hsteps as Hid Hst'.
  cbn [id sauce bun meat cheese]. split_and!; auto.
  rewrite Hst'. cbn [log set_log]. rewrite last_snoc. rewrite <- Hid. reflexivity.
Qed.

(** The second order of a process. *)
Lemma assemble_burger_order_witness :
  exists bd d st',
    assemble_try (F := spec_float)
      (set_count 1 (set_stdin [Line "brioche"; Line "fish"; Line "swiss"] fresh_state))
      = (Return (bd, d), st') /\
    id bd = 2 /\
    last (log st') = Some (LogRecord INFO "Burger #2 assembled successfully").
Proof.
  destruct (assemble_try (F := spec_float)
              (set_count 1 (set_stdin [Line "brioche"; Line "fish"; Line "swiss"]
                                      fresh_state)))
    as [[[bd d]|e] st'] eqn:Hrun; [|vm_compute in Hrun; discriminate].
  exists bd, d, st'. split; [reflexivity|].
  destruct (assemble_burger_order ucd_listed spec_float binary64 _ _ _ _ Hrun)
    as (Hid & _ & Hlog & _).
  split; [exact Hid|]. rewrite Hlog, Hid. reflexivity.
Defined.

(** ** The orchestrator, case by case *)

Section MainFacts.

Context {U : UnicodeData} {F : Type} `{PyFloat F}.

(** [main] in terms of what [assemble_burger] and [save_burger] do. *)
Lemma main_steps st :
  match assemble_burger (F := F)
          (set_log (log st ++ [LogRecord INFO "Starting burger creation process"]) st)
  with
  | (Return burger, s1) =>
      if no_text burger then
        main (F := F) st
          = (Return tt,
             set_log (log s1 ++ [LogRecord ERROR "Failed to create burger"]) s1)
      else
        match save_burger burger s1 with
        | (Return true, s2) =>
            main (F := F) st
              = (Return tt,
                 set_log (log s2 ++ [LogRecord INFO
                                       "Burger creation completed successfully"]) s2)
        | (Return false, s2) =>
            main (F := F) st
              = (Return tt,
                 set_log (log s2 ++ [LogRecord ERROR "Failed to save burger"]) s2)
        | (Raise e, s2) => main (F := F) st = main_except e s2
        end
  | (Raise e, s1) => main (F := F) st = main_except e s1
  end.
Proof.
  unfold main.
  rewrite (bind_return _ _ st tt
             (set_log (log st ++ [LogRecord INFO "Starting burger creation process"]) st))
    by reflexivity.
  unfold try_except, main_except.
  destruct (assemble_burger _) as [[burger|e] s1] eqn:Hrun; step_bind Hrun.
  - destruct (no_text burger); cbn [negb]; [reflexivity|].
    destruct (save_burger burger s1) as [[[]|e] s2] eqn:Hsave; step_bind Hsave;
      try reflexivity.
    cbn [find_handler existsb]. rewrite !orb_false_r.
    destruct (isinstance e KeyboardInterrupt); [reflexivity|].
    destruct (isinstance e Exception); reflexivity.
  - cbn [find_handler existsb]. rewrite !orb_false_r.
    destruct (isinstance e KeyboardInterrupt); [reflexivity|].
    destruct (isinstance e Exception); reflexivity.
Qed.

(** What [assemble_burger] lets through is no instance of [Exception]. *)
Lemma assemble_burger_raises st e s1 :
  assemble_burger (F := F) st = (Raise e, s1) -> isinstance e Exception = false.
Proof.
  pose proof (assemble_burger_cases (F := F) st) as Hcases.
  destruct (assemble_try st) as [[[bd d]|e'] s'].
  - rewrite Hcases. discriminate.
  - destruct (isinstance e' Exception) eqn:Hinst; rewrite Hcases;
      [discriminate|]. intros [= <- <-]. exact Hinst.
Qed.

(** A collector that finds a line reads that one line. *)
Lemma get_bun_reads st line rest :
  stdin st = Line line :: rest ->
  exists s1, get_bun st = (Return (bun_of line), s1) /\ stdin s1 = rest.
Proof.
  intros Hin. rewrite (get_bun_line st line rest Hin). eexists.
  split; [reflexivity|]. cbv zeta. destruct (blank line); reflexivity.
Qed.

Lemma get_meat_reads st line rest :
  stdin st = Line line :: rest ->
  exists s1, get_meat st = (Return (meat_of line), s1) /\ stdin s1 = rest.
Proof.
  intros Hin. rewrite (get_meat_line st line rest Hin). eexists.
  split; [reflexivity|]. cbv zeta.
  destruct (blank line); [|destruct (bool_decide _)]; reflexivity.
Qed.

Lemma get_cheese_reads st line rest :
  stdin st = Line line :: rest ->
  exists s1, get_cheese st = (Return (cheese_of line), s1) /\ stdin s1 = rest.
Proof.
  intros Hin. rewrite (get_cheese_line st line rest Hin). eexists.
  split; [reflexivity|]. cbv zeta. destruct (blank line); reflexivity.
Qed.

(** Three lines of input make an order. *)
Lemma assemble_burger_lines st a b c rest :
  stdin st = Line a :: Line b :: Line c :: rest ->
  exists s1,
    assemble_burger (F := F) st = (Return (Some (describe a b c)), s1) /\
    stdin s1 = rest /\
    same_disk st s1 /\
    BURGER_COUNT s1 = BURGER_COUNT st + 1 /\
    last_burger s1 = Some (describe a b c) /\
    errors s1 = errors st.
Proof.
  intros Hin.
  pose proof (assemble_try_steps (F := F) st) as Hsteps.
  destruct (get_bun_reads (set_count (BURGER_COUNT st + 1) st) a _ Hin)
    as (s1 & Hb & Hin2).
  destruct (get_meat_reads s1 b _ Hin2) as (s2 & Hm & Hin3).
  destruct (get_cheese_reads s2 c _ Hin3) as (s3 & Hc & Hin4).
  rewrite Hb, Hm, Hc in Hsteps. cbv zeta in Hsteps.
  pose proof (assemble_burger_cases (F := F) st) as Hcases.
  rewrite Hsteps in Hcases.
  pose proof (assemble_try_returns st _ _ _ Hsteps)
    as (_ & _ & _ & _ & _ & _ & _ & _ & _ & _ & _ & Hlast & Herr).
  eexists. split; [exact Hcases|]. split_and!.
  - exact Hin4.
  - pose proof (same_disk_assemble_burger (F := F) st) as Hdisk.
    rewrite Hcases in Hdisk. exact Hdisk.
  - pose proof (assemble_burger_count (F := F) st) as Hcount.
    rewrite Hcases in Hcount. exact Hcount.
  - exact Hlast.
  - exact Herr.
Qed.

End MainFacts.

Lemma describe_not_empty {U : UnicodeData} a b c :
  no_text (Some (describe a b c)) = false.
Proof. unfold describe, no_text. destruct (bun_of a); reflexivity. Qed.

(** ** The persister on a healthy disk *)

Lemma mkdtemp_quiet st path names :
  os_faults st = [] ->
  fresh_path (tempdir st) "burger_orders_" (tmp_names st) (fs st)
    = Some (path, names) ->
  mkdtemp "burger_orders_" st
    = (Return path, set_tmp_names names (set_fs (<[path := ∅]> (fs st)) st)).
Proof.
  intros Hfaults Hfresh. unfold mkdtemp, bind, next_fault, get.
  rewrite Hfaults, Hfresh. reflexivity.
Qed.



(** The same save of a description that UTF-8 cannot encode: the
    directory and an empty burger.txt are made, and the error of the
    encoder passes the [except] clause of [save_burger]. *)
Lemma save_burger_unencodable d st path names reason :
  no_text (Some d) = false ->
  Text.encode_error d = Some reason ->
  os_faults st = [] ->
  fresh_path (tempdir st) "burger_orders_" (tmp_names st) (fs st)
    = Some (path, names) ->
  exists s2,
    save_burger (Some d) st = (Raise (Exc UnicodeEncodeError reason), s2) /\
    fs s2 = <[path := {[ "burger.txt" := "" ]}]> (fs st) /\
    log s2 = log st /\
    BURGER_COUNT s2 = BURGER_COUNT st /\
    last_burger s2 = last_burger st.
Proof.
  intros Htext Hdata Hfaults Hfresh.
  unfold save_burger. rewrite Htext. unfold try_except.
  change (default "" (Some d)) with d.
  step_bind (mkdtemp_quiet st path names Hfaults Hfresh).
  match goal with |- context [bind (write_text ?p d) _ ?s] =>
    rewrite (bind_raise _ _ s _ _
               (write_text_unencodable p d s ∅ reason (lookup_insert_eq _ _ _) Hdata
                  ltac:(cbn [os_faults set_tmp_names set_fs]; rewrite Hfaults;
                        exact I))) end.
  eexists. split; [reflexivity|].
  cbn [fst snd fs log BURGER_COUNT last_burger
       set_fs set_log set_os_faults set_tmp_names].
  rewrite !insert_insert_eq. split_and!; auto.
Qed.

(** ** What [save_burger] lets through *)

Lemma mkdtemp_log prefix st : log (snd (mkdtemp prefix st)) = log st.
Proof.
  unfold mkdtemp, bind, next_fault, get.
  destruct (os_faults st) as [|[|e w] rest]; [| |reflexivity].
  all: cbn [tempdir tmp_names fs set_os_faults];
    destruct (fresh_path _ _ _ _) as [[path names]|]; reflexivity.
Qed.

Lemma write_text_log path data st : log (snd (write_text path data st)) = log st.
Proof.
  pose proof (write_text_outcome path data st) as Hout. cbv zeta in Hout.
  destruct (os_faults st) as [|[|e w] rest]; cbn [tail] in Hout;
    [| |rewrite Hout; reflexivity].
  all: destruct (fs st !! fst path) as [files|];
    [|destruct Hout as (e' & -> & _); reflexivity].
  all: destruct (Text.encode_error data); [rewrite Hout; reflexivity|].
  - rewrite Hout. reflexivity.
  - destruct rest as [|[|e' w'] rest]; rewrite Hout; reflexivity.
Qed.

(** An exception that leaves [save_burger] is no [OSError], and the
    save has logged nothing. *)
Lemma save_burger_raises burger st e s2 :
  save_burger burger st = (Raise e, s2) ->
  isinstance e OSError = false /\ log s2 = log st.
Proof.
  unfold save_burger. destruct (no_text burger); [discriminate|].
  unfold try_except.
  assert (Hhandler : forall e' s',
    match find_handler e'
            [([OSError; IOError],
              fun e => logger_error ("Failed to save burger: " ++ exc_msg e) ;;;
                       ret false)]
    with
    | Some h => h s'
    | None => (Raise e', s')
    end = (Raise e, s2) ->
    isinstance e OSError = false /\ s2 = s').
  { intros e' s'. cbn [find_handler existsb]. unfold IOError.
    destruct (isinstance e' OSError) eqn:Hinst; cbn [orb]; [discriminate|].
    intros [= <- <-]. split; [exact Hinst | reflexivity]. }
  pose proof (mkdtemp_log "burger_orders_" st) as Hl1.
  destruct (mkdtemp "burger_orders_" st) as [[dir|e1] s1] eqn:Hd; step_bind Hd;
    cbn [snd] in Hl1.
  2:{ intros Hrun. apply Hhandler in Hrun as [Hinst ->]. split; assumption. }
  pose proof (write_text_log (dir, "burger.txt") (default "" burger) s1) as Hl2.
  destruct (write_text (dir, "burger.txt") (default "" burger) s1)
    as [[[]|e2] s2'] eqn:Hw1; step_bind Hw1; cbn [snd] in Hl2.
  2:{ intros Hrun. apply Hhandler in Hrun as [Hinst ->]. split; congruence. }
  rewrite (bind_return _ _ s2' s2' s2') by reflexivity.
  pose proof (write_text_log (dir, "burger_count.txt")
                (pretty (BURGER_COUNT s2')) s2') as Hl3.
  destruct (write_text (dir, "burger_count.txt") (pretty (BURGER_COUNT s2')) s2')
    as [[[]|e3] s3] eqn:Hw2; step_bind Hw2; cbn [snd] in Hl3.
  2:{ intros Hrun. apply Hhandler in Hrun as [Hinst ->]. split; congruence. }
  discriminate.
Qed.

(** A fault that is no [OSError], at the first call of the persister. *)
Lemma save_burger_lets_through d st e written faults :
  no_text (Some d) = false ->
  os_faults st = Fault e written :: faults ->
  isinstance e OSError = false ->
  save_burger (Some d) st = (Raise e, set_os_faults faults st).
Proof.
  intros Htext Hfaults Hinst.
  assert (Hd : mkdtemp "burger_orders_" st = (Raise e, set_os_faults faults st)).
  { unfold mkdtemp. apply bind_raise. unfold next_fault. rewrite Hfaults. reflexivity. }
  unfold save_burger. rewrite Htext. unfold try_except. step_bind Hd.
  cbn [find_handler existsb]. unfold IOError. rewrite Hinst. reflexivity.
Qed.

Lemma exception_not_interrupt e :
  isinstance e Exception = true -> isinstance e KeyboardInterrupt = false.
Proof. destruct e as [[] msg]; (discriminate || reflexivity). Qed.

Section MainClaims.

Context {U : UnicodeData} {F : Type} `{PyFloat F}.

Lemma assemble_burger_some st d s1 :
  assemble_burger (F := F) st = (Return (Some d), s1) ->
  last_burger s1 = Some d /\ errors s1 = errors st.
Proof.
  pose proof (assemble_burger_cases (F := F) st) as Hcases.
  destruct (assemble_try st) as [[[bd d']|e] s'] eqn:Htry.
  - rewrite Hcases. intros [= <- <-].
    apply assemble_try_returns in Htry
      as (_ & _ & _ & _ & _ & _ & _ & _ & _ & _ & _ & Hlast & Herr).
    split; assumption.
  - destruct (isinstance e Exception); rewrite Hcases; discriminate.
Qed.

Lemma assemble_burger_let_through st e s1 :
  assemble_burger (F := F) st = (Raise e, s1) ->
  last_burger s1 = last_burger st /\ errors s1 = errors st.
Proof.
  pose proof (assemble_burger_cases (F := F) st) as Hcases.
  destruct (assemble_try st) as [[[bd d']|e'] s'] eqn:Htry.
  - rewrite Hcases. discriminate.
  - apply assemble_try_raises in Htry.
    destruct (isinstance e' Exception); rewrite Hcases; [discriminate|].
    intros [= <- <-]. exact Htry.
Qed.

(** An order that is returned was made from three lines of input. *)
Lemma assemble_burger_described st d s' :
  assemble_burger (F := F) st = (Return (Some d), s') ->
  exists a b c,
    stdin st = Line a :: Line b :: Line c :: stdin s' /\ d = describe a b c.
Proof.
  intros Hrun.
  pose proof (assemble_burger_cases (F := F) st) as Hcases.
  destruct (assemble_try st) as [[[bd d']|e] s1] eqn:Htry.
  2:{ destruct (isinstance e Exception); rewrite Hcases in Hrun; discriminate. }
  rewrite Hcases in Hrun. injection Hrun as -> ->.
  pose proof (assemble_try_steps (F := F) st) as Hsteps.
  pose proof (io_step_get_bun (set_count (BURGER_COUNT st + 1) st)) as [_ Hib].
  destruct (get_bun _) as [[b|e] sb] eqn:Hb;
    [|rewrite Hsteps in Htry; discriminate].
  cbn [fst snd stdin set_count] in Hib. destruct Hib as [a Ha].
  destruct (get_bun_reads (set_count (BURGER_COUNT st + 1) st) a _ Ha)
    as (sb' & Hb' & _).
  rewrite Hb in Hb'. injection Hb' as -> <-.
  pose proof (io_step_get_meat sb) as [_ Him].
  destruct (get_meat sb) as [[m|e] sm] eqn:Hm;
    [|rewrite Hsteps in Htry; discriminate].
  cbn [fst snd] in Him. destruct Him as [a' Ha'].
  destruct (get_meat_reads sb a' _ Ha') as (sm' & Hm' & _).
  rewrite Hm in Hm'. injection Hm' as -> <-.
  pose proof (io_step_get_cheese sm) as [_ Hic].
  destruct (get_cheese sm) as [[c|e] sc] eqn:Hc;
    [|rewrite Hsteps in Htry; discriminate].
  cbn [fst snd] in Hic. destruct Hic as [a'' Ha''].
  destruct (get_cheese_reads sm a'' _ Ha'') as (sc' & Hc' & _).
  rewrite Hc in Hc'. injection Hc' as -> <-.
  cbv zeta in Hsteps. rewrite Hsteps in Htry. injection Htry as _ <- <-.
  exists a, a', a''. cbn [stdin set_log set_last].
  split; [congruence | reflexivity].
Qed.

(** An exception at one of the prompts that [assemble_burger] does not
    catch. *)
Lemma assemble_burger_interrupted st lines e rest :
  (List.length lines <= 2)%nat ->
  isinstance e Exception = false ->
  stdin st = (List.map Line lines ++ Fails e :: rest)%list ->
  exists s1, assemble_burger (F := F) st = (Raise e, s1) /\ stdin s1 = rest.
Proof.
  intros Hlen Hinst Hin.
  pose proof (assemble_try_steps (F := F) st) as Hsteps.
  pose proof (assemble_burger_cases (F := F) st) as Hcases.
  assert (Hfails : forall (m : M string) prompt k s tail,
            m = bind (input prompt) k ->
            stdin s = Fails e :: tail ->
            m s = (Raise e, set_stdin tail (set_stdout (stdout s ++ [prompt]) s))).
  { intros m prompt k s tail -> Hs.
    apply bind_raise, input_fails, Hs. }
  destruct lines as [|a [|b [|c lines]]]; cbn [List.map app] in Hin;
    [| | |cbn in Hlen; lia].
  - rewrite (Hfails get_bun _ _ (set_count (BURGER_COUNT st + 1) st) rest
               eq_refl Hin) in Hsteps.
    rewrite Hsteps, Hinst in Hcases. eexists. split; [exact Hcases|reflexivity].
  - destruct (get_bun_reads (set_count (BURGER_COUNT st + 1) st) a _ Hin)
      as (s1 & Hb & Hin2).
    rewrite Hb in Hsteps.
    rewrite (Hfails get_meat _ _ s1 rest eq_refl Hin2) in Hsteps.
    rewrite Hsteps, Hinst in Hcases. eexists. split; [exact Hcases|reflexivity].
  - destruct (get_bun_reads (set_count (BURGER_COUNT st + 1) st) a _ Hin)
      as (s1 & Hb & Hin2).
    destruct (get_meat_reads s1 b _ Hin2) as (s2 & Hm & Hin3).
    rewrite Hb, Hm in Hsteps.
    rewrite (Hfails get_cheese _ _ s2 rest eq_refl Hin3) in Hsteps.
    rewrite Hsteps, Hinst in Hcases. eexists. split; [exact Hcases|reflexivity].
Qed.

End MainClaims.



(** X12 -- The last record of [main] tells the truth: when [main]
    returns and its log ends with "Burger creation completed
    successfully", a directory that did not exist before holds
    burger.txt with the description that [last_burger] now holds and
    burger_count.txt with the counter after the increment, and the rest
    of the file system is as it was. *)
Theorem main_completed :
  forall (U : UnicodeData) F (HF : PyFloat F) st st',
    main (F := F) st = (Return tt, st') ->
    last (log st')
      = Some (LogRecord INFO "Burger creation completed successfully") ->
    exists d dir,
      fs st !! dir = None /\
      fs st' = <[dir := order_files d (BURGER_COUNT st + 1)]> (fs st) /\
      last_burger st' = Some d /\
      BURGER_COUNT st' = BURGER_COUNT st + 1.
Proof.
  intros U F HF st st' Hmain Hlog.
  pose proof (main_steps (F := F) st) as Hsteps.
  pose proof (assemble_burger_count (F := F)
                (set_log (log st ++ [LogRecord INFO "Starting burger creation process"]) st))
    as Hcount.
  pose proof (same_disk_assemble_burger (F := F)
                (set_log (log st ++ [LogRecord INFO "Starting burger creation process"]) st))
    as (Hfs & _).
  assert (Hexcept : forall e s, main_except e s = (Return tt, st') -> False).
  { intros e s. unfold main_except.
    destruct (isinstance e KeyboardInterrupt).
    - intros [= <-]. cbn [log set_log] in Hlog. rewrite last_snoc in Hlog.
      discriminate.
    - destruct (isinstance e Exception); discriminate. }
  destruct (assemble_burger _) as [[burger|e] s1] eqn:Hrun;
    cbn [snd fs BURGER_COUNT set_log] in Hcount, Hfs.
  2:{ rewrite Hsteps in Hmain. destruct (Hexcept _ _ Hmain). }
  destruct (no_text burger) eqn:Htext.
  { rewrite Hsteps in Hmain. injection Hmain as <-.
    cbn [log set_log] in Hlog. rewrite last_snoc in Hlog. discriminate. }
  destruct burger as [d|]; [|discriminate].
  apply assemble_burger_some in Hrun as [Hlast _].
  pose proof (same_globals_save_burger (Some d) s1) as [Hc2 Hl2].
  destruct (save_burger (Some d) s1) as [[[]|e] s2] eqn:Hsave;
    cbn [snd] in Hc2, Hl2.
  - apply save_burger_made in Hsave as (d' & dir & [= <-] & Hnone & Hfs2).
    rewrite Hsteps in Hmain. injection Hmain as <-.
    exists d, dir. cbn [fs last_burger BURGER_COUNT set_log].
    rewrite <- Hfs, <- Hcount, Hfs2. split_and!; auto; congruence.
  - rewrite Hsteps in Hmain. injection Hmain as <-.
    cbn [log set_log] in Hlog. rewrite last_snoc in Hlog. discriminate.
  - rewrite Hsteps in Hmain. destruct (Hexcept _ _ Hmain).
Qed.

(** A process on its second order. *)
Lemma main_completed_witness :
  exists d dir,
    fs (snd (main (F := spec_float)
               (set_count 1
                  (set_stdin [Line "rye"; Line "turkey"; Line "swiss"] fresh_state))))
      = {[ dir := order_files d 2 ]} /\
    d = "rye bun + turkey + ketchup and mustard + swiss cheese".
Proof.
  destruct (main_completed ucd_listed spec_float binary64
              (set_count 1
                 (set_stdin [Line "rye"; Line "turkey"; Line "swiss"] fresh_state))
              (snd (main (F := spec_float)
                      (set_count 1
                         (set_stdin [Line "rye"; Line "turkey"; Line "swiss"]
                                    fresh_state)))))
    as (d & dir & _ & Hfs & Hlast & _).
  - vm_compute. reflexivity.
  - vm_compute. reflexivity.
  - exists d, dir. split; [exact Hfs|].
    assert (Hd : last_burger
              (snd (main (F := spec_float)
                      (set_count 1
                         (set_stdin [Line "rye"; Line "turkey"; Line "swiss"]
                                    fresh_state))))
              = Some "rye bun + turkey + ketchup and mustard + swiss cheese")
      by (vm_compute; reflexivity).
    rewrite Hlast in Hd. injection Hd as ->. reflexivity.
Defined.



(** X14 -- Ctrl-C at any of the three prompts is no failure: [main]
    returns normally, its log ends with "Burger creation cancelled by
    user", no error is logged, nothing is written to disk and
    [last_burger] is as it was; the counter has advanced all the same,
    and the input up to the interrupt is consumed. *)
Theorem main_cancelled :
  forall (U : UnicodeData) F (HF : PyFloat F) st lines m rest,
    (List.length lines <= 2)%nat ->
    stdin st = (List.map Line lines ++ Fails (Exc KeyboardInterrupt m) :: rest)%list ->
    exists st',
      main (F := F) st = (Return tt, st') /\
      last (log st') = Some (LogRecord INFO "Burger creation cancelled by user") /\
      errors st' = errors st /\
      fs st' = fs st /\
      last_burger st' = last_burger st /\
      BURGER_COUNT st' = BURGER_COUNT st + 1 /\
      stdin st' = rest.
Proof.
  intros U F HF st lines m rest Hlen Hin.
  pose proof (main_steps (F := F) st) as Hsteps.
  set (s0 := set_log (log st ++ [LogRecord INFO "Starting burger creation process"]) st)
    in *.
  destruct (assemble_burger_interrupted (F := F) s0 lines
              (Exc KeyboardInterrupt m) rest Hlen eq_refl Hin)
    as (s1 & Hrun & Hstdin).
  pose proof (assemble_burger_count (F := F) s0) as Hcount.
  pose proof (same_disk_assemble_burger (F := F) s0) as (Hfs & _).
  pose proof (assemble_burger_let_through s0 _ s1 Hrun) as [Hlast Herr].
  rewrite Hrun in Hsteps, Hcount, Hfs. cbn [snd] in Hcount, Hfs.
  eexists. split; [exact Hsteps|]. cbn [log fs last_burger BURGER_COUNT stdin set_log].
  split_and!; auto.
  - apply last_snoc.
  - rewrite errors_logged, Herr. unfold s0. rewrite errors_logged.
    rewrite !bool_decide_eq_false_2 by discriminate. lia.
Qed.

(** Ctrl-C at the prompt for the cheese. *)
Lemma main_cancelled_witness :
  exists st',
    main (F := spec_float)
      (set_stdin [Line "rye"; Line "turkey"; Fails (Exc KeyboardInterrupt "")]
                 fresh_state)
      = (Return tt, st') /\
    errors st' = O /\ fs st' = ∅ /\ last_burger st' = None /\ BURGER_COUNT st' = 1.
Proof.
  destruct (main_cancelled ucd_listed spec_float binary64
              (set_stdin [Line "rye"; Line "turkey"; Fails (Exc KeyboardInterrupt "")]
                         fresh_state)
              ["rye"; "turkey"] "" [])
    as (st' & Hrun & _ & Herr & Hfs & Hlast & Hcount & _).
  - cbn. lia.
  - reflexivity.
  - exists st'. split_and!; assumption.
Defined.

(** X15 -- An exception out of [save_burger] that is an [Exception] is
    not swallowed.  Whenever [main] raises an [Exception], it is no
    [OSError], the order had been assembled from three lines of input,
    [main] has logged it as "Unexpected error during burger creation:
    ..." and nothing else as an error, and the disk holds what the
    save had made when it was raised: nothing new, or a new directory
    that is empty, holds a burger.txt that may be cut short, or holds
    burger.txt and a burger_count.txt that may be cut short.  So for a
    description with a lone surrogate on a healthy disk: [main] raises
    the [UnicodeEncodeError] of the encoder, and the new directory
    with an empty burger.txt stays behind.  And for a fault that is no
    [OSError] when the directory is to be made: it is raised again,
    with nothing written. *)
Theorem main_unexpected :
  forall (U : UnicodeData) F (HF : PyFloat F),
    (forall st e st',
       main (F := F) st = (Raise e, st') ->
       isinstance e Exception = true ->
       isinstance e OSError = false /\
       (exists a b c rest,
          stdin st = Line a :: Line b :: Line c :: rest /\
          last_burger st' = Some (describe a b c) /\
          (fs st' = fs st \/
           exists name files,
             fs st !! (tempdir st ++ "/" ++ "burger_orders_" ++ name) = None /\
             fs st' = <[tempdir st ++ "/" ++ "burger_orders_" ++ name := files]> (fs st) /\
             (files = ∅ \/
              (exists content,
                 files = {[ "burger.txt" := content ]} /\
                 String.prefix content (describe a b c) = true) \/
              (exists content,
                 files = {[ "burger.txt" := describe a b c;
                            "burger_count.txt" := content ]} /\
                 String.prefix content (pretty (BURGER_COUNT st + 1)) = true)))) /\
       last (log st')
         = Some (LogRecord ERROR ("Unexpected error during burger creation: "
                                  ++ exc_msg e)) /\
       errors st' = S (errors st) /\
       BURGER_COUNT st' = BURGER_COUNT st + 1) /\
    (forall st a b c rest reason path names,
       stdin st = Line a :: Line b :: Line c :: rest ->
       Text.encode_error (describe a b c) = Some reason ->
       os_faults st = [] ->
       fresh_path (tempdir st) "burger_orders_" (tmp_names st) (fs st)
         = Some (path, names) ->
       exists st',
         main (F := F) st = (Raise (Exc UnicodeEncodeError reason), st') /\
         fs st' = <[path := {[ "burger.txt" := "" ]}]> (fs st) /\
         last (log st')
           = Some (LogRecord ERROR ("Unexpected error during burger creation: "
                                    ++ reason))) /\
    (forall st a b c rest e written faults,
       stdin st = Line a :: Line b :: Line c :: rest ->
       os_faults st = Fault e written :: faults ->
       isinstance e OSError = false ->
       isinstance e Exception = true ->
       exists st',
         main (F := F) st = (Raise e, st') /\
         fs st' = fs st /\
         last (log st')
           = Some (LogRecord ERROR ("Unexpected error during burger creation: "
                                    ++ exc_msg e))).
Proof.
  intros U F HF. split_and!.
  - intros st e st' Hmain Hexc.
    pose proof (main_steps (F := F) st) as Hsteps.
    set (s0 := set_log (log st ++ [LogRecord INFO "Starting burger creation process"]) st)
      in *.
    pose proof (assemble_burger_count (F := F) s0) as Hcount.
    pose proof (same_disk_assemble_burger (F := F) s0) as (Hfs & Hdir & _).
    destruct (assemble_burger s0) as [[burger|e1] s1] eqn:Hrun;
      cbn [snd fs tempdir BURGER_COUNT set_log s0] in Hcount, Hfs, Hdir.
    2:{ apply assemble_burger_raises in Hrun. rewrite Hsteps in Hmain.
        unfold main_except in Hmain. rewrite Hrun in Hmain.
        destruct (isinstance e1 KeyboardInterrupt); [discriminate|].
        injection Hmain as <- <-. congruence. }
    destruct (no_text burger) eqn:Htext; [rewrite Hsteps in Hmain; discriminate|].
    destruct burger as [d|]; [|discriminate].
    pose proof (assemble_burger_some s0 d s1 Hrun) as [Hlast Herr].
    apply assemble_burger_described in Hrun as (a & b & c & Hin & ->).
    cbn [stdin set_log s0] in Hin.
    pose proof (save_burger_files (describe a b c) s1 Htext) as Hfiles.
    pose proof (same_globals_save_burger (Some (describe a b c)) s1) as [Hc2 Hl2].
    destruct (save_burger (Some (describe a b c)) s1) as [[[]|e2] s2] eqn:Hsave;
      [rewrite Hsteps in Hmain; discriminate..|].
    cbn [snd] in Hfiles, Hc2, Hl2.
    apply save_burger_raises in Hsave as [Hos Hlog].
    rewrite Hsteps in Hmain. unfold main_except in Hmain.
    destruct (isinstance e2 KeyboardInterrupt); [discriminate|].
    destruct (isinstance e2 Exception) eqn:Hexc2;
      injection Hmain as <- <-; [|congruence].
    split; [exact Hos|]. split_and!.
    + exists a, b, c, (stdin s1). cbn [last_burger fs set_log]. split_and!.
      * exact Hin.
      * congruence.
      * rewrite Hfs, Hdir, Hcount in Hfiles. exact Hfiles.
    + cbn [log set_log]. apply last_snoc.
    + rewrite errors_logged. rewrite bool_decide_eq_true_2 by reflexivity.
      unfold errors in *. rewrite Hlog. unfold s0 in Herr.
      cbn [log set_log] in Herr. rewrite count_level_app in Herr.
      change (count_level ERROR [_]) with O in Herr. lia.
    + cbn [BURGER_COUNT set_log]. congruence.
  - intros st a b c rest reason path names Hin Hdata Hfaults Hfresh.
    pose proof (main_steps (F := F) st) as Hsteps.
    destruct (assemble_burger_lines (F := F)
                (set_log (log st ++ [LogRecord INFO "Starting burger creation process"]) st)
                a b c rest Hin)
      as (s1 & Hrun & _ & (Hfs & Hdir & Hnames & Hos) & _).
    cbn [fs tempdir tmp_names os_faults set_log] in *.
    rewrite Hrun, describe_not_empty in Hsteps.
    destruct (save_burger_unencodable (describe a b c) s1 path names reason)
      as (s2 & Hsave & Hfs2 & _).
    + apply describe_not_empty.
    + exact Hdata.
    + congruence.
    + rewrite Hdir, Hnames, Hfs. exact Hfresh.
    + rewrite Hsave in Hsteps. eexists. split; [exact Hsteps|].
      cbn [fs log set_log]. split; [congruence | apply last_snoc].
  - intros st a b c rest e written faults Hin Hfaults Hos Hexc.
    pose proof (main_steps (F := F) st) as Hsteps.
    destruct (assemble_burger_lines (F := F)
                (set_log (log st ++ [LogRecord INFO "Starting burger creation process"]) st)
                a b c rest Hin)
      as (s1 & Hrun & _ & (Hfs & _ & _ & Hfaults1) & _).
    cbn [fs os_faults set_log] in *.
    rewrite Hrun, describe_not_empty in Hsteps.
    rewrite (save_burger_lets_through (describe a b c) s1 e written faults) in Hsteps;
      [|apply describe_not_empty|congruence|exact Hos].
    unfold main_except in Hsteps.
    rewrite (exception_not_interrupt e Hexc), Hexc in Hsteps.
    eexists. split; [exact Hsteps|].
    cbn [log fs set_log set_os_faults]. split; [exact Hfs | apply last_snoc].
Qed.

(** A lone surrogate in the name of the bun, as the terminal hands
    over a byte that is no UTF-8. *)
Lemma main_unexpected_witness :
  exists st',
    main (F := spec_float)
      (set_stdin [Line ("rye" ++ Text.utf8 0xDC80); Line "turkey"; Line "swiss"]
                 fresh_state)
      = (Raise (Exc UnicodeEncodeError
                  "'utf-8' codec can't encode character '\udc80' in position 3: surrogates not allowed"),
         st') /\
    fs st' = {[ "/tmp/burger_orders_k3x9q2ab" := {[ "burger.txt" := "" ]} ]}.
Proof.
  destruct (proj1 (proj2 (main_unexpected ucd_listed spec_float binary64))
              (set_stdin [Line ("rye" ++ Text.utf8 0xDC80); Line "turkey"; Line "swiss"]
                         fresh_state)
              ("rye" ++ Text.utf8 0xDC80) "turkey" "swiss" []
              "'utf-8' codec can't encode character '\udc80' in position 3: surrogates not allowed"
              "/tmp/burger_orders_k3x9q2ab" []
              eq_refl ltac:(vm_compute; reflexivity) eq_refl eq_refl)
    as (st' & Hrun & Hfs & _).
  exists st'. split; [exact Hrun | exact Hfs].
Defined.

(** X16 -- Tax passes compose, as far as the call stack goes.  For
    counts that are not negative and that each fit the room on the
    stack, [calculate_tax] with [m] passes and with [n] passes on its
    result both return; [calculate_tax] with [m + n] passes returns
    the same price when [m + n] fits the room too, and raises
    [RecursionError] when it does not.  So the two passes the
    calculator asks for are one pass after one pass. *)
Theorem calculate_tax_compose :
  forall F (HF : PyFloat F) (room : nat) (price : F) (m n : Z),
    0 <= m -> 0 <= n ->
    (Z.to_nat m <= room)%nat -> (Z.to_nat n <= room)%nat ->
    exists p v,
      calculate_tax room price m = Return p /\
      calculate_tax room p n = Return v /\
      calculate_tax room price (m + n)
        = if bool_decide (Z.to_nat (m + n) <= room)%nat then Return v
          else Raise (Exc RecursionError "maximum recursion depth exceeded").
Proof.
  intros F HF room price m n Hm Hn Hmr Hnr.
  exists (Nat.iter (Z.to_nat m) tax_pass price),
         (Nat.iter (Z.to_nat n) tax_pass (Nat.iter (Z.to_nat m) tax_pass price)).
  split_and!.
  - rewrite <- (Z2Nat.id m) at 1 by assumption.
    apply calculate_tax_passes, Hmr.
  - rewrite <- (Z2Nat.id n) at 1 by assumption.
    apply calculate_tax_passes, Hnr.
  - rewrite <- (Z2Nat.id (m + n)) at 1 by lia.
    case_bool_decide as Hroom.
    + rewrite calculate_tax_passes by exact Hroom.
      rewrite Z2Nat.inj_add by assumption.
      rewrite Nat.add_comm. f_equal. apply Nat.iter_add.
    + apply calculate_tax_overflow. lia.
Qed.

(** The default count, in binary64; and two times 600 passes, which
    each fit the stack and together do not. *)
Lemma calculate_tax_compose_witness :
  (exists p v,
     calculate_tax (F := spec_float) tax_room (Binary64.lit 80 1) 1 = Return p /\
     calculate_tax tax_room p 1 = Return v /\
     calculate_tax tax_room (Binary64.lit 80 1) (1 + 1) = Return v) /\
  (exists p v,
     calculate_tax (F := spec_float) tax_room (Binary64.lit 80 1) 600 = Return p /\
     calculate_tax tax_room p 600 = Return v /\
     calculate_tax tax_room (Binary64.lit 80 1) (600 + 600)
       = Raise (Exc RecursionError "maximum recursion depth exceeded")).
Proof.
  split.
  - destruct (calculate_tax_compose spec_float binary64 tax_room
                (Binary64.lit 80 1) 1 1)
      as (p & v & Hp & Hv & Hsum);
      [lia | lia | vm_compute; lia | vm_compute; lia |].
    exists p, v. split_and!; assumption.
  - destruct (calculate_tax_compose spec_float binary64 tax_room
                (Binary64.lit 80 1) 600 600)
      as (p & v & Hp & Hv & Hsum);
      [lia | lia | vm_compute; lia | vm_compute; lia |].
    exists p, v. split_and!; assumption.
Defined.

Section RunFacts.

Context {U : UnicodeData} {F : Type} `{PyFloat F}.

Lemma run_op_attempt o st :
  BURGER_COUNT (run_op (F := F) o st) = BURGER_COUNT st + attempts [o].
Proof.
  destruct o as [l| | | | | |b|]; cbn [run_op];
    match goal with |- context [attempts ?l] =>
      let v := eval vm_compute in (attempts l) in change (attempts l) with v end.
  - destruct (keeps_calculate_burger_price (F := F) l st) as [-> _]. lia.
  - destruct (keeps_get_bun st) as [-> _]. lia.
  - destruct (keeps_get_meat st) as [-> _]. lia.
  - cbn. lia.
  - destruct (keeps_get_cheese st) as [-> _]. lia.
  - rewrite assemble_burger_count. lia.
  - destruct (same_globals_save_burger b st) as [-> _]. lia.
  - rewrite main_count. lia.
Qed.

End RunFacts.

(** X17 -- The counter counts the assemblies attempted: after any run
    of the module's operations it is the counter before plus the
    number of calls of [assemble_burger], made directly or by [main],
    whether they succeeded or not; no other operation changes it. *)
Theorem counter_counts_attempts :
  forall (U : UnicodeData) F (HF : PyFloat F) (os : list operation) st,
    BURGER_COUNT (run_ops (F := F) os st) = BURGER_COUNT st + attempts os.
Proof.
  intros U F HF os. induction os as [|o os IH]; intros st.
  - cbn. unfold attempts. cbn. lia.
  - cbn [run_ops fold_left]. change (fold_left _ os ?s) with (run_ops (F := F) os s).
    rewrite IH, run_op_attempt. unfold attempts. cbn [List.filter].
    destruct o; cbn [List.length]; lia.
Qed.

(** A session: a price asked, a failed order, a run of [main], a
    save. *)
Lemma counter_counts_attempts_witness :
  BURGER_COUNT
    (run_ops (F := spec_float)
       [OpCalculatePrice (Some [PyStr "bun"]); OpAssemble; OpMain;
        OpSave (Some "x")]
       (set_stdin [Line "rye"] fresh_state))
    = 2.
Proof.
  exact (counter_counts_attempts ucd_listed spec_float binary64
           [OpCalculatePrice (Some [PyStr "bun"]); OpAssemble; OpMain;
            OpSave (Some "x")]
           (set_stdin [Line "rye"] fresh_state)).
Defined.
